(** * Scoring and classification engine of the writing corpus

    A shallow embedding of [scripts/analyze/score-articles.py].

    The script works on Python dictionaries that are shared and updated in
    place: the rule table [CATEGORY_BASE_SCORES] is a module-level dict of
    dicts, [calculate_base_score] copies one entry, the two adjusters and
    [score_article] write into that copy, and [main] writes the result into
    the article's nested ["rewrite_status"] dict.  The embedding therefore
    keeps an explicit store of dict objects and threads it through every
    function in a small state-and-exception monad.  Values are dynamically
    typed as in Python, and an operation applied to a value of the wrong type
    raises the exception Python raises.

    The records the script reads are written by
    [scripts/extract/metadata_extractor.py]; its [generate_statistics] and
    [generate_article_id] are embedded as well. *)

From stdpp Require Import base gmap strings list fin_maps pretty.
From Stdlib Require Import ZArith Lia Ascii.

Open Scope string_scope.
Open Scope Z_scope.

(** * The embedding *)

(** ** Values, dict objects and the store *)

Abbreviation loc := positive (only parsing).

(** The JSON-like values met in article records: [None], integers, strings
    and references to dict objects.  Floats, booleans and lists are not
    modelled. *)
Inductive val : Type :=
  | VNone
  | VInt (n : Z)
  | VStr (s : string)
  | VRef (l : loc).

Coercion VStr : string >-> val.

#[global] Instance val_eq_dec : EqDecision val.
Proof. solve_decision. Defined.

Definition val_to_sum (v : val) : unit + Z + string + positive :=
  match v with
  | VNone => inl (inl (inl tt))
  | VInt n => inl (inl (inr n))
  | VStr s => inl (inr s)
  | VRef l => inr l
  end.

Definition val_of_sum (x : unit + Z + string + positive) : val :=
  match x with
  | inl (inl (inl _)) => VNone
  | inl (inl (inr n)) => VInt n
  | inl (inr s) => VStr s
  | inr l => VRef l
  end.

#[global] Instance val_countable : Countable val.
Proof. apply (inj_countable' val_to_sum val_of_sum). by intros []. Defined.

(** A dict object maps keys to values; the store maps addresses to dict
    objects.  Dict keys are values as well; a reference is never used as a
    key (a dict is unhashable, see [hashable]). *)
Abbreviation dict := (gmap val val) (only parsing).
Abbreviation heap := (gmap loc (gmap val val)) (only parsing).

(** ** Exceptions and the monad *)

Inductive exn : Type := TypeError | KeyError | AttributeError.

#[global] Instance exn_eq_dec : EqDecision exn.
Proof. solve_decision. Defined.

(** A computation runs on a store and yields a value or an exception,
    together with the store it leaves behind: what was written before an
    exception stays written. *)
Definition M (A : Type) : Type := heap → (exn + A) * heap.

#[global] Instance M_ret : MRet M := λ A x h, (inr x, h).

#[global] Instance M_bind : MBind M := λ A B f m h,
  match m h with
  | (inl e, h') => (inl e, h')
  | (inr x, h') => f x h'
  end.

Definition raise {A : Type} (e : exn) : M A := λ h, (inl e, h).

(** ** Python primitives *)

(** Only a reference to a dict object has the methods [get] and [copy]. *)
Definition deref (v : val) : M dict := λ h,
  match v with
  | VRef l =>
      match h !! l with
      | Some d => (inr d, h)
      | None => (inl AttributeError, h)
      end
  | _ => (inl AttributeError, h)
  end.

Definition hashable (k : val) : bool :=
  match k with VRef _ => false | _ => true end.

(** [d.get(k, dflt)] *)
Definition dict_get (d k dflt : val) : M val :=
  m ← deref d;
  if hashable k then mret (default dflt (m !! k)) else raise TypeError.

(** [d[k]].  Every subscript of the script has a string or [None] key, for
    which subscripting anything but a dict is a [TypeError]. *)
Definition dict_getitem (d k : val) : M val := λ h,
  match d with
  | VRef l =>
      match h !! l with
      | Some m =>
          if hashable k then
            match m !! k with
            | Some v => (inr v, h)
            | None => (inl KeyError, h)
            end
          else (inl TypeError, h)
      | None => (inl TypeError, h)
      end
  | _ => (inl TypeError, h)
  end.

(** [d[k] = v]: the dict object is updated in place. *)
Definition dict_setitem (d k v : val) : M unit := λ h,
  match d with
  | VRef l =>
      match h !! l with
      | Some m =>
          if hashable k then (inr (), <[l := <[k := v]> m]> h)
          else (inl TypeError, h)
      | None => (inl TypeError, h)
      end
  | _ => (inl TypeError, h)
  end.

(** A new dict object, at an address not in use. *)
Definition alloc (m : dict) : M val := λ h,
  let l : loc := fresh (dom h) in (inr (VRef l), <[l := m]> h).

(** [d.copy()]: a shallow copy. *)
Definition dict_copy (d : val) : M val := m ← deref d; alloc m.

(** Comparison with, and arithmetic on, an integer literal: anything but an
    integer on the left is a [TypeError]. *)
Definition as_int (v : val) : M Z :=
  match v with VInt n => mret n | _ => raise TypeError end.

Definition py_lt (v : val) (n : Z) : M bool := x ← as_int v; mret (bool_decide (x < n)).
Definition py_gt (v : val) (n : Z) : M bool := x ← as_int v; mret (bool_decide (n < x)).
Definition py_le (v : val) (n : Z) : M bool := x ← as_int v; mret (bool_decide (x ≤ n)).
Definition py_ge (v : val) (n : Z) : M bool := x ← as_int v; mret (bool_decide (n ≤ x)).
Definition py_sub (v : val) (n : Z) : M Z := x ← as_int v; mret (x - n).
Definition py_add (v : val) (n : Z) : M Z := x ← as_int v; mret (x + n).

(** [v == n] never raises. *)
Definition py_eq (v w : val) : bool := bool_decide (v = w).

(** Substring test on strings.  Strings are UTF-8 byte sequences here; as
    UTF-8 is self-synchronising, a well-formed needle occurs in a well-formed
    text as bytes exactly when it does as code points. *)
Fixpoint starts_with (needle s : string) : bool :=
  match needle, s with
  | EmptyString, _ => true
  | String a n', String b s' => bool_decide (a = b) && starts_with n' s'
  | String _ _, EmptyString => false
  end.

Fixpoint contains (needle s : string) : bool :=
  starts_with needle s ||
  match s with
  | EmptyString => false
  | String _ s' => contains needle s'
  end.

(** [item in container] for a string [item]: substring test on a string, key
    membership on a dict, [TypeError] on [None] and integers. *)
Definition py_in (item : string) (container : val) : M bool :=
  match container with
  | VStr s => mret (contains item s)
  | VRef _ => m ← deref container; mret (bool_decide (is_Some (m !! VStr item)))
  | _ => raise TypeError
  end.

(** [sum(...)] over a sequence of values: integers only.  The outcome does
    not depend on the order of the values. *)
Fixpoint py_sum (vs : list val) (acc : Z) : exn + Z :=
  match vs with
  | [] => inr acc
  | VInt n :: vs' => py_sum vs' (acc + n)
  | _ :: _ => inl TypeError
  end.

(** [sum(d.values())] *)
Definition dict_values_sum (d : val) : M Z :=
  m ← deref d;
  match py_sum (map_to_list m).*2 0 with
  | inr n => mret n
  | inl e => raise e
  end.

(** ** The category rule table *)

(** The five axis names: timeliness, universality, entertainment, rewrite
    effort and risk. *)
Definition AXIS_TIMELINESS : val := VStr "時代性".
Definition AXIS_UNIVERSALITY : val := VStr "普遍性".
Definition AXIS_ENTERTAINMENT : val := VStr "エンタメ性".
Definition AXIS_EFFORT : val := VStr "リライト工数".
Definition AXIS_RISK : val := VStr "リスク".

(** One table row [{"時代性": t, "普遍性": u, "エンタメ性": e, "リライト工数": r,
    "リスク": k}]. *)
Definition axis_scores (t u e r k : Z) : dict :=
  <[AXIS_TIMELINESS := VInt t]> (<[AXIS_UNIVERSALITY := VInt u]>
  (<[AXIS_ENTERTAINMENT := VInt e]> (<[AXIS_EFFORT := VInt r]>
  (<[AXIS_RISK := VInt k]> ∅)))).

(** The rows of the literal [CATEGORY_BASE_SCORES], in source order; the last
    row has the key [None]. *)
Definition CATEGORY_BASE_SCORES_rows : list (val * dict) :=
  [ (VStr "徒然", axis_scores 12 8 10 10 8);
    (VStr "レビュー", axis_scores 18 12 14 8 6);
    (VStr "報告", axis_scores 8 6 8 12 8);
    (VStr "東方二次創作", axis_scores 22 18 16 12 9);
    (VStr "考察", axis_scores 20 15 12 10 9);
    (VStr "告知", axis_scores 2 3 4 6 8);
    (VStr "速報", axis_scores 4 4 6 8 7);
    (VStr "生存報告", axis_scores 5 4 6 10 8);
    (VStr "TRPG", axis_scores 18 14 12 10 9);
    (VStr "ＴＲＰＧ", axis_scores 18 14 12 10 9);
    (VStr "東方二次創作ゲームレビュー", axis_scores 22 18 16 12 9);
    (VStr "募集", axis_scores 2 3 4 5 8);
    (VStr "通知", axis_scores 2 3 4 6 8);
    (VStr "連絡", axis_scores 2 3 4 6 8);
    (VNone, axis_scores 10 8 8 8 7) ].

(** Evaluating the module-level literal allocates one dict object per row,
    in order, and then the table that refers to them. *)
Fixpoint alloc_rows (rows : list (val * dict)) : M (list (val * val)) :=
  match rows with
  | [] => mret []
  | (k, d) :: rows' =>
      r ← alloc d;
      rs ← alloc_rows rows';
      mret ((k, r) :: rs)
  end.

Definition module_init : M val :=
  rs ← alloc_rows CATEGORY_BASE_SCORES_rows;
  alloc (foldl (λ m kv, <[kv.1 := kv.2]> m) ∅ rs).

(** The store once the module is loaded: the rows at the addresses 1 to 15,
    the table at 16, the object the global name [CATEGORY_BASE_SCORES] is
    bound to (see [module_init_run]). *)
Definition table_object : dict :=
  list_to_map (imap (λ i kd, (kd.1, VRef (Pos.of_nat (S i)))) CATEGORY_BASE_SCORES_rows).

Definition initial_heap : heap :=
  <[16%positive := table_object]>
    (list_to_map (imap (λ i kd, (Pos.of_nat (S i), kd.2)) CATEGORY_BASE_SCORES_rows)).

Definition CATEGORY_BASE_SCORES : val := VRef 16.

(** ** The scoring functions *)

Definition calculate_base_score (article : val) : M val :=
  category ← dict_get article "category" VNone;
  dflt ← dict_getitem CATEGORY_BASE_SCORES VNone;
  entry ← dict_get CATEGORY_BASE_SCORES category dflt;
  dict_copy entry.

Definition adjust_score_by_word_count (scores word_count : val) : M val :=
  short ← py_lt word_count 300;
  (if short : bool then
     e ← dict_getitem scores AXIS_ENTERTAINMENT;
     e' ← py_sub e 4;
     dict_setitem scores AXIS_ENTERTAINMENT (VInt (Z.max 0 e'));;
     r ← dict_getitem scores AXIS_EFFORT;
     r' ← py_sub r 3;
     dict_setitem scores AXIS_EFFORT (VInt (Z.max 0 r'))
   else
     long ← py_gt word_count 2000;
     if long : bool then
       e ← dict_getitem scores AXIS_ENTERTAINMENT;
       e' ← py_add e 2;
       dict_setitem scores AXIS_ENTERTAINMENT (VInt (Z.min 20 e'));;
       r ← dict_getitem scores AXIS_EFFORT;
       r' ← py_sub r 2;
       dict_setitem scores AXIS_EFFORT (VInt (Z.max 0 r'))
     else mret ());;
  mret scores.

Definition adjust_score_by_year (scores year : val) : M val :=
  (if py_eq year (VInt 2023) then
     dict_setitem scores AXIS_TIMELINESS (VInt 0);;
     dict_setitem scores AXIS_UNIVERSALITY (VInt 0);;
     dict_setitem scores AXIS_ENTERTAINMENT (VInt 0)
   else
     old ← py_le year 2009;
     if old : bool then
       t ← dict_getitem scores AXIS_TIMELINESS;
       t' ← py_add t 3;
       dict_setitem scores AXIS_TIMELINESS (VInt (Z.min 30 t'))
     else mret ());;
  mret scores.

Definition risk_keywords : list string := ["政治"; "速報"; "通知"; "募集"; "告知"].

(** The [for keyword in risk_keywords] loop: [true] stands for leaving the
    function from inside the loop. *)
Fixpoint any_keyword_in (keywords : list string) (title : val) : M bool :=
  match keywords with
  | [] => mret false
  | keyword :: rest =>
      hit ← py_in keyword title;
      if hit : bool then mret true else any_keyword_in rest title
  end.

(** The optional parameter [content] is never used and is left out. *)
Definition detect_risk_patterns (article : val) : M val :=
  title ← dict_get article "title" (VStr "");
  hit ← any_keyword_in risk_keywords title;
  if hit : bool then mret (VInt 6) else
  year ← dict_get article "year" VNone;
  if py_eq year (VInt 2023) then
    hello ← py_in "Hello world" title;
    if hello : bool then mret (VInt 10) else mret (VInt 8)
  else mret (VInt 8).

Definition calculate_total_score (scores : val) : M val :=
  n ← dict_values_sum scores; mret (VInt n).

Definition determine_rewrite_type (article total_score : val) : M val :=
  low ← py_lt total_score 70;
  if low : bool then mret VNone else
  category ← dict_get article "category" VNone;
  year ← dict_get article "year" (VInt 2010);
  if bool_decide (category ∈ [VStr "考察"; VStr "TRPG"; VStr "ＴＲＰＧ"]) then
    mret (VStr "哲学昇華型")
  else if bool_decide (category ∈ [VStr "東方二次創作"; VStr "東方二次創作ゲームレビュー";
                                    VStr "レビュー"]) then
    mret (VStr "文化史抽出型")
  else if bool_decide (category ∈ [VStr "徒然"; VStr "報告"]) then
    mret (VStr "タイムカプセル型")
  else
    old ← py_le year 2010;
    if old : bool then mret (VStr "タイムカプセル型") else mret (VStr "文化史抽出型").

Definition score_article (article : val) : M val :=
  scores ← calculate_base_score article;
  word_count ← dict_get article "word_count" (VInt 0);
  scores ← adjust_score_by_word_count scores word_count;
  year ← dict_get article "year" (VInt 2010);
  scores ← adjust_score_by_year scores year;
  risk ← detect_risk_patterns article;
  dict_setitem scores AXIS_RISK risk;;
  total_score ← calculate_total_score scores;
  rewrite_type ← determine_rewrite_type article total_score;
  alloc (<[VStr "total_score" := total_score]> (<[VStr "detail_scores" := scores]>
        (<[VStr "rewrite_type" := rewrite_type]> ∅))).

(** ** Classification and the scoring loop *)

(** The four lists [classify_articles] builds and returns under the keys
    ["rewrite"], ["review"], ["archive"] and ["deletion"]. *)
Record buckets : Type := Buckets {
  rewrite_candidates : list val;
  review_candidates : list val;
  archive_candidates : list val;
  deletion_candidates : list val
}.

Fixpoint classify_loop (articles : list val) (b : buckets) : M buckets :=
  match articles with
  | [] => mret b
  | article :: rest =>
      status ← dict_getitem article "rewrite_status";
      score ← dict_get status "rewrite_score" VNone;
      if py_eq score VNone then classify_loop rest b else
      article_id ← dict_getitem article "id";
      c70 ← py_ge score 70;
      if c70 : bool then
        classify_loop rest
          (Buckets (rewrite_candidates b ++ [article_id]) (review_candidates b)
                   (archive_candidates b) (deletion_candidates b))
      else
      c50 ← py_ge score 50;
      if c50 : bool then
        classify_loop rest
          (Buckets (rewrite_candidates b) (review_candidates b ++ [article_id])
                   (archive_candidates b) (deletion_candidates b))
      else
      c30 ← py_ge score 30;
      if c30 : bool then
        classify_loop rest
          (Buckets (rewrite_candidates b) (review_candidates b)
                   (archive_candidates b ++ [article_id]) (deletion_candidates b))
      else
        classify_loop rest
          (Buckets (rewrite_candidates b) (review_candidates b)
                   (archive_candidates b) (deletion_candidates b ++ [article_id]))
  end.

Definition classify_articles (articles : list val) : M buckets :=
  classify_loop articles (Buckets [] [] [] []).

(** The scoring loop of [main]: every article is scored and the result is
    written into its ["rewrite_status"] dict.  In an assignment Python
    evaluates the right-hand side before the target.  Reading and writing the
    files and the progress messages are left out. *)
Fixpoint main_scoring_loop (articles : list val) : M unit :=
  match articles with
  | [] => mret ()
  | article :: rest =>
      score_info ← score_article article;
      total_score ← dict_getitem score_info "total_score";
      status ← dict_getitem article "rewrite_status";
      dict_setitem status "rewrite_score" total_score;;
      rewrite_type ← dict_getitem score_info "rewrite_type";
      status ← dict_getitem article "rewrite_status";
      dict_setitem status "rewrite_type" rewrite_type;;
      detail_scores ← dict_getitem score_info "detail_scores";
      status ← dict_getitem article "rewrite_status";
      dict_setitem status "detail_scores" detail_scores;;
      main_scoring_loop rest
  end.

(** Scoring followed by classification, as [main] does. *)
Definition main_score_and_classify (articles : list val) : M buckets :=
  main_scoring_loop articles;;
  classify_articles articles.

(** * Functional description of the code *)

(** ** The rule table as a map *)

(** The row object a table entry refers to. *)
Definition row_of (v : val) : option dict :=
  match v with VRef l => initial_heap !! l | _ => None end.

(** The table as a map from category to row, and the lookup with fallback
    that [calculate_base_score] performs on it. *)
Definition rows_map : gmap val dict := list_to_map CATEGORY_BASE_SCORES_rows.

Definition default_row : dict := axis_scores 10 8 8 8 7.

Definition base_row (category : val) : dict :=
  default default_row (rows_map !! category).

(** ** The adjusters, the risk value and the rewrite type on numbers *)

Definition word_count_entertainment (wc e : Z) : Z :=
  if bool_decide (wc < 300) then Z.max 0 (e - 4)
  else if bool_decide (2000 < wc) then Z.min 20 (e + 2) else e.

Definition word_count_effort (wc r : Z) : Z :=
  if bool_decide (wc < 300) then Z.max 0 (r - 3)
  else if bool_decide (2000 < wc) then Z.max 0 (r - 2) else r.

Definition year_timeliness (year t : Z) : Z :=
  if bool_decide (year = 2023) then 0
  else if bool_decide (year ≤ 2009) then Z.min 30 (t + 3) else t.

Definition year_zeroed (year x : Z) : Z :=
  if bool_decide (year = 2023) then 0 else x.

Definition title_has_keyword (title : string) : bool :=
  existsb (λ keyword, contains keyword title) risk_keywords.

(** The risk value as the code computes it: the keyword test comes first. *)
Definition risk_score (title : string) (year : val) : Z :=
  if title_has_keyword title then 6
  else if py_eq year (VInt 2023) && contains "Hello world" title then 10
  else 8.

(** The decision table of [determine_rewrite_type] for an integer year. *)
Definition rewrite_type_rule (category : val) (year total : Z) : val :=
  if bool_decide (total < 70) then VNone
  else if bool_decide (category ∈ [VStr "考察"; VStr "TRPG"; VStr "ＴＲＰＧ"]) then
    VStr "哲学昇華型"
  else if bool_decide (category ∈ [VStr "東方二次創作"; VStr "東方二次創作ゲームレビュー";
                                    VStr "レビュー"]) then
    VStr "文化史抽出型"
  else if bool_decide (category ∈ [VStr "徒然"; VStr "報告"]) then VStr "タイムカプセル型"
  else if bool_decide (year ≤ 2010) then VStr "タイムカプセル型"
  else VStr "文化史抽出型".

(** ** The result of scoring *)

(** The dict [score_article] returns. *)
Definition score_info_dict (total_score scores rewrite_type : val) : dict :=
  <[VStr "total_score" := total_score]> (<[VStr "detail_scores" := scores]>
  (<[VStr "rewrite_type" := rewrite_type]> ∅)).

(** The adjusted axis values, from the values of the table row. *)
Definition final_scores (t u e r : Z) (word_count year : Z) (risk : Z) : dict :=
  axis_scores (year_timeliness year t) (year_zeroed year u)
              (year_zeroed year (word_count_entertainment word_count e))
              (word_count_effort word_count r) risk.

Definition final_total (t u e r : Z) (word_count year : Z) (risk : Z) : Z :=
  year_timeliness year t + year_zeroed year u
  + year_zeroed year (word_count_entertainment word_count e)
  + word_count_effort word_count r + risk.

(** What a caller reads from the returned dict: the total, the contents of
    the detail dict and the rewrite type. *)
Definition score_article_result (article : val) : M (val * dict * val) :=
  score_info ← score_article article;
  total_score ← dict_getitem score_info "total_score";
  detail_scores ← dict_getitem score_info "detail_scores";
  scores ← deref detail_scores;
  rewrite_type ← dict_getitem score_info "rewrite_type";
  mret (total_score, scores, rewrite_type).

(** ** Table rows and well-typed records *)

Definition row_bounds (t u e r k : Z) : Prop :=
  2 ≤ t ≤ 22 ∧ 3 ≤ u ≤ 18 ∧ 4 ≤ e ≤ 16 ∧ 5 ≤ r ≤ 12 ∧ 6 ≤ k ≤ 9 ∧ t + u + e + r ≤ 68.

Definition is_int (v : val) : bool := match v with VInt _ => true | _ => false end.
Definition is_str (v : val) : bool := match v with VStr _ => true | _ => false end.
Definition is_ref (v : val) : bool := match v with VRef _ => true | _ => false end.

(** The record shape the extractor produces, with every field optional: the
    category is [None] or a string (any hashable value will do), word count
    and year are integers, the title is a string. *)
Definition well_typed_article (art : dict) : bool :=
  hashable (default VNone (art !! VStr "category"))
  && is_int (default (VInt 0) (art !! VStr "word_count"))
  && is_int (default (VInt 2010) (art !! VStr "year"))
  && is_str (default (VStr "") (art !! VStr "title")).

(** ** Stores with concrete article records *)

(** A store with one article record added to the loaded module: used to run
    the code on concrete inputs. *)
Definition article_record (id title : string) (category word_count year : val)
    (status : loc) : dict :=
  <[VStr "id" := VStr id]> (<[VStr "title" := VStr title]>
  (<[VStr "category" := category]> (<[VStr "word_count" := word_count]>
  (<[VStr "year" := year]> (<[VStr "rewrite_status" := VRef status]> ∅))))).

Definition pending_status : dict :=
  <[VStr "status" := VStr "pending"]> (<[VStr "rewrite_score" := VNone]>
  (<[VStr "rewrite_type" := VNone]> ∅)).

Definition heap_with (art : dict) : heap :=
  <[17%positive := art]> (<[18%positive := pending_status]> initial_heap).

Definition article_hello_notice : dict :=
  article_record "fc2_2023-01-01_001" "Hello world 告知" VNone (VInt 10) (VInt 2023) 18.

Definition article_long_2005 : dict :=
  article_record "fc2_2005-03-01_007" "long review" (VStr "レビュー") (VInt 2500)
    (VInt 2005) 18.

Definition article_2023_long : dict :=
  article_record "fc2_2023-05-05_002" "retrospective" (VStr "東方二次創作") (VInt 2500)
    (VInt 2023) 18.

Definition article_best : dict :=
  article_record "fc2_2008-08-08_003" "retrospective essay" (VStr "東方二次創作")
    (VInt 2500) (VInt 2008) 18.

Definition article_unknown_category : dict :=
  article_record "fc2_2011-02-03_004" "misc" (VStr "雑記") (VInt 500) (VInt 2011) 18.

Definition article_review : dict :=
  article_record "fc2_2012-06-01_005" "film review" (VStr "レビュー") (VInt 900)
    (VInt 2012) 18.

Definition article_daily_notes : dict :=
  article_record "fc2_2008-04-01_001" "daily notes" (VStr "徒然") (VInt 150)
    (VInt 2008) 18.

(** ** Framing *)

(** Code that only reads the store. *)
Definition read_only {A : Type} (m : M A) : Prop := ∀ h, (m h).2 = h.

(** Code that leaves every object of [h0] as it is, in whatever store
    extending [h0] it is started, and whose result satisfies [Q]. *)
Definition preserves {A : Type} (h0 : heap) (m : M A)
    (Q : A → Prop) : Prop :=
  ∀ h, h0 ⊆ h → h0 ⊆ (m h).2 ∧ ∀ x, (m h).1 = inr x → Q x.

Definition fresh_ref (h0 : heap) (v : val) : Prop :=
  ∃ l, v = VRef l ∧ l ∉ dom h0.

(** ** The result as a function of the input fields *)

Definition int_of (v : val) : Z := match v with VInt n => n | _ => 0 end.
Definition str_of (v : val) : string := match v with VStr s => s | _ => "" end.

(** What the pipeline yields for an article record, computed from the fields
    ["category"], ["word_count"], ["year"] and ["title"] alone. *)
Definition scored_fields (art : dict) : exn + (val * dict * val) :=
  if well_typed_article art then
    let category := default VNone (art !! VStr "category") in
    let row := base_row category in
    let t := int_of (default VNone (row !! AXIS_TIMELINESS)) in
    let u := int_of (default VNone (row !! AXIS_UNIVERSALITY)) in
    let e := int_of (default VNone (row !! AXIS_ENTERTAINMENT)) in
    let r := int_of (default VNone (row !! AXIS_EFFORT)) in
    let w := int_of (default (VInt 0) (art !! VStr "word_count")) in
    let y := int_of (default (VInt 2010) (art !! VStr "year")) in
    let risk := risk_score (str_of (default (VStr "") (art !! VStr "title")))
                  (default VNone (art !! VStr "year")) in
    inr (VInt (final_total t u e r w y risk), final_scores t u e r w y risk,
         rewrite_type_rule category y (final_total t u e r w y risk))
  else inl TypeError.

Definition input_fields : list val :=
  [VStr "category"; VStr "word_count"; VStr "year"; VStr "title"].

Definition article_daily_notes_rescored : heap :=
  (main_scoring_loop [VRef 17] (heap_with article_daily_notes)).2.

(** ** What the classifier reads *)

(** The ID of an article and the score persisted in its ["rewrite_status"]
    dict ([None] when there is none), as [classify_articles] reads them. *)
Definition article_info (h : heap) (article : val) : option (val * val) :=
  match article with
  | VRef a =>
      art ← h !! a;
      status_ref ← art !! VStr "rewrite_status";
      match status_ref with
      | VRef s =>
          status ← h !! s;
          article_id ← art !! VStr "id";
          Some (article_id, default VNone (status !! VStr "rewrite_score"))
      | _ => None
      end
  | _ => None
  end.

(** One round of the loop of [classify_articles], on the ID and score. *)
Definition place (b : buckets) (info : val * val) : buckets :=
  match info.2 with
  | VInt n =>
      if bool_decide (70 ≤ n) then
        Buckets (rewrite_candidates b ++ [info.1]) (review_candidates b)
                (archive_candidates b) (deletion_candidates b)
      else if bool_decide (50 ≤ n) then
        Buckets (rewrite_candidates b) (review_candidates b ++ [info.1])
                (archive_candidates b) (deletion_candidates b)
      else if bool_decide (30 ≤ n) then
        Buckets (rewrite_candidates b) (review_candidates b)
                (archive_candidates b ++ [info.1]) (deletion_candidates b)
      else
        Buckets (rewrite_candidates b) (review_candidates b)
                (archive_candidates b) (deletion_candidates b ++ [info.1])
  | _ => b
  end.

Definition score_typed (info : val * val) : Prop :=
  info.2 = VNone ∨ is_int info.2 = true.

(** ** More concrete stores *)

(** Three articles: one with the score 80, one not scored yet, one with the
    score 44. *)
Definition status_with (score : val) : dict :=
  <[VStr "status" := VStr "pending"]> (<[VStr "rewrite_score" := score]> ∅).

Definition three_articles : heap :=
  <[17%positive := article_record "fc2_2012-01-01_001" "a" VNone (VInt 500) (VInt 2012) 18]>
  (<[18%positive := status_with (VInt 80)]>
  (<[19%positive := article_record "fc2_2012-01-02_002" "b" VNone (VInt 500) (VInt 2012) 20]>
  (<[20%positive := status_with VNone]>
  (<[21%positive := article_record "fc2_2012-01-03_003" "c" VNone (VInt 500) (VInt 2012) 22]>
  (<[22%positive := status_with (VInt 44)]> initial_heap))))).

(** ** What the scoring loop writes *)

(** The ["rewrite_status"] dict once the three results are written. *)
Definition persisted (status : dict) (total_score rewrite_type scores : val) :
    dict :=
  <[VStr "detail_scores" := scores]> (<[VStr "rewrite_type" := rewrite_type]>
  (<[VStr "rewrite_score" := total_score]> status)).

(** ** Stores in which no status dict is a table object *)

(** A value that is not a reference to the table or to one of its rows. *)
Definition outside_table (v : val) : Prop :=
  ∀ l, v = VRef l → l ∉ dom initial_heap.

Definition status_outside_table (d : dict) : Prop :=
  ∀ v, d !! VStr "rewrite_status" = Some v → outside_table v.

(** A store in which the table and its rows are as loaded and no
    ["rewrite_status"] entry refers to them: what [json.load] builds, where
    every nested dict is an object of its own. *)
Definition table_safe (h : heap) : Prop :=
  initial_heap ⊆ h ∧ ∀ l d, h !! l = Some d → status_outside_table d.

(** Code that keeps the store [table_safe] and whose result satisfies [Q]. *)
Definition keeps {A : Type} (m : M A) (Q : A → Prop) : Prop :=
  ∀ h, table_safe h → table_safe (m h).2 ∧ ∀ x, (m h).1 = inr x → Q x.

Definition article_retrospective : dict :=
  article_record "fc2_2012-09-09_006" "retrospective essay" (VStr "東方二次創作")
    (VInt 2500) (VInt 2012) 18.

(** A 2023 placeholder post, with no category and no word count. *)
Definition article_hello_world : dict :=
  <[VStr "id" := VStr "fc2_2023-01-01_000"]> (<[VStr "title" := VStr "Hello world! test post"]>
  (<[VStr "year" := VInt 2023]> (<[VStr "rewrite_status" := VRef 18]> ∅))).

(** ** Definitions for the further properties *)

(** The three entries the year 2023 sets to zero. *)
Definition zeroed (d : dict) : dict :=
  <[AXIS_ENTERTAINMENT := VInt 0]> (<[AXIS_UNIVERSALITY := VInt 0]>
  (<[AXIS_TIMELINESS := VInt 0]> d)).

(** The two categories whose table rows add up to more than 57 before the
    risk value. *)
Definition TOUHOU_CATEGORIES : list val :=
  [VStr "東方二次創作"; VStr "東方二次創作ゲームレビュー"].

(** The record with the defaults of the four [get] calls written out. *)
Definition with_defaults (art : dict) : dict :=
  <[VStr "category" := default VNone (art !! VStr "category")]>
  (<[VStr "word_count" := default (VInt 0) (art !! VStr "word_count")]>
  (<[VStr "year" := default (VInt 2010) (art !! VStr "year")]>
  (<[VStr "title" := default (VStr "") (art !! VStr "title")]> art))).

(** A record as the extractor writes it for a file without a date: the
    year is present and [None]. *)
Definition article_undated : dict :=
  <[VStr "id" := VStr "fc2__000"]> (<[VStr "title" := VStr "memo"]>
  (<[VStr "category" := VNone]> (<[VStr "word_count" := VInt 120]>
  (<[VStr "year" := VNone]> (<[VStr "rewrite_status" := VRef 18]> ∅))))).

(** A record with none of the four scored fields. *)
Definition article_bare : dict :=
  <[VStr "id" := VStr "fc2_2011-01-01_009"]> (<[VStr "rewrite_status" := VRef 18]> ∅).

(** The test on the persisted score that feeds one list. *)
Definition scored_as (P : Z → bool) (info : val * val) : bool :=
  match info.2 with VInt n => P n | _ => false end.

(** The IDs of the records that pass the test, in the order of the records. *)
Definition ids_scored_as (P : Z → bool) (infos : list (val * val)) : list val :=
  (filter (λ info, scored_as P info = true) infos).*1.

(** The four score ranges. *)
Definition rewrite_range (n : Z) : bool := bool_decide (70 ≤ n).
Definition review_range (n : Z) : bool := bool_decide (50 ≤ n) && bool_decide (n < 70).
Definition archive_range (n : Z) : bool := bool_decide (30 ≤ n) && bool_decide (n < 50).
Definition deletion_range (n : Z) : bool := bool_decide (n < 30).

(** A store with one record that has no ["id"] and no score yet. *)
Definition unscored_without_id : heap :=
  <[17%positive := <[VStr "rewrite_status" := VRef 18]> ∅]>
  (<[18%positive := status_with VNone]> initial_heap).

(** The sum of the integers of a list of values. *)
Definition int_sum (vs : list val) : Z := foldr (λ v n, int_of v + n) 0 vs.

(** An article of the input list: the address and the contents of its
    record and of its ["rewrite_status"] dict. *)
Record stored_article : Type := StoredArticle {
  record_addr : loc;
  record : dict;
  status_addr : loc;
  status_dict : dict
}.

Definition stored_in (h : heap) (e : stored_article) : Prop :=
  h !! record_addr e = Some (record e) ∧
  well_typed_article (record e) = true ∧
  is_Some (record e !! VStr "id") ∧
  record e !! VStr "rewrite_status" = Some (VRef (status_addr e)) ∧
  h !! status_addr e = Some (status_dict e).

(** The total [score_article] gives a record, as a function of its fields,
    and the pair the classifier reads once it is persisted. *)
Definition fresh_score (art : dict) : val :=
  match scored_fields art with
  | inr (total_score, _, _) => total_score
  | inl _ => VNone
  end.

Definition fresh_info (e : stored_article) : val * val :=
  (default VNone (record e !! VStr "id"), fresh_score (record e)).

(** Two records of one store, with a status dict each. *)
Definition two_articles : heap :=
  <[17%positive := article_best]>
  (<[18%positive := pending_status]>
  (<[19%positive := article_record "fc2_2023-05-05_002" "retrospective"
                      (VStr "東方二次創作") (VInt 2500) (VInt 2023) 20]>
  (<[20%positive := pending_status]> initial_heap))).

Definition two_entries : list stored_article :=
  [StoredArticle 17 article_best 18 pending_status;
   StoredArticle 19 (article_record "fc2_2023-05-05_002" "retrospective"
                       (VStr "東方二次創作") (VInt 2500) (VInt 2023) 20)
     20 pending_status].

(** * The extractor *)

(** ** Statistics *)

(** The truth value of a value, as [if year:] takes it. *)
Definition truthy (v : val) : M bool :=
  match v with
  | VNone => mret false
  | VInt n => mret (bool_decide (n ≠ 0))
  | VStr s => mret (bool_decide (s ≠ ""))
  | VRef _ => m ← deref v; mret (bool_decide (m ≠ ∅))
  end.

(** [counts[key] = counts.get(key, 0) + 1], on a dict of counters that is
    local to the function. *)
Definition count_up (counts : gmap val Z) (key : val) : M (gmap val Z) :=
  if hashable key then mret (<[key := default 0 (counts !! key) + 1]> counts)
  else raise TypeError.

Fixpoint count_statuses (articles : list val) (status_counts : gmap val Z) :
    M (gmap val Z) :=
  match articles with
  | [] => mret status_counts
  | article :: rest =>
      rewrite_status ← dict_getitem article "rewrite_status";
      status ← dict_getitem rewrite_status "status";
      status_counts ← count_up status_counts status;
      count_statuses rest status_counts
  end.

Fixpoint count_years (articles : list val) (year_counts : gmap val Z) :
    M (gmap val Z) :=
  match articles with
  | [] => mret year_counts
  | article :: rest =>
      year ← dict_get article "year" VNone;
      counted ← truthy year;
      if counted : bool then
        year_counts ← count_up year_counts year;
        count_years rest year_counts
      else count_years rest year_counts
  end.

Fixpoint count_categories (articles : list val) (category_counts : gmap val Z) :
    M (gmap val Z) :=
  match articles with
  | [] => mret category_counts
  | article :: rest =>
      category ← dict_get article "category" (VStr "未分類");
      category_counts ← count_up category_counts category;
      count_categories rest category_counts
  end.

(** [dict(sorted(counts.items()))]: the items are compared by their keys,
    which are pairwise different, and two keys that are not both integers or
    both strings cannot be compared.  The order of the entries of a dict is
    not modelled, so that the sorted dict is the dict itself.  Sorting by
    count, as done for the categories, compares integers only. *)
Definition sorted_items (counts : gmap val Z) : M (gmap val Z) :=
  if bool_decide (size counts ≤ 1)%nat
     || bool_decide (map_Forall (λ k _, is_int k = true) counts)
     || bool_decide (map_Forall (λ k _, is_str k = true) counts)
  then mret counts else raise TypeError.

Record statistics : Type := Statistics {
  total : Z;
  by_status : gmap val Z;
  by_year : gmap val Z;
  by_category : gmap val Z
}.

Definition generate_statistics (articles : list val) : M statistics :=
  let total := Z.of_nat (length articles) in
  status_counts ← count_statuses articles ∅;
  year_counts ← count_years articles ∅;
  category_counts ← count_categories articles ∅;
  by_year ← sorted_items year_counts;
  mret (Statistics total status_counts by_year category_counts).

(** What [generate_statistics] reads of a record: the status, and the year
    and the category when the record has them. *)
Definition counted_fields (h : heap) (article : val) :
    option (val * option val * option val) :=
  match article with
  | VRef a =>
      art ← h !! a;
      status_ref ← art !! VStr "rewrite_status";
      match status_ref with
      | VRef s =>
          status_dict ← h !! s;
          status ← status_dict !! VStr "status";
          Some (status, art !! VStr "year", art !! VStr "category")
      | _ => None
      end
  | _ => None
  end.

(** Fields that can be counted: hashable status and category, and a year that
    is an integer, [None] or missing. *)
Definition countable_fields (info : val * option val * option val) : bool :=
  hashable info.1.1
  && match info.1.2 with Some (VInt _) | Some VNone | None => true | _ => false end
  && hashable (default (VStr "未分類") info.2).

Definition status_of (info : val * option val * option val) : val := info.1.1.

Definition year_of (info : val * option val * option val) : val :=
  default VNone info.1.2.

Definition category_of (info : val * option val * option val) : val :=
  default (VStr "未分類") info.2.

(** A year that [if year:] lets through: an integer other than 0. *)
Definition dated (year : val) : bool :=
  match year with VInt n => bool_decide (n ≠ 0) | _ => false end.

(** How often a key occurs in a list of keys, and the sum of the counters of
    a dict. *)
Definition occurrences (key : val) (keys : list val) : Z :=
  Z.of_nat (length (filter (λ k, k = key) keys)).

Definition counts_sum (counts : gmap val Z) : Z :=
  map_fold (λ _ n acc, n + acc) 0 counts.

(** One step of a counting loop, and the loop, on the keys. *)
Definition tally_step (counts : gmap val Z) (key : val) : gmap val Z :=
  <[key := default 0 (counts !! key) + 1]> counts.

Definition tally (keys : list val) : gmap val Z := foldl tally_step ∅ keys.

(** Three records: two pending ones of 2008 and of no year, one completed
    one of 2012 without a category. *)
Definition extracted_articles : heap :=
  <[1%positive := article_record "fc2_2008-04-01_001" "【徒然】a" (VStr "徒然") (VInt 500)
                    (VInt 2008) 2]>
  (<[2%positive := pending_status]>
  (<[3%positive := article_record "fc2__000" "b" VNone (VInt 20) VNone 4]>
  (<[4%positive := pending_status]>
  (<[5%positive := article_record "fc2_2012-01-03_003" "c" VNone (VInt 900) (VInt 2012) 6]>
  (<[6%positive := <[VStr "status" := VStr "completed"]> pending_status]> ∅))))).

Definition extracted_infos : list (val * option val * option val) :=
  [(VStr "pending", Some (VInt 2008), Some (VStr "徒然"));
   (VStr "pending", Some VNone, Some VNone);
   (VStr "completed", Some (VInt 2012), Some VNone)].

(** ** Article IDs *)

(** A string of zeros. *)
Fixpoint zeros (n : nat) : string :=
  match n with
  | O => ""
  | S n' => String "0"%char (zeros n')
  end.

(** [s.zfill(width)]: zeros on the left up to the width, put after a leading
    sign.  The length is counted in bytes, which for the notation of a number
    is the number of its characters. *)
Definition zfill (width : nat) (s : string) : string :=
  let fill := zeros (width - String.length s) in
  match s with
  | String c rest =>
      if bool_decide (c = "+"%char ∨ c = "-"%char) then String c (fill +:+ rest)
      else fill +:+ s
  | EmptyString => fill
  end.

(** [generate_article_id] for an integer [original_id], which is what the
    extractor passes when the frontmatter has digits there, and 0 when it has
    no such line.  [str] of an integer is its decimal notation; that Python
    refuses to convert integers of more than 4300 digits is not modelled. *)
Definition generate_article_id (date_str : string) (original_id : Z) : string :=
  let id_num := zfill 3 (pretty original_id) in
  "fc2_" +:+ date_str +:+ "_" +:+ id_num.

(** Reading a filled number back: the leading zeros go, but not the last
    digit. *)
Fixpoint strip_zeros (s : string) : string :=
  match s with
  | String c rest => if bool_decide (c = "0"%char) then strip_zeros rest else s
  | EmptyString => ""
  end.

Definition unfill (s : string) : string :=
  match s with
  | String c rest =>
      if bool_decide (c = "-"%char) then String c (strip_zeros rest)
      else match strip_zeros s with EmptyString => "0" | t => t end
  | EmptyString => "0"
  end.

(** Three decimal digits: hundreds, tens and units. *)
Definition three_digits (n : Z) : string :=
  String (pretty_N_char (Z.to_N (n `div` 100)))
    (String (pretty_N_char (Z.to_N ((n `div` 10) `mod` 10)))
       (String (pretty_N_char (Z.to_N (n `mod` 10))) "")).

(** The characters of a decimal notation. *)
Definition is_digit_or_minus (c : ascii) : bool :=
  bool_decide (c ∈ ["0"; "1"; "2"; "3"; "4"; "5"; "6"; "7"; "8"; "9"; "-"]%char).

Fixpoint all_chars (P : ascii → bool) (s : string) : bool :=
  match s with
  | String c rest => P c && all_chars P rest
  | EmptyString => true
  end.

(** * Verification *)

(** ** Running monadic code *)

Lemma run_ret {A : Type} (x : A) h : (mret x : M A) h = (inr x, h).
Proof. reflexivity. Qed.

Lemma run_bind {A B : Type} (m : M A) (f : A → M B) h x h1 :
  m h = (inr x, h1) → (m ≫= f) h = f x h1.
Proof. intros E. unfold mbind, M_bind. by rewrite E. Qed.

Lemma run_bind_raise {A B : Type} (m : M A) (f : A → M B) h e h1 :
  m h = (inl e, h1) → (m ≫= f) h = (inl e, h1).
Proof. intros E. unfold mbind, M_bind. by rewrite E. Qed.

Lemma run_deref h l d : h !! l = Some d → deref (VRef l) h = (inr d, h).
Proof. intros E. unfold deref. by rewrite E. Qed.

Lemma run_dict_get h l d k dflt :
  h !! l = Some d → hashable k = true →
  dict_get (VRef l) k dflt h = (inr (default dflt (d !! k)), h).
Proof.
  intros E Hk. unfold dict_get.
  rewrite (run_bind _ _ _ _ _ (run_deref _ _ _ E)). by rewrite Hk.
Qed.

Lemma run_dict_getitem h l d k v :
  h !! l = Some d → hashable k = true → d !! k = Some v →
  dict_getitem (VRef l) k h = (inr v, h).
Proof. intros E Hk Ev. unfold dict_getitem. by rewrite E, Hk, Ev. Qed.

Lemma run_dict_setitem h l d k v :
  h !! l = Some d → hashable k = true →
  dict_setitem (VRef l) k v h = (inr (), <[l := <[k := v]> d]> h).
Proof. intros E Hk. unfold dict_setitem. by rewrite E, Hk. Qed.

Lemma run_alloc m h :
  alloc m h = (inr (VRef (fresh (dom h))), <[fresh (dom h) := m]> h).
Proof. reflexivity. Qed.

Lemma fresh_lookup (h : heap) : h !! fresh (dom h) = None.
Proof. apply not_elem_of_dom, is_fresh. Qed.

Lemma run_dict_copy h l d :
  h !! l = Some d →
  dict_copy (VRef l) h = (inr (VRef (fresh (dom h))), <[fresh (dom h) := d]> h).
Proof.
  intros E. unfold dict_copy.
  by rewrite (run_bind _ _ _ _ _ (run_deref _ _ _ E)).
Qed.

(** ** The rule table in the store *)

Lemma module_init_run : module_init ∅ = (inr CATEGORY_BASE_SCORES, initial_heap).
Proof. vm_cast_no_check (eq_refl (module_init ∅)). Qed.

Lemma initial_heap_table : initial_heap !! 16%positive = Some table_object.
Proof. reflexivity. Qed.

Lemma table_object_rows : row_of <$> table_object = Some <$> rows_map.
Proof. reflexivity. Qed.

Lemma lookup_resolved {A : Type} (f : val → option A) (t : dict)
    (r : gmap val A) (k : val) :
  f <$> t = Some <$> r →
  match t !! k with
  | Some v => ∃ x, f v = Some x ∧ r !! k = Some x
  | None => r !! k = None
  end.
Proof.
  intros E. pose proof (f_equal (λ m : gmap val (option A), m !! k) E) as Ek.
  simpl in Ek. rewrite !lookup_fmap in Ek.
  destruct (t !! k) as [v|], (r !! k) as [x|]; simplify_eq/=; eauto.
Qed.

Lemma table_entry (category : val) :
  ∃ l, default (VRef 15) (table_object !! category) = VRef l ∧
       initial_heap !! l = Some (base_row category).
Proof.
  pose proof (lookup_resolved _ _ _ category table_object_rows) as E.
  unfold base_row. destruct (table_object !! category) as [v|].
  - destruct E as (d & Hv & ->). destruct v as [| |s|l]; try discriminate Hv.
    exists l. unfold row_of in Hv. rewrite Hv. split; reflexivity.
  - rewrite E. exists 15%positive. split; reflexivity.
Qed.

Lemma calculate_base_score_spec h a art :
  initial_heap ⊆ h → h !! a = Some art →
  hashable (default VNone (art !! VStr "category")) = true →
  calculate_base_score (VRef a) h
  = (inr (VRef (fresh (dom h))),
     <[fresh (dom h) := base_row (default VNone (art !! VStr "category"))]> h).
Proof.
  intros Hsub Ha Hc. unfold calculate_base_score.
  rewrite (run_bind _ _ _ _ _ (run_dict_get _ _ _ (VStr "category") VNone Ha eq_refl)).
  pose proof (lookup_weaken _ _ _ _ initial_heap_table Hsub) as Ht.
  unfold CATEGORY_BASE_SCORES.
  rewrite (run_bind _ _ _ _ _
             (run_dict_getitem _ _ _ VNone (VRef 15) Ht eq_refl eq_refl)).
  rewrite (run_bind _ _ _ _ _ (run_dict_get _ _ _ _ _ Ht Hc)).
  destruct (table_entry (default VNone (art !! VStr "category"))) as (l & -> & Hl).
  apply run_dict_copy. by eapply lookup_weaken.
Qed.

Ltac step E := rewrite (run_bind _ _ _ _ _ E).

(** ** The two adjusters *)

(** Reading and writing a row with symbolic scores. *)
Lemma axis_timeliness t u e r k :
  axis_scores t u e r k !! AXIS_TIMELINESS = Some (VInt t).
Proof. reflexivity. Qed.

Lemma axis_universality t u e r k :
  axis_scores t u e r k !! AXIS_UNIVERSALITY = Some (VInt u).
Proof. reflexivity. Qed.

Lemma axis_entertainment t u e r k :
  axis_scores t u e r k !! AXIS_ENTERTAINMENT = Some (VInt e).
Proof. reflexivity. Qed.

Lemma axis_effort t u e r k :
  axis_scores t u e r k !! AXIS_EFFORT = Some (VInt r).
Proof. reflexivity. Qed.

Lemma axis_risk t u e r k :
  axis_scores t u e r k !! AXIS_RISK = Some (VInt k).
Proof. reflexivity. Qed.

Lemma set_timeliness t u e r k x :
  <[AXIS_TIMELINESS := VInt x]> (axis_scores t u e r k) = axis_scores x u e r k.
Proof. reflexivity. Qed.

Lemma set_universality t u e r k x :
  <[AXIS_UNIVERSALITY := VInt x]> (axis_scores t u e r k) = axis_scores t x e r k.
Proof. reflexivity. Qed.

Lemma set_entertainment t u e r k x :
  <[AXIS_ENTERTAINMENT := VInt x]> (axis_scores t u e r k) = axis_scores t u x r k.
Proof. reflexivity. Qed.

Lemma set_effort t u e r k x :
  <[AXIS_EFFORT := VInt x]> (axis_scores t u e r k) = axis_scores t u e x k.
Proof. reflexivity. Qed.

Lemma set_risk t u e r k x :
  <[AXIS_RISK := VInt x]> (axis_scores t u e r k) = axis_scores t u e r x.
Proof. reflexivity. Qed.

(** [scores[axis]] and [scores[axis] = x] at a row object. *)
Lemma run_get_axis h s (d : dict) (axis : val) v :
  h !! s = Some d → d !! axis = Some v → hashable axis = true →
  dict_getitem (VRef s) axis h = (inr v, h).
Proof. intros. by eapply run_dict_getitem. Qed.

Lemma run_set_axis h s (d : dict) (axis : val) x d' :
  h !! s = Some d → <[axis := VInt x]> d = d' → hashable axis = true →
  dict_setitem (VRef s) axis (VInt x) h = (inr (), <[s := d']> h).
Proof. intros Hs <- Hk. by apply run_dict_setitem. Qed.

Lemma adjust_score_by_word_count_spec h s t u e r k wc :
  h !! s = Some (axis_scores t u e r k) →
  adjust_score_by_word_count (VRef s) (VInt wc) h
  = (inr (VRef s),
     <[s := axis_scores t u (word_count_entertainment wc e) (word_count_effort wc r) k]> h).
Proof.
  intros Hs. unfold adjust_score_by_word_count.
  unfold word_count_entertainment, word_count_effort.
  step (eq_refl : py_lt (VInt wc) 300 h = (inr (bool_decide (wc < 300)), h)).
  erewrite run_bind; [reflexivity|].
  destruct (bool_decide (wc < 300)); cbv beta iota.
  - step (run_get_axis h s _ _ _ Hs (axis_entertainment t u e r k) eq_refl).
    step (eq_refl : py_sub (VInt e) 4 h = (inr (e - 4), h)).
    step (run_set_axis h s _ _ _ _ Hs (set_entertainment t u e r k (Z.max 0 (e - 4))) eq_refl).
    step (run_get_axis _ s _ _ _ (lookup_insert_eq h s _)
            (axis_effort t u (Z.max 0 (e - 4)) r k) eq_refl).
    rewrite (run_bind _ _ _ _ _
               (eq_refl : py_sub (VInt r) 3 _ = (inr (r - 3), _))).
    rewrite (run_set_axis _ s _ _ _ _ (lookup_insert_eq h s _)
               (set_effort t u (Z.max 0 (e - 4)) r k (Z.max 0 (r - 3))) eq_refl).
    by rewrite insert_insert_eq.
  - step (eq_refl : py_gt (VInt wc) 2000 h = (inr (bool_decide (2000 < wc)), h)).
    destruct (bool_decide (2000 < wc)); cbv beta iota.
    + step (run_get_axis h s _ _ _ Hs (axis_entertainment t u e r k) eq_refl).
      step (eq_refl : py_add (VInt e) 2 h = (inr (e + 2), h)).
      step (run_set_axis h s _ _ _ _ Hs (set_entertainment t u e r k (Z.min 20 (e + 2))) eq_refl).
      step (run_get_axis _ s _ _ _ (lookup_insert_eq h s _)
              (axis_effort t u (Z.min 20 (e + 2)) r k) eq_refl).
      rewrite (run_bind _ _ _ _ _
                 (eq_refl : py_sub (VInt r) 2 _ = (inr (r - 2), _))).
      rewrite (run_set_axis _ s _ _ _ _ (lookup_insert_eq h s _)
                 (set_effort t u (Z.min 20 (e + 2)) r k (Z.max 0 (r - 2))) eq_refl).
      by rewrite insert_insert_eq.
    + by rewrite insert_id.
Qed.

Lemma adjust_score_by_year_spec h s t u e r k year :
  h !! s = Some (axis_scores t u e r k) →
  adjust_score_by_year (VRef s) (VInt year) h
  = (inr (VRef s),
     <[s := axis_scores (year_timeliness year t) (year_zeroed year u)
                        (year_zeroed year e) r k]> h).
Proof.
  intros Hs. unfold adjust_score_by_year, py_eq, year_timeliness, year_zeroed.
  erewrite run_bind; [reflexivity|].
  destruct (decide (year = 2023)) as [->|Hy].
  - rewrite bool_decide_eq_true_2 by reflexivity. cbv beta iota.
    step (run_set_axis h s _ _ _ _ Hs (set_timeliness t u e r k 0) eq_refl).
    step (run_set_axis _ s _ _ _ _ (lookup_insert_eq h s _)
            (set_universality 0 u e r k 0) eq_refl).
    rewrite (run_set_axis _ s _ _ _ _ (lookup_insert_eq _ s _)
               (set_entertainment 0 0 e r k 0) eq_refl).
    by rewrite !insert_insert_eq.
  - rewrite bool_decide_eq_false_2 by congruence.
    rewrite (bool_decide_eq_false_2 (year = 2023)) by done. cbv beta iota.
    step (eq_refl : py_le (VInt year) 2009 h = (inr (bool_decide (year ≤ 2009)), h)).
    destruct (bool_decide (year ≤ 2009)); cbv beta iota.
    + step (run_get_axis h s _ _ _ Hs (axis_timeliness t u e r k) eq_refl).
      step (eq_refl : py_add (VInt t) 3 h = (inr (t + 3), h)).
      by rewrite (run_set_axis h s _ _ _ _ Hs
                    (set_timeliness t u e r k (Z.min 30 (t + 3))) eq_refl).
    + by rewrite insert_id.
Qed.

(** ** Risk, total and rewrite type *)

Lemma any_keyword_in_spec keywords title h :
  any_keyword_in keywords (VStr title) h
  = (inr (existsb (λ keyword, contains keyword title) keywords), h).
Proof.
  induction keywords as [|keyword rest IH]; [reflexivity|].
  cbn [any_keyword_in existsb].
  step (eq_refl : py_in keyword (VStr title) h = (inr (contains keyword title), h)).
  destruct (contains keyword title); [reflexivity | exact IH].
Qed.

Lemma detect_risk_patterns_spec h a art title :
  h !! a = Some art →
  default (VStr "") (art !! VStr "title") = VStr title →
  detect_risk_patterns (VRef a) h
  = (inr (VInt (risk_score title (default VNone (art !! VStr "year")))), h).
Proof.
  intros Ha Ht. unfold detect_risk_patterns, risk_score.
  step (run_dict_get h a art (VStr "title") (VStr "") Ha eq_refl).
  rewrite Ht. step (any_keyword_in_spec risk_keywords title h).
  fold (title_has_keyword title). destruct (title_has_keyword title); [reflexivity|].
  step (run_dict_get h a art (VStr "year") VNone Ha eq_refl).
  destruct (py_eq (default VNone (art !! VStr "year")) (VInt 2023)); [|reflexivity].
  step (eq_refl : py_in "Hello world" (VStr title) h
                  = (inr (contains "Hello world" title), h)).
  by destruct (contains "Hello world" title).
Qed.

Lemma axis_values t u e r k :
  (map_to_list (axis_scores t u e r k)).*2 = [VInt r; VInt k; VInt e; VInt u; VInt t].
Proof. reflexivity. Qed.

Lemma dict_values_sum_spec h s t u e r k :
  h !! s = Some (axis_scores t u e r k) →
  dict_values_sum (VRef s) h = (inr (t + u + e + r + k), h).
Proof.
  intros Hs. unfold dict_values_sum.
  step (run_deref _ _ _ Hs). rewrite axis_values. cbn [py_sum].
  rewrite run_ret. do 2 f_equal. lia.
Qed.

Lemma calculate_total_score_spec h s t u e r k :
  h !! s = Some (axis_scores t u e r k) →
  calculate_total_score (VRef s) h = (inr (VInt (t + u + e + r + k)), h).
Proof.
  intros Hs. unfold calculate_total_score.
  by step (dict_values_sum_spec _ _ _ _ _ _ _ Hs).
Qed.

Lemma determine_rewrite_type_spec h a art year total :
  h !! a = Some art →
  default (VInt 2010) (art !! VStr "year") = VInt year →
  determine_rewrite_type (VRef a) (VInt total) h
  = (inr (rewrite_type_rule (default VNone (art !! VStr "category")) year total), h).
Proof.
  intros Ha Hy. unfold determine_rewrite_type, rewrite_type_rule.
  step (eq_refl : py_lt (VInt total) 70 h = (inr (bool_decide (total < 70)), h)).
  destruct (bool_decide (total < 70)); [reflexivity|].
  step (run_dict_get h a art (VStr "category") VNone Ha eq_refl).
  step (run_dict_get h a art (VStr "year") (VInt 2010) Ha eq_refl).
  rewrite Hy.
  repeat (case_bool_decide; [reflexivity|]).
  step (eq_refl : py_le (VInt year) 2010 h = (inr (bool_decide (year ≤ 2010)), h)).
  by destruct (bool_decide (year ≤ 2010)).
Qed.

Ltac run tac := erewrite run_bind; [ | solve [tac] ].

(** ** The scoring pipeline on a well-typed article *)

Lemma score_article_run h a art t u e r k w y ti :
  initial_heap ⊆ h → h !! a = Some art →
  hashable (default VNone (art !! VStr "category")) = true →
  base_row (default VNone (art !! VStr "category")) = axis_scores t u e r k →
  default (VInt 0) (art !! VStr "word_count") = VInt w →
  default (VInt 2010) (art !! VStr "year") = VInt y →
  default (VStr "") (art !! VStr "title") = VStr ti →
  let s := fresh (dom h) in
  let risk := risk_score ti (default VNone (art !! VStr "year")) in
  let h1 := <[s := final_scores t u e r w y risk]> h in
  score_article (VRef a) h
  = (inr (VRef (fresh (dom h1))),
     <[fresh (dom h1) :=
         score_info_dict (VInt (final_total t u e r w y risk)) (VRef s)
           (rewrite_type_rule (default VNone (art !! VStr "category")) y
              (final_total t u e r w y risk))]> h1).
Proof.
  intros Hsub Ha Hc Hrow Hw Hy Ht s risk h1.
  assert (Hat : ∀ d, <[s := d]> h !! a = Some art).
  { intros d. rewrite lookup_insert_ne; [done|].
    intros <-. subst s. by rewrite fresh_lookup in Ha. }
  assert (Hst : ∀ d, <[s := d]> h !! s = Some d) by (intros; apply lookup_insert_eq).
  unfold score_article.
  step (calculate_base_score_spec h a art Hsub Ha Hc). fold s. rewrite Hrow.
  run ltac:(apply run_dict_get; [apply Hat | reflexivity]).
  rewrite Hw.
  run ltac:(apply adjust_score_by_word_count_spec, Hst).
  rewrite insert_insert_eq.
  run ltac:(apply run_dict_get; [apply Hat | reflexivity]).
  rewrite Hy.
  run ltac:(apply adjust_score_by_year_spec, Hst).
  rewrite insert_insert_eq.
  run ltac:(eapply detect_risk_patterns_spec; [apply Hat | exact Ht]).
  fold risk.
  run ltac:(eapply run_set_axis; [apply Hst | apply set_risk | reflexivity]).
  rewrite insert_insert_eq. fold (final_scores t u e r w y risk). fold h1.
  run ltac:(apply calculate_total_score_spec, Hst).
  fold (final_total t u e r w y risk).
  run ltac:(eapply determine_rewrite_type_spec; [apply Hat | exact Hy]).
  reflexivity.
Qed.

Lemma score_article_result_run h a art t u e r k w y ti :
  initial_heap ⊆ h → h !! a = Some art →
  hashable (default VNone (art !! VStr "category")) = true →
  base_row (default VNone (art !! VStr "category")) = axis_scores t u e r k →
  default (VInt 0) (art !! VStr "word_count") = VInt w →
  default (VInt 2010) (art !! VStr "year") = VInt y →
  default (VStr "") (art !! VStr "title") = VStr ti →
  let risk := risk_score ti (default VNone (art !! VStr "year")) in
  (score_article_result (VRef a) h).1
  = inr (VInt (final_total t u e r w y risk), final_scores t u e r w y risk,
         rewrite_type_rule (default VNone (art !! VStr "category")) y
           (final_total t u e r w y risk)).
Proof.
  intros Hsub Ha Hc Hrow Hw Hy Ht risk. unfold score_article_result.
  step (score_article_run h a art t u e r k w y ti Hsub Ha Hc Hrow Hw Hy Ht).
  fold risk.
  set (s := fresh (dom h)).
  set (h1 := <[s := final_scores t u e r w y risk]> h).
  set (info := score_info_dict _ _ _).
  assert (Hs : <[fresh (dom h1) := info]> h1 !! s = Some (final_scores t u e r w y risk)).
  { rewrite lookup_insert_ne.
    - apply lookup_insert_eq.
    - intros E. pose proof (fresh_lookup h1) as F. rewrite E in F.
      unfold h1 in F. by rewrite lookup_insert_eq in F. }
  run ltac:(eapply run_dict_getitem; [apply lookup_insert_eq | reflexivity..]).
  run ltac:(eapply run_dict_getitem; [apply lookup_insert_eq | reflexivity..]).
  step (run_deref _ _ _ Hs).
  run ltac:(eapply run_dict_getitem; [apply lookup_insert_eq | reflexivity..]).
  reflexivity.
Qed.

(** ** Facts about the table rows *)

Lemma rows_bounded :
  Forall (λ kd : val * dict,
            ∃ t u e r k, kd.2 = axis_scores t u e r k ∧ row_bounds t u e r k)
         CATEGORY_BASE_SCORES_rows.
Proof.
  unfold CATEGORY_BASE_SCORES_rows.
  repeat (apply Forall_cons; split;
          [eexists _, _, _, _, _; split; [reflexivity | unfold row_bounds; lia] |]).
  apply Forall_nil_2.
Qed.

Lemma base_row_bounded (category : val) :
  ∃ t u e r k, base_row category = axis_scores t u e r k ∧ row_bounds t u e r k.
Proof.
  unfold base_row. destruct (rows_map !! category) as [d|] eqn:E.
  - apply elem_of_list_to_map_2 in E.
    exact (proj1 (Forall_forall _ _) rows_bounded _ E).
  - exists 10, 8, 8, 8, 7. split; [reflexivity | unfold row_bounds; lia].
Qed.

Lemma base_row_unknown (category : val) :
  category ∉ CATEGORY_BASE_SCORES_rows.*1 → base_row category = default_row.
Proof.
  intros H. unfold base_row, rows_map.
  by rewrite (not_elem_of_list_to_map_1 _ _ H).
Qed.

Lemma base_row_None : base_row VNone = default_row.
Proof. reflexivity. Qed.

Lemma risk_score_values title year :
  risk_score title year = 6 ∨ risk_score title year = 8 ∨ risk_score title year = 10.
Proof.
  unfold risk_score. destruct (title_has_keyword title); [by left|].
  destruct (py_eq year (VInt 2023) && contains "Hello world" title); auto.
Qed.

Lemma risk_score_10 title year :
  risk_score title year = 10 → year = VInt 2023.
Proof.
  unfold risk_score, py_eq. destruct (title_has_keyword title); [discriminate|].
  case_bool_decide; [done | discriminate].
Qed.

(** ** Well-typed records *)

Lemma is_int_inv v : is_int v = true → ∃ n, v = VInt n.
Proof. destruct v; try discriminate. eauto. Qed.

Lemma is_str_inv v : is_str v = true → ∃ s, v = VStr s.
Proof. destruct v; try discriminate. eauto. Qed.

Lemma well_typed_article_inv (art : dict) :
  well_typed_article art = true →
  hashable (default VNone (art !! VStr "category")) = true ∧
  (∃ w, default (VInt 0) (art !! VStr "word_count") = VInt w) ∧
  (∃ y, default (VInt 2010) (art !! VStr "year") = VInt y) ∧
  (∃ ti, default (VStr "") (art !! VStr "title") = VStr ti).
Proof.
  unfold well_typed_article. rewrite !andb_true_iff.
  intros [[[Hc Hw] Hy] Ht]. auto using is_int_inv, is_str_inv.
Qed.

Lemma year_field_2023 (art : dict) y :
  default (VInt 2010) (art !! VStr "year") = VInt y →
  py_eq (default VNone (art !! VStr "year")) (VInt 2023) = bool_decide (y = 2023).
Proof.
  unfold py_eq. destruct (art !! VStr "year") as [v|]; simpl.
  - intros ->. apply bool_decide_ext. split; congruence.
  - intros [= <-]. reflexivity.
Qed.

(** ** Claims about the scoring pipeline *)

Lemma heap_with_table art : initial_heap ⊆ heap_with art.
Proof.
  unfold heap_with.
  apply insert_subseteq_r; [reflexivity|].
  apply insert_subseteq. reflexivity.
Qed.

Lemma heap_with_article art : heap_with art !! 17%positive = Some art.
Proof. apply lookup_insert_eq. Qed.

(** C1, as the code has it: the keyword test comes first.  A title with one
    of the five keywords scores 6, whatever the year; otherwise a 2023
    article whose title contains "Hello world" scores 10; otherwise the
    score is 8.  The store is left as it was. *)
Theorem detect_risk_patterns_order h a art title :
  h !! a = Some art →
  default (VStr "") (art !! VStr "title") = VStr title →
  let keyword_hit :=
    existsb (λ keyword, contains keyword title) ["政治"; "速報"; "通知"; "募集"; "告知"] in
  let year_2023 := bool_decide (art !! VStr "year" = Some (VInt 2023)) in
  detect_risk_patterns (VRef a) h
  = (inr (VInt (if keyword_hit then 6
                else if year_2023 && contains "Hello world" title then 10
                else 8)), h).
Proof.
  intros Ha Ht keyword_hit year_2023.
  rewrite (detect_risk_patterns_spec h a art title Ha Ht).
  unfold risk_score. fold keyword_hit.
  replace (py_eq (default VNone (art !! VStr "year")) (VInt 2023)) with year_2023; [done|].
  unfold year_2023, py_eq. apply bool_decide_ext.
  destruct (art !! VStr "year"); simpl; split; congruence.
Qed.

Lemma detect_risk_patterns_order_witness :
  detect_risk_patterns (VRef 17) (heap_with article_hello_notice)
  = (inr (VInt 6), heap_with article_hello_notice).
Proof.
  exact (detect_risk_patterns_order (heap_with article_hello_notice) 17
           article_hello_notice "Hello world 告知"
           (heap_with_article _) eq_refl).
Defined.

(** C1 as stated fails: a 2023 article titled "Hello world 告知" contains
    "Hello world" and the keyword 告知, and its risk score is 6, not 10. *)
Lemma hello_world_with_keyword_scores_6 :
  article_hello_notice !! VStr "year" = Some (VInt 2023) ∧
  contains "Hello world" "Hello world 告知" = true ∧
  (detect_risk_patterns (VRef 17) (heap_with article_hello_notice)).1 = inr (VInt 6) ∧
  (detect_risk_patterns (VRef 17) (heap_with article_hello_notice)).1 ≠ inr (VInt 10).
Proof.
  assert (E : (detect_risk_patterns (VRef 17) (heap_with article_hello_notice)).1
              = inr (VInt 6)) by (vm_compute; reflexivity).
  split; [reflexivity|]. split; [reflexivity|]. split; [exact E|].
  rewrite E. discriminate.
Qed.

(** Every well-typed article is scored, and the result is given by the row
    of its category. *)
Lemma score_article_result_typed h a (art : dict) :
  initial_heap ⊆ h → h !! a = Some art → well_typed_article art = true →
  ∃ t u e r k w y ti,
    base_row (default VNone (art !! VStr "category")) = axis_scores t u e r k ∧
    row_bounds t u e r k ∧
    default (VInt 0) (art !! VStr "word_count") = VInt w ∧
    default (VInt 2010) (art !! VStr "year") = VInt y ∧
    default (VStr "") (art !! VStr "title") = VStr ti ∧
    let risk := risk_score ti (default VNone (art !! VStr "year")) in
    (score_article_result (VRef a) h).1
    = inr (VInt (final_total t u e r w y risk), final_scores t u e r w y risk,
           rewrite_type_rule (default VNone (art !! VStr "category")) y
             (final_total t u e r w y risk)).
Proof.
  intros Hsub Ha (Hc & [w Hw] & [y Hy] & [ti Ht])%well_typed_article_inv.
  destruct (base_row_bounded (default VNone (art !! VStr "category")))
    as (t & u & e & r & k & Hrow & Hb).
  exists t, u, e, r, k, w, y, ti. repeat (split; [assumption|]).
  by eapply score_article_result_run.
Qed.

Ltac adjust_cases :=
  unfold final_total, year_timeliness, year_zeroed, word_count_entertainment,
    word_count_effort, row_bounds in *;
  repeat case_bool_decide.

(** C3: for every well-typed article the pipeline returns a result, and in
    it timeliness lies in [0,30], universality, entertainment and rewrite
    effort in [0,20], and risk in [0,10]. *)
Theorem axis_scores_in_range h a (art : dict) :
  initial_heap ⊆ h → h !! a = Some art → well_typed_article art = true →
  ∃ total t u e r k rewrite_type,
    (score_article_result (VRef a) h).1
    = inr (total, axis_scores t u e r k, rewrite_type) ∧
    0 ≤ t ≤ 30 ∧ 0 ≤ u ≤ 20 ∧ 0 ≤ e ≤ 20 ∧ 0 ≤ r ≤ 20 ∧ 0 ≤ k ≤ 10.
Proof.
  intros Hsub Ha Hty.
  destruct (score_article_result_typed h a art Hsub Ha Hty)
    as (t & u & e & r & k & w & y & ti & _ & Hb & _ & _ & _ & E).
  cbv zeta in E. unfold final_scores in E.
  eexists _, _, _, _, _, _, _. split; [exact E|].
  pose proof (risk_score_values ti (default VNone (art !! VStr "year"))).
  adjust_cases; lia.
Qed.

Lemma axis_scores_in_range_witness :
  ∃ total t u e r k rewrite_type,
    (score_article_result (VRef 17) (heap_with article_long_2005)).1
    = inr (total, axis_scores t u e r k, rewrite_type) ∧
    0 ≤ t ≤ 30 ∧ 0 ≤ u ≤ 20 ∧ 0 ≤ e ≤ 20 ∧ 0 ≤ r ≤ 20 ∧ 0 ≤ k ≤ 10.
Proof.
  apply (axis_scores_in_range (heap_with article_long_2005) 17 article_long_2005).
  - apply heap_with_table.
  - apply heap_with_article.
  - reflexivity.
Defined.

(** C4: for every article of the year 2023, timeliness, universality and
    entertainment are 0 in the result, whatever the category and the word
    count. *)
Theorem year_2023_override h a (art : dict) :
  initial_heap ⊆ h → h !! a = Some art →
  art !! VStr "year" = Some (VInt 2023) →
  well_typed_article art = true →
  ∃ total r k rewrite_type,
    (score_article_result (VRef a) h).1
    = inr (total, axis_scores 0 0 0 r k, rewrite_type).
Proof.
  intros Hsub Ha Hyear Hty.
  destruct (score_article_result_typed h a art Hsub Ha Hty)
    as (t & u & e & r & k & w & y & ti & _ & _ & _ & Hy & _ & E).
  rewrite Hyear in Hy. simpl in Hy. injection Hy as <-.
  cbv zeta in E. unfold final_scores in E.
  eexists _, _, _, _. rewrite E. reflexivity.
Qed.

Lemma year_2023_override_witness :
  ∃ total r k rewrite_type,
    (score_article_result (VRef 17) (heap_with article_2023_long)).1
    = inr (total, axis_scores 0 0 0 r k, rewrite_type).
Proof.
  apply (year_2023_override (heap_with article_2023_long) 17 article_2023_long).
  - apply heap_with_table.
  - apply heap_with_article.
  - reflexivity.
  - reflexivity.
Defined.

(** The composite score of a well-typed article is at least 8 and at most
    79: the risk value 10 needs the year 2023, which zeroes three axes. *)
Lemma total_score_range h a (art : dict) :
  initial_heap ⊆ h → h !! a = Some art → well_typed_article art = true →
  ∃ total scores rewrite_type,
    (score_article_result (VRef a) h).1 = inr (VInt total, scores, rewrite_type) ∧
    8 ≤ total ≤ 79.
Proof.
  intros Hsub Ha Hty.
  destruct (score_article_result_typed h a art Hsub Ha Hty)
    as (t & u & e & r & k & w & y & ti & _ & Hb & _ & Hy & _ & E).
  cbv zeta in E. eexists _, _, _. split; [exact E|].
  pose proof (risk_score_values ti (default VNone (art !! VStr "year"))) as Hr.
  pose proof (risk_score_10 ti (default VNone (art !! VStr "year"))) as H10.
  assert (risk_score ti (default VNone (art !! VStr "year")) = 10 → y = 2023) as Hy10.
  { intros E10. specialize (H10 E10). apply year_field_2023 in Hy.
    rewrite H10 in Hy. unfold py_eq in Hy.
    rewrite bool_decide_eq_true_2 in Hy by reflexivity.
    symmetry in Hy. by apply bool_decide_eq_true_1 in Hy. }
  clear H10 E. adjust_cases; lia.
Qed.

(** C10, with the maximum the rule table allows: for every well-typed article
    the sum of the five adjusted axis values lies in [0,100], and in fact
    never exceeds 79; 79 is reached by the secondary-creative-work row with
    the pre-2009 timeliness bonus and the default risk value 8. *)
Theorem total_score_bounded h a (art : dict) :
  initial_heap ⊆ h → h !! a = Some art → well_typed_article art = true →
  (∃ total scores rewrite_type,
     (score_article_result (VRef a) h).1 = inr (VInt total, scores, rewrite_type) ∧
     0 ≤ total ≤ 100 ∧ total ≤ 79) ∧
  (score_article_result (VRef 17) (heap_with article_best)).1
  = inr (VInt 79, axis_scores 25 18 18 10 8, VStr "文化史抽出型").
Proof.
  intros Hsub Ha Hty. split.
  - destruct (total_score_range h a art Hsub Ha Hty) as (total & s & rt & E & Hb).
    exists total, s, rt. split; [exact E | lia].
  - vm_cast_no_check
      (eq_refl (score_article_result (VRef 17) (heap_with article_best)).1).
Qed.

Lemma total_score_bounded_witness :
  ∃ total scores rewrite_type,
    (score_article_result (VRef 17) (heap_with article_long_2005)).1
    = inr (VInt total, scores, rewrite_type) ∧ 0 ≤ total ≤ 100 ∧ total ≤ 79.
Proof.
  apply (total_score_bounded (heap_with article_long_2005) 17 article_long_2005).
  - apply heap_with_table.
  - apply heap_with_article.
  - reflexivity.
Defined.

(** C10 as stated fails: no well-typed article has the composite score 81. *)
Lemma total_score_81_unreachable :
  ¬ ∃ h a (art : dict) scores rewrite_type,
      initial_heap ⊆ h ∧ h !! a = Some art ∧ well_typed_article art = true ∧
      (score_article_result (VRef a) h).1 = inr (VInt 81, scores, rewrite_type).
Proof.
  intros (h & a & art & scores & rt & Hsub & Ha & Hty & E).
  destruct (total_score_range h a art Hsub Ha Hty) as (total & s & rt' & E' & Hb).
  rewrite E in E'. injection E' as <- _ _. lia.
Qed.

(** C7: the base-score lookup returns a fresh copy of a table row for every
    category, and the copy of the default row when the category is absent,
    [None] or not a key of the table. *)
Theorem calculate_base_score_fallback h a (art : dict) :
  initial_heap ⊆ h → h !! a = Some art →
  hashable (default VNone (art !! VStr "category")) = true →
  ∃ row,
    calculate_base_score (VRef a) h
    = (inr (VRef (fresh (dom h))), <[fresh (dom h) := row]> h) ∧
    (art !! VStr "category" = None ∨ art !! VStr "category" = Some VNone ∨
     default VNone (art !! VStr "category") ∉ CATEGORY_BASE_SCORES_rows.*1 →
     row = axis_scores 10 8 8 8 7).
Proof.
  intros Hsub Ha Hc. eexists. split.
  - by apply calculate_base_score_spec.
  - intros [-> | [-> | H]].
    + apply base_row_None.
    + apply base_row_None.
    + by apply base_row_unknown.
Qed.

Lemma calculate_base_score_fallback_witness :
  ∃ row,
    calculate_base_score (VRef 17) (heap_with article_unknown_category)
    = (inr (VRef (fresh (dom (heap_with article_unknown_category)))),
       <[fresh (dom (heap_with article_unknown_category)) := row]>
         (heap_with article_unknown_category)) ∧
    row = axis_scores 10 8 8 8 7.
Proof.
  destruct (calculate_base_score_fallback (heap_with article_unknown_category) 17
              article_unknown_category (heap_with_table _) (heap_with_article _) eq_refl)
    as (row & E & Hrow).
  exists row. split; [exact E|].
  apply Hrow. right. right.
  apply (bool_decide_unpack _). vm_compute. exact I.
Defined.

(** C6: the decision table of [determine_rewrite_type], top-down.  A total
    below 70 gives [None]; from 70 on the category decides, and for any
    other category the year does, with 2010 taken when the record has no
    year. *)
Theorem determine_rewrite_type_table h a (art : dict) total :
  h !! a = Some art →
  let category := default VNone (art !! VStr "category") in
  let year := default (VInt 2010) (art !! VStr "year") in
  let returns v := determine_rewrite_type (VRef a) (VInt total) h = (inr v, h) in
  (total < 70 → returns VNone) ∧
  (70 ≤ total → category ∈ [VStr "考察"; VStr "TRPG"; VStr "ＴＲＰＧ"] →
   returns (VStr "哲学昇華型")) ∧
  (70 ≤ total →
   category ∈ [VStr "東方二次創作"; VStr "東方二次創作ゲームレビュー"; VStr "レビュー"] →
   returns (VStr "文化史抽出型")) ∧
  (70 ≤ total → category ∈ [VStr "徒然"; VStr "報告"] →
   returns (VStr "タイムカプセル型")) ∧
  (70 ≤ total →
   category ∉ [VStr "考察"; VStr "TRPG"; VStr "ＴＲＰＧ"; VStr "東方二次創作";
               VStr "東方二次創作ゲームレビュー"; VStr "レビュー"; VStr "徒然"; VStr "報告"] →
   (∀ y, year = VInt y → y ≤ 2010 → returns (VStr "タイムカプセル型")) ∧
   (∀ y, year = VInt y → 2010 < y → returns (VStr "文化史抽出型")) ∧
   (art !! VStr "year" = None → returns (VStr "タイムカプセル型"))).
Proof.
  intros Ha category year returns.
  assert (Hlow : total < 70 → returns VNone).
  { intros Hlt. unfold returns, determine_rewrite_type.
    step (eq_refl : py_lt (VInt total) 70 h = (inr (bool_decide (total < 70)), h)).
    by rewrite bool_decide_eq_true_2. }
  assert (Hhigh : 70 ≤ total → ∀ v,
            (if bool_decide (category ∈ [VStr "考察"; VStr "TRPG"; VStr "ＴＲＰＧ"]) then
               mret (VStr "哲学昇華型")
             else if bool_decide (category ∈ [VStr "東方二次創作";
                                              VStr "東方二次創作ゲームレビュー";
                                              VStr "レビュー"]) then
               mret (VStr "文化史抽出型")
             else if bool_decide (category ∈ [VStr "徒然"; VStr "報告"]) then
               mret (VStr "タイムカプセル型")
             else
               old ← py_le year 2010;
               if old : bool then mret (VStr "タイムカプセル型")
               else mret (VStr "文化史抽出型")) h = (inr v, h) →
            returns v).
  { intros Hge v Hrun. unfold returns, determine_rewrite_type.
    step (eq_refl : py_lt (VInt total) 70 h = (inr (bool_decide (total < 70)), h)).
    rewrite bool_decide_eq_false_2 by lia.
    step (run_dict_get h a art (VStr "category") VNone Ha eq_refl).
    step (run_dict_get h a art (VStr "year") (VInt 2010) Ha eq_refl).
    exact Hrun. }
  split; [exact Hlow|].
  split; [|split; [|split]].
  - intros Hge Hin. apply (Hhigh Hge). by rewrite bool_decide_eq_true_2.
  - intros Hge Hin. apply (Hhigh Hge).
    rewrite !elem_of_cons, elem_of_nil in Hin.
    destruct Hin as [-> | [-> | [-> | []]]]; reflexivity.
  - intros Hge Hin. apply (Hhigh Hge).
    rewrite !elem_of_cons, elem_of_nil in Hin.
    destruct Hin as [-> | [-> | []]]; reflexivity.
  - intros Hge Hnot.
    assert (Hyear : ∀ y, year = VInt y →
              returns (if bool_decide (y ≤ 2010) then VStr "タイムカプセル型"
                       else VStr "文化史抽出型")).
    { intros y Hy. apply (Hhigh Hge).
      repeat (rewrite bool_decide_eq_false_2;
              [| intros Hin; apply Hnot; revert Hin;
                 rewrite !elem_of_cons, !elem_of_nil; tauto]).
      rewrite Hy.
      step (eq_refl : py_le (VInt y) 2010 h = (inr (bool_decide (y ≤ 2010)), h)).
      by destruct (bool_decide (y ≤ 2010)). }
    split; [|split].
    + intros y Hy Hle. specialize (Hyear y Hy).
      by rewrite bool_decide_eq_true_2 in Hyear.
    + intros y Hy Hgt. specialize (Hyear y Hy).
      by rewrite bool_decide_eq_false_2 in Hyear by lia.
    + intros Hnone. apply (Hyear 2010). unfold year. by rewrite Hnone.
Qed.

Lemma determine_rewrite_type_table_witness :
  determine_rewrite_type (VRef 17) (VInt 75) (heap_with article_review)
  = (inr (VStr "文化史抽出型"), heap_with article_review).
Proof.
  destruct (determine_rewrite_type_table (heap_with article_review) 17 article_review 75
              (heap_with_article _)) as (_ & _ & H & _).
  apply H; [lia|].
  apply (bool_decide_unpack _). vm_compute. exact I.
Defined.

(** ** What scoring leaves untouched *)

Lemma read_only_ret {A : Type} (x : A) : read_only (mret x : M A).
Proof. by intros h. Qed.

Lemma read_only_raise {A : Type} (e : exn) : read_only (raise e : M A).
Proof. by intros h. Qed.

Lemma read_only_bind {A B : Type} (m : M A) (f : A → M B) :
  read_only m → (∀ x, read_only (f x)) → read_only (m ≫= f).
Proof.
  intros Hm Hf h. unfold mbind, M_bind. specialize (Hm h).
  destruct (m h) as [[e|x] h1]; simpl in *; subst h1; [done | apply Hf].
Qed.

Lemma read_only_deref d : read_only (deref d).
Proof. intros h. unfold deref. destruct d; try done. by destruct (h !! l). Qed.

Lemma read_only_dict_get d k dflt : read_only (dict_get d k dflt).
Proof.
  apply read_only_bind; [apply read_only_deref|].
  intros m. destruct (hashable k); [apply read_only_ret | apply read_only_raise].
Qed.

Lemma read_only_dict_getitem d k : read_only (dict_getitem d k).
Proof.
  intros h. unfold dict_getitem. destruct d; try done.
  destruct (h !! l); [|done]. destruct (hashable k); [|done]. by destruct (_ !! k).
Qed.

Lemma read_only_as_int v : read_only (as_int v).
Proof. by destruct v. Qed.

Lemma read_only_compare (op : val → Z → M bool) v n :
  op = py_lt ∨ op = py_gt ∨ op = py_le ∨ op = py_ge → read_only (op v n).
Proof.
  intros [-> | [-> | [-> | ->]]];
    (apply read_only_bind; [apply read_only_as_int | intros; apply read_only_ret]).
Qed.

Lemma read_only_py_sub v n : read_only (py_sub v n).
Proof. apply read_only_bind; [apply read_only_as_int | intros; apply read_only_ret]. Qed.

Lemma read_only_py_add v n : read_only (py_add v n).
Proof. apply read_only_bind; [apply read_only_as_int | intros; apply read_only_ret]. Qed.

Lemma read_only_py_in item container : read_only (py_in item container).
Proof.
  destruct container; try done. simpl.
  apply read_only_bind; [apply read_only_deref | intros; apply read_only_ret].
Qed.

Lemma read_only_any_keyword_in keywords title :
  read_only (any_keyword_in keywords title).
Proof.
  induction keywords as [|keyword rest IH]; [apply read_only_ret|].
  cbn [any_keyword_in]. apply read_only_bind; [apply read_only_py_in|].
  intros []; [apply read_only_ret | exact IH].
Qed.

Lemma read_only_detect_risk_patterns article : read_only (detect_risk_patterns article).
Proof.
  unfold detect_risk_patterns.
  apply read_only_bind; [apply read_only_dict_get | intros title].
  apply read_only_bind; [apply read_only_any_keyword_in | intros []].
  { apply read_only_ret. }
  apply read_only_bind; [apply read_only_dict_get | intros year].
  destruct (py_eq year (VInt 2023)); [|apply read_only_ret].
  apply read_only_bind; [apply read_only_py_in | intros []; apply read_only_ret].
Qed.

Lemma read_only_calculate_total_score scores :
  read_only (calculate_total_score scores).
Proof.
  unfold calculate_total_score, dict_values_sum.
  apply read_only_bind; [|intros; apply read_only_ret].
  apply read_only_bind; [apply read_only_deref | intros m].
  destruct (py_sum _ _); [apply read_only_raise | apply read_only_ret].
Qed.

Lemma read_only_determine_rewrite_type article total_score :
  read_only (determine_rewrite_type article total_score).
Proof.
  unfold determine_rewrite_type.
  apply read_only_bind; [apply read_only_compare; auto | intros []].
  { apply read_only_ret. }
  apply read_only_bind; [apply read_only_dict_get | intros category].
  apply read_only_bind; [apply read_only_dict_get | intros year].
  repeat (case_bool_decide; [apply read_only_ret|]).
  apply read_only_bind; [apply read_only_compare; auto | intros []; apply read_only_ret].
Qed.

Lemma preserves_read_only {A : Type} h0 (m : M A) :
  read_only m → preserves h0 m (λ _, True).
Proof. intros Hm h Hsub. by rewrite Hm. Qed.

Lemma preserves_ret {A : Type} h0 (x : A) (Q : A → Prop) :
  Q x → preserves h0 (mret x) Q.
Proof. intros HQ h Hsub. split; [done|]. by intros ? [= <-]. Qed.

Lemma preserves_bind {A B : Type} h0 (m : M A) (f : A → M B) Q R :
  preserves h0 m Q → (∀ x, Q x → preserves h0 (f x) R) →
  preserves h0 (m ≫= f) R.
Proof.
  intros Hm Hf h Hsub. unfold mbind, M_bind. destruct (Hm h Hsub) as [H1 H2].
  destruct (m h) as [[e|x] h1]; simpl in *.
  - split; [done|]. intros ? [=].
  - by apply Hf; [apply H2|].
Qed.

Lemma preserves_alloc h0 d : preserves h0 (alloc d) (fresh_ref h0).
Proof.
  intros h Hsub. unfold alloc. simpl.
  assert (Hfresh : fresh (dom h) ∉ dom h0).
  { intros Hin. apply (is_fresh (dom h)). revert Hin. by apply subseteq_dom. }
  split.
  - apply insert_subseteq_r; [|done]. by apply not_elem_of_dom.
  - intros ? [= <-]. by eexists.
Qed.

Lemma preserves_dict_copy h0 d : preserves h0 (dict_copy d) (fresh_ref h0).
Proof.
  eapply preserves_bind.
  - apply preserves_read_only, read_only_deref.
  - intros m _. apply preserves_alloc.
Qed.

Lemma preserves_dict_setitem h0 d k v :
  fresh_ref h0 d → preserves h0 (dict_setitem d k v) (λ _, True).
Proof.
  intros (l & -> & Hl) h Hsub. split; [|done].
  unfold dict_setitem. destruct (h !! l); [|done]. destruct (hashable k); [|done].
  simpl. apply insert_subseteq_r; [|done]. by apply not_elem_of_dom.
Qed.

Lemma preserves_calculate_base_score h0 article :
  preserves h0 (calculate_base_score article) (fresh_ref h0).
Proof.
  unfold calculate_base_score.
  eapply preserves_bind; [apply preserves_read_only, read_only_dict_get|].
  intros category _.
  eapply preserves_bind; [apply preserves_read_only, read_only_dict_getitem|].
  intros dflt _.
  eapply preserves_bind; [apply preserves_read_only, read_only_dict_get|].
  intros entry _. apply preserves_dict_copy.
Qed.

Ltac preserves_read lem :=
  eapply preserves_bind; [apply preserves_read_only, lem | intros ? _].
Ltac preserves_write H :=
  eapply preserves_bind; [apply preserves_dict_setitem, H | intros ? _].

Lemma preserves_adjust_score_by_word_count h0 scores word_count :
  fresh_ref h0 scores →
  preserves h0 (adjust_score_by_word_count scores word_count) (fresh_ref h0).
Proof.
  intros Hs. unfold adjust_score_by_word_count.
  eapply preserves_bind;
    [apply preserves_read_only, read_only_compare; auto | intros short _].
  eapply preserves_bind; [|intros; by apply preserves_ret].
  destruct short.
  - preserves_read read_only_dict_getitem.
    preserves_read read_only_py_sub. preserves_write Hs.
    preserves_read read_only_dict_getitem.
    preserves_read read_only_py_sub. by apply preserves_dict_setitem.
  - eapply preserves_bind;
      [apply preserves_read_only, read_only_compare; auto | intros long _].
    destruct long; [|by apply preserves_ret].
    preserves_read read_only_dict_getitem.
    preserves_read read_only_py_add. preserves_write Hs.
    preserves_read read_only_dict_getitem.
    preserves_read read_only_py_sub. by apply preserves_dict_setitem.
Qed.

Lemma preserves_adjust_score_by_year h0 scores year :
  fresh_ref h0 scores →
  preserves h0 (adjust_score_by_year scores year) (fresh_ref h0).
Proof.
  intros Hs. unfold adjust_score_by_year.
  eapply preserves_bind; [|intros; by apply preserves_ret].
  destruct (py_eq year (VInt 2023)).
  - preserves_write Hs. preserves_write Hs. by apply preserves_dict_setitem.
  - eapply preserves_bind;
      [apply preserves_read_only, read_only_compare; auto | intros old _].
    destruct old; [|by apply preserves_ret].
    preserves_read read_only_dict_getitem.
    preserves_read read_only_py_add. by apply preserves_dict_setitem.
Qed.

Lemma preserves_score_article h0 article :
  preserves h0 (score_article article) (fresh_ref h0).
Proof.
  unfold score_article.
  eapply preserves_bind; [apply preserves_calculate_base_score | intros s0 Hs0].
  preserves_read read_only_dict_get.
  eapply preserves_bind;
    [by apply preserves_adjust_score_by_word_count | intros s1 Hs1].
  preserves_read read_only_dict_get.
  eapply preserves_bind; [by apply preserves_adjust_score_by_year | intros s2 Hs2].
  preserves_read read_only_detect_risk_patterns.
  preserves_write Hs2.
  preserves_read read_only_calculate_total_score.
  preserves_read read_only_determine_rewrite_type.
  apply preserves_alloc.
Qed.

(** ** Ill-typed records and determinism *)

Lemma fst_bind_raise {A B : Type} (m : M A) (f : A → M B) h e :
  (m h).1 = inl e → ((m ≫= f) h).1 = inl e.
Proof.
  unfold mbind, M_bind. destruct (m h) as [[e'|x] h1]; simpl; intros H;
    [by injection H as -> | discriminate H].
Qed.

Lemma as_int_raises v h : is_int v = false → (as_int v h).1 = inl TypeError.
Proof. by destruct v. Qed.

(** With a value of the wrong type in one of its fields, the article is not
    scored: the pipeline raises [TypeError]. *)
Lemma score_article_raises h a (art : dict) :
  initial_heap ⊆ h → h !! a = Some art →
  is_ref (default (VStr "") (art !! VStr "title")) = false →
  well_typed_article art = false →
  (score_article (VRef a) h).1 = inl TypeError.
Proof.
  intros Hsub Ha Hti Hty. unfold score_article.
  destruct (hashable (default VNone (art !! VStr "category"))) eqn:Hc.
  2:{ apply fst_bind_raise. unfold calculate_base_score.
      step (run_dict_get h a art (VStr "category") VNone Ha eq_refl).
      pose proof (lookup_weaken _ _ _ _ initial_heap_table Hsub) as Ht.
      unfold CATEGORY_BASE_SCORES.
      step (run_dict_getitem _ _ _ VNone (VRef 15) Ht eq_refl eq_refl).
      apply fst_bind_raise. unfold dict_get.
      step (run_deref _ _ _ Ht). by rewrite Hc. }
  destruct (base_row_bounded (default VNone (art !! VStr "category")))
    as (t & u & e & r & k & Hrow & _).
  set (s := fresh (dom h)).
  assert (Hat : ∀ d, <[s := d]> h !! a = Some art).
  { intros d. rewrite lookup_insert_ne; [done|].
    intros <-. subst s. by rewrite fresh_lookup in Ha. }
  assert (Hst : ∀ d, <[s := d]> h !! s = Some d) by (intros; apply lookup_insert_eq).
  step (calculate_base_score_spec h a art Hsub Ha Hc). fold s. rewrite Hrow.
  run ltac:(apply run_dict_get; [apply Hat | reflexivity]).
  destruct (is_int (default (VInt 0) (art !! VStr "word_count"))) eqn:Hw.
  2:{ apply fst_bind_raise. unfold adjust_score_by_word_count.
      apply fst_bind_raise, fst_bind_raise. by apply as_int_raises. }
  apply is_int_inv in Hw as [w Hw]. rewrite Hw.
  run ltac:(apply adjust_score_by_word_count_spec, Hst).
  rewrite insert_insert_eq.
  run ltac:(apply run_dict_get; [apply Hat | reflexivity]).
  destruct (is_int (default (VInt 2010) (art !! VStr "year"))) eqn:Hy.
  2:{ apply fst_bind_raise. unfold adjust_score_by_year.
      apply fst_bind_raise.
      replace (py_eq (default (VInt 2010) (art !! VStr "year")) (VInt 2023)) with false.
      - apply fst_bind_raise, fst_bind_raise. by apply as_int_raises.
      - symmetry. apply bool_decide_eq_false_2. intros E. by rewrite E in Hy. }
  apply is_int_inv in Hy as [y Hy]. rewrite Hy.
  run ltac:(apply adjust_score_by_year_spec, Hst).
  rewrite insert_insert_eq.
  assert (Hs : is_str (default (VStr "") (art !! VStr "title")) = false).
  { unfold well_typed_article in Hty. rewrite Hc, Hw, Hy in Hty. exact Hty. }
  apply fst_bind_raise. unfold detect_risk_patterns.
  run ltac:(apply run_dict_get; [apply Hat | reflexivity]).
  apply fst_bind_raise. unfold risk_keywords. cbn [any_keyword_in].
  apply fst_bind_raise.
  by destruct (default (VStr "") (art !! VStr "title")).
Qed.

(** A record whose year is present but [None], which is what the extractor
    writes for an article without a date, is not scored: the default of
    [article.get("year", 2010)] applies to a missing key only, and the
    comparison [None <= 2009] raises. *)
Lemma score_article_null_year h a (art : dict) :
  initial_heap ⊆ h → h !! a = Some art →
  art !! VStr "year" = Some VNone →
  is_ref (default (VStr "") (art !! VStr "title")) = false →
  (score_article (VRef a) h).1 = inl TypeError.
Proof.
  intros Hsub Ha Hy Hti. apply (score_article_raises h a art Hsub Ha Hti).
  unfold well_typed_article. rewrite Hy. cbn [default from_option id is_int].
  by rewrite andb_false_r.
Qed.

Lemma score_article_result_fields h a (art : dict) :
  initial_heap ⊆ h → h !! a = Some art →
  is_ref (default (VStr "") (art !! VStr "title")) = false →
  (score_article_result (VRef a) h).1 = scored_fields art.
Proof.
  intros Hsub Ha Hti. unfold scored_fields.
  destruct (well_typed_article art) eqn:Hty.
  - destruct (score_article_result_typed h a art Hsub Ha Hty)
      as (t & u & e & r & k & w & y & ti & Hrow & _ & Hw & Hy & Ht & E).
    cbv zeta in *. rewrite E, Hrow, Hw, Hy, Ht.
    rewrite axis_timeliness, axis_universality, axis_entertainment, axis_effort.
    reflexivity.
  - unfold score_article_result. apply fst_bind_raise.
    exact (score_article_raises h a art Hsub Ha Hti Hty).
Qed.

Lemma scored_fields_ext (art1 art2 : dict) :
  (∀ field, field ∈ input_fields → art1 !! field = art2 !! field) →
  scored_fields art1 = scored_fields art2.
Proof.
  intros H. unfold scored_fields, well_typed_article.
  rewrite (H (VStr "category")), (H (VStr "word_count")), (H (VStr "year")),
    (H (VStr "title")); [reflexivity | unfold input_fields; set_solver..].
Qed.

(** C8: the result of scoring is determined by the article's category, word
    count, year and title.  Two runs on records that agree on these fields
    give the same composite score, the same axis scores and the same rewrite
    type (or raise the same exception), whatever else the records and the
    stores contain: the outcome does not depend on score fields persisted by
    an earlier run. *)
Theorem score_article_deterministic h1 h2 a1 a2 (art1 art2 : dict) :
  initial_heap ⊆ h1 → initial_heap ⊆ h2 →
  h1 !! a1 = Some art1 → h2 !! a2 = Some art2 →
  (∀ field, field ∈ input_fields → art1 !! field = art2 !! field) →
  is_ref (default (VStr "") (art1 !! VStr "title")) = false →
  (score_article_result (VRef a1) h1).1 = (score_article_result (VRef a2) h2).1.
Proof.
  intros Hsub1 Hsub2 Ha1 Ha2 Hfields Hti.
  rewrite (score_article_result_fields h1 a1 art1 Hsub1 Ha1 Hti).
  rewrite (score_article_result_fields h2 a2 art2 Hsub2 Ha2).
  - by apply scored_fields_ext.
  - rewrite <- (Hfields (VStr "title")); [done | unfold input_fields; set_solver].
Qed.

Lemma score_article_deterministic_witness :
  (score_article_result (VRef 17) (heap_with article_daily_notes)).1
  = (score_article_result (VRef 17) article_daily_notes_rescored).1.
Proof.
  apply (score_article_deterministic _ _ 17 17 article_daily_notes article_daily_notes).
  - apply heap_with_table.
  - apply (bool_decide_unpack _). vm_compute. exact I.
  - apply heap_with_article.
  - vm_cast_no_check (eq_refl (Some article_daily_notes)).
  - reflexivity.
  - reflexivity.
Defined.

(** ** Classification *)

Lemma classify_loop_spec h articles infos b :
  Forall2 (λ article info, article_info h article = Some info) articles infos →
  Forall score_typed infos →
  classify_loop articles b h = (inr (foldl place b infos), h).
Proof.
  intros HF. revert b.
  induction HF as [|article [article_id score] articles infos Hinfo HF IH];
    intros b Hty; [reflexivity|].
  apply Forall_cons in Hty as [Hscore Hty].
  cbn [classify_loop foldl].
  unfold article_info in Hinfo.
  destruct article as [| | |a]; try discriminate Hinfo.
  destruct (h !! a) as [art|] eqn:Ha; [|discriminate Hinfo]. simpl in Hinfo.
  destruct (art !! VStr "rewrite_status") as [status_ref|] eqn:Hst;
    [|discriminate Hinfo].
  simpl in Hinfo. destruct status_ref as [| | |s]; try discriminate Hinfo.
  destruct (h !! s) as [status|] eqn:Hs; [|discriminate Hinfo]. simpl in Hinfo.
  destruct (art !! VStr "id") as [article_id'|] eqn:Hid; [|discriminate Hinfo].
  simpl in Hinfo. injection Hinfo as -> Hscore'.
  step (run_dict_getitem h a art (VStr "rewrite_status") (VRef s) Ha eq_refl Hst).
  step (run_dict_get h s status (VStr "rewrite_score") VNone Hs eq_refl).
  rewrite Hscore'. unfold place at 2. cbn [fst snd].
  destruct Hscore as [Hnone | Hint]; cbn [snd] in *.
  - rewrite Hnone. unfold py_eq. rewrite bool_decide_eq_true_2 by reflexivity.
    by apply IH.
  - apply is_int_inv in Hint as [n ->].
    unfold py_eq. rewrite bool_decide_eq_false_2 by discriminate.
    step (run_dict_getitem h a art (VStr "id") article_id Ha eq_refl Hid).
    step (eq_refl : py_ge (VInt n) 70 h = (inr (bool_decide (70 ≤ n)), h)).
    destruct (bool_decide (70 ≤ n)); [by apply IH|].
    step (eq_refl : py_ge (VInt n) 50 h = (inr (bool_decide (50 ≤ n)), h)).
    destruct (bool_decide (50 ≤ n)); [by apply IH|].
    step (eq_refl : py_ge (VInt n) 30 h = (inr (bool_decide (30 ≤ n)), h)).
    destruct (bool_decide (30 ≤ n)); by apply IH.
Qed.

(** Which IDs end up in which list: [proj] is one of the four lists and [P]
    the test on the score that feeds it. *)
Lemma elem_of_foldl_place (proj : buckets → list val) (P : Z → bool) :
  (∀ b info,
     proj (place b info)
     = (proj b ++ match info.2 with
                 | VInt n => if P n then [info.1] else []
                 | _ => []
                 end)%list) →
  ∀ (infos : list (val * val)) (b : buckets) (x : val),
    x ∈ proj (foldl place b infos) ↔
    x ∈ proj b ∨ ∃ n, (x, VInt n) ∈ infos ∧ P n = true.
Proof.
  intros Hproj infos. induction infos as [|[article_id score] infos IH]; intros b x.
  - cbn [foldl]. split; [auto|]. intros [?|(n & Hin & _)]; [done|].
    by apply elem_of_nil in Hin.
  - cbn [foldl]. rewrite IH, Hproj, elem_of_app. cbn [fst snd]. split.
    + intros [[Hb|Hnew]|(n & Hin & Hn)].
      * by left.
      * right. destruct score as [|m| |]; try by apply elem_of_nil in Hnew.
        destruct (P m) eqn:Hm; [|by apply elem_of_nil in Hnew].
        apply list_elem_of_singleton in Hnew as ->.
        exists m. split; [apply elem_of_cons; by left | done].
      * right. exists n. split; [apply elem_of_cons; by right | done].
    + intros [Hb|(n & Hin & Hn)]; [by left; left|].
      apply elem_of_cons in Hin as [[= -> <-]|Hin].
      * left. right. rewrite Hn. by apply list_elem_of_singleton.
      * right. by exists n.
Qed.

Lemma place_rewrite b info :
  rewrite_candidates (place b info)
  = (rewrite_candidates b ++ match info.2 with
                            | VInt n => if bool_decide (70 ≤ n) then [info.1] else []
                            | _ => []
                            end)%list.
Proof.
  unfold place. destruct info.2; try (by rewrite app_nil_r).
  repeat case_bool_decide; cbn [rewrite_candidates]; by rewrite ?app_nil_r.
Qed.

Lemma place_review b info :
  review_candidates (place b info)
  = (review_candidates b ++ match info.2 with
                           | VInt n =>
                               if bool_decide (50 ≤ n) && bool_decide (n < 70)
                               then [info.1] else []
                           | _ => []
                           end)%list.
Proof.
  unfold place. destruct info.2; try (by rewrite app_nil_r).
  repeat case_bool_decide; cbn [review_candidates andb]; rewrite ?app_nil_r;
    try reflexivity; lia.
Qed.

Lemma place_archive b info :
  archive_candidates (place b info)
  = (archive_candidates b ++ match info.2 with
                            | VInt n =>
                                if bool_decide (30 ≤ n) && bool_decide (n < 50)
                                then [info.1] else []
                            | _ => []
                            end)%list.
Proof.
  unfold place. destruct info.2; try (by rewrite app_nil_r).
  repeat case_bool_decide; cbn [archive_candidates andb]; rewrite ?app_nil_r;
    try reflexivity; lia.
Qed.

Lemma place_deletion b info :
  deletion_candidates (place b info)
  = (deletion_candidates b ++ match info.2 with
                             | VInt n => if bool_decide (n < 30) then [info.1] else []
                             | _ => []
                             end)%list.
Proof.
  unfold place. destruct info.2; try (by rewrite app_nil_r).
  repeat case_bool_decide; cbn [deletion_candidates]; rewrite ?app_nil_r;
    try reflexivity; lia.
Qed.

Lemma NoDup_fst_unique {A B : Type} (l : list (A * B)) x y1 y2 :
  NoDup l.*1 → (x, y1) ∈ l → (x, y2) ∈ l → y1 = y2.
Proof.
  induction l as [|[x' y'] l IH]; intros Hnd H1 H2.
  - by apply elem_of_nil in H1.
  - rewrite fmap_cons in Hnd. apply NoDup_cons in Hnd as [Hx Hnd].
    apply elem_of_cons in H1. apply elem_of_cons in H2.
    destruct H1 as [E1|H1], H2 as [E2|H2].
    + congruence.
    + injection E1 as -> ->. exfalso. apply Hx.
      exact (list_elem_of_fmap_2 fst l (x', y2) H2).
    + injection E2 as -> ->. exfalso. apply Hx.
      exact (list_elem_of_fmap_2 fst l (x', y1) H1).
    + by apply IH.
Qed.

(** C5: the classifier sorts by the persisted composite score alone, with the
    cut points 70, 50 and 30.  When the article IDs are pairwise distinct,
    the ID of an article with an integer score is in the one list its score
    selects and in no other, and the ID of an article without a score is in
    none of the four lists.  The store is left as it was. *)
Theorem classify_articles_partition h articles (infos : list (val * val)) :
  Forall2 (λ article info, article_info h article = Some info) articles infos →
  Forall score_typed infos →
  NoDup infos.*1 →
  ∃ b,
    classify_articles articles h = (inr b, h) ∧
    ∀ article_id score, (article_id, score) ∈ infos →
      match score with
      | VInt n =>
          (article_id ∈ rewrite_candidates b ↔ 70 ≤ n) ∧
          (article_id ∈ review_candidates b ↔ 50 ≤ n < 70) ∧
          (article_id ∈ archive_candidates b ↔ 30 ≤ n < 50) ∧
          (article_id ∈ deletion_candidates b ↔ n < 30)
      | _ =>
          (article_id ∉ rewrite_candidates b) ∧ (article_id ∉ review_candidates b) ∧
          (article_id ∉ archive_candidates b) ∧ (article_id ∉ deletion_candidates b)
      end.
Proof.
  intros HF Hty Hnd. eexists. split.
  { unfold classify_articles. by apply classify_loop_spec. }
  intros article_id score Hin.
  pose proof (elem_of_foldl_place _ _ place_rewrite infos (Buckets [] [] [] []) article_id)
    as H1.
  pose proof (elem_of_foldl_place _ _ place_review infos (Buckets [] [] [] []) article_id)
    as H2.
  pose proof (elem_of_foldl_place _ _ place_archive infos (Buckets [] [] [] []) article_id)
    as H3.
  pose proof (elem_of_foldl_place _ _ place_deletion infos (Buckets [] [] [] []) article_id)
    as H4.
  cbn [rewrite_candidates review_candidates archive_candidates deletion_candidates]
    in H1, H2, H3, H4.
  assert (Hone : ∀ (P : Z → bool),
            (∃ n, (article_id, VInt n) ∈ infos ∧ P n = true) →
            ∃ n, score = VInt n ∧ P n = true).
  { intros P (n & Hn & HP). exists n. split; [|done].
    by apply (NoDup_fst_unique infos article_id). }
  assert (Hnil : ∀ A : Prop, article_id ∈ @nil val ∨ A ↔ A).
  { intros A. split; [|auto]. intros [Hx|HA]; [|done]. by apply elem_of_nil in Hx. }
  rewrite Hnil in H1, H2, H3, H4.
  destruct score as [|n| |]; rewrite ?H1, ?H2, ?H3, ?H4;
    try (split; [|split; [|split]]; intros (m & [=] & _)%Hone).
  clear H1 H2 H3 H4. repeat split.
  - intros (m & [= <-] & Hm)%Hone. by apply bool_decide_eq_true_1 in Hm.
  - exists n. split; [done | by apply bool_decide_eq_true_2].
  - apply Hone in H as (m & [= <-] & Hm). apply andb_true_iff in Hm as [Hm _].
    by apply bool_decide_eq_true_1 in Hm.
  - apply Hone in H as (m & [= <-] & Hm). apply andb_true_iff in Hm as [_ Hm].
    by apply bool_decide_eq_true_1 in Hm.
  - intros [? ?]. exists n. split; [done|].
    apply andb_true_iff. split; by apply bool_decide_eq_true_2.
  - apply Hone in H as (m & [= <-] & Hm). apply andb_true_iff in Hm as [Hm _].
    by apply bool_decide_eq_true_1 in Hm.
  - apply Hone in H as (m & [= <-] & Hm). apply andb_true_iff in Hm as [_ Hm].
    by apply bool_decide_eq_true_1 in Hm.
  - intros [? ?]. exists n. split; [done|].
    apply andb_true_iff. split; by apply bool_decide_eq_true_2.
  - intros (m & [= <-] & Hm)%Hone. by apply bool_decide_eq_true_1 in Hm.
  - exists n. split; [done | by apply bool_decide_eq_true_2].
Qed.

Lemma classify_articles_partition_witness :
  ∃ b,
    classify_articles [VRef 17; VRef 19; VRef 21] three_articles
    = (inr b, three_articles) ∧
    ∀ article_id score,
      (article_id, score) ∈ [(VStr "fc2_2012-01-01_001", VInt 80);
                             (VStr "fc2_2012-01-02_002", VNone);
                             (VStr "fc2_2012-01-03_003", VInt 44)] →
      match score with
      | VInt n =>
          (article_id ∈ rewrite_candidates b ↔ 70 ≤ n) ∧
          (article_id ∈ review_candidates b ↔ 50 ≤ n < 70) ∧
          (article_id ∈ archive_candidates b ↔ 30 ≤ n < 50) ∧
          (article_id ∈ deletion_candidates b ↔ n < 30)
      | _ =>
          (article_id ∉ rewrite_candidates b) ∧ (article_id ∉ review_candidates b) ∧
          (article_id ∉ archive_candidates b) ∧ (article_id ∉ deletion_candidates b)
      end.
Proof.
  apply (classify_articles_partition three_articles).
  - repeat (apply Forall2_cons; split; [reflexivity|]). apply Forall2_nil_2.
  - repeat (apply Forall_cons; split; [(by left) || (by right)|]). apply Forall_nil_2.
  - apply (bool_decide_unpack _). vm_compute. exact I.
Defined.

(** ** One round of the scoring loop, and the scenario *)

Lemma persisted_score status total_score rewrite_type scores :
  persisted status total_score rewrite_type scores !! VStr "rewrite_score"
  = Some total_score.
Proof.
  unfold persisted. rewrite !lookup_insert_ne by discriminate. apply lookup_insert_eq.
Qed.

Lemma lookup_after_allocs (h : heap) l d d1 d2 :
  h !! l = Some d →
  <[fresh (dom (<[fresh (dom h) := d1]> h)) := d2]> (<[fresh (dom h) := d1]> h) !! l
  = Some d.
Proof.
  intros Hl.
  assert (H1 : fresh (dom h) ≠ l).
  { intros E. pose proof (fresh_lookup h) as F. rewrite E in F. by rewrite Hl in F. }
  assert (H2 : fresh (dom (<[fresh (dom h) := d1]> h)) ≠ l).
  { intros E. pose proof (fresh_lookup (<[fresh (dom h) := d1]> h)) as F.
    rewrite E in F. rewrite lookup_insert_ne in F by done. by rewrite Hl in F. }
  by rewrite !lookup_insert_ne.
Qed.

Lemma main_scoring_loop_single h a (art : dict) st status t u e r k w y ti :
  initial_heap ⊆ h → h !! a = Some art →
  hashable (default VNone (art !! VStr "category")) = true →
  base_row (default VNone (art !! VStr "category")) = axis_scores t u e r k →
  default (VInt 0) (art !! VStr "word_count") = VInt w →
  default (VInt 2010) (art !! VStr "year") = VInt y →
  default (VStr "") (art !! VStr "title") = VStr ti →
  art !! VStr "rewrite_status" = Some (VRef st) → h !! st = Some status → st ≠ a →
  let s := fresh (dom h) in
  let risk := risk_score ti (default VNone (art !! VStr "year")) in
  let total := final_total t u e r w y risk in
  let rewrite_type := rewrite_type_rule (default VNone (art !! VStr "category")) y total in
  let h1 := <[s := final_scores t u e r w y risk]> h in
  let h2 := <[fresh (dom h1) := score_info_dict (VInt total) (VRef s) rewrite_type]> h1 in
  main_scoring_loop [VRef a] h
  = (inr (), <[st := persisted status (VInt total) rewrite_type (VRef s)]> h2).
Proof.
  intros Hsub Ha Hc Hrow Hw Hy Ht Hst Hstatus Hne s risk total rewrite_type h1 h2.
  cbn [main_scoring_loop].
  step (score_article_run h a art t u e r k w y ti Hsub Ha Hc Hrow Hw Hy Ht).
  fold s risk total rewrite_type h1 h2.
  set (o := fresh (dom h1)).
  assert (Hold : ∀ l d, h !! l = Some d → h2 !! l = Some d).
  { intros l d Hl. by apply lookup_after_allocs. }
  assert (Hr_st : st ≠ o).
  { intros E. pose proof (Hold _ _ Hstatus) as H2. unfold h2 in H2. fold o in H2.
    rewrite E in H2. pose proof (fresh_lookup h1) as F. fold o in F.
    rewrite lookup_insert_eq in H2. injection H2 as H2.
    pose proof (lookup_after_allocs h st status (final_scores t u e r w y risk)
                  status Hstatus) as H3.
    fold s h1 o in H3. rewrite E, lookup_insert_eq in H3. clear H3.
    assert (H4 : h1 !! st = Some status).
    { unfold h1. rewrite lookup_insert_ne; [done|]. intros E'.
      pose proof (fresh_lookup h) as F'. fold s in F'. rewrite E' in F'.
      by rewrite Hstatus in F'. }
    rewrite E in H4. by rewrite H4 in F. }
  assert (Ha2 : ∀ d, <[st := d]> h2 !! a = Some art).
  { intros d. rewrite lookup_insert_ne by done. by apply Hold. }
  assert (Hr2 : ∀ d, <[st := d]> h2 !! o
                     = Some (score_info_dict (VInt total) (VRef s) rewrite_type)).
  { intros d. rewrite lookup_insert_ne by done. apply lookup_insert_eq. }
  run ltac:(eapply run_dict_getitem; [apply lookup_insert_eq | reflexivity..]).
  run ltac:(eapply run_dict_getitem; [by apply Hold | reflexivity | exact Hst]).
  run ltac:(eapply run_dict_setitem; [by apply Hold | reflexivity]).
  run ltac:(eapply run_dict_getitem; [apply Hr2 | reflexivity..]).
  run ltac:(eapply run_dict_getitem; [apply Ha2 | reflexivity | exact Hst]).
  run ltac:(eapply run_dict_setitem; [apply lookup_insert_eq | reflexivity]).
  rewrite insert_insert_eq.
  run ltac:(eapply run_dict_getitem; [apply Hr2 | reflexivity..]).
  run ltac:(eapply run_dict_getitem; [apply Ha2 | reflexivity | exact Hst]).
  run ltac:(eapply run_dict_setitem; [apply lookup_insert_eq | reflexivity]).
  rewrite insert_insert_eq. reflexivity.
Qed.

(** C2, for every store that holds the rule table and every record with the
    scenario's four fields, an ID and a ["rewrite_status"] dict of its own:
    the axis scores are 15, 8, 6, 7, 8, the composite score is 44, there is
    no rewrite type, and after the scoring loop of [main] the classifier
    puts the ID in the archive list and nowhere else. *)
Theorem scenario_daily_notes h a (art : dict) article_id st status :
  initial_heap ⊆ h → h !! a = Some art →
  art !! VStr "category" = Some (VStr "徒然") →
  art !! VStr "word_count" = Some (VInt 150) →
  art !! VStr "year" = Some (VInt 2008) →
  art !! VStr "title" = Some (VStr "daily notes") →
  art !! VStr "id" = Some article_id →
  art !! VStr "rewrite_status" = Some (VRef st) → h !! st = Some status → st ≠ a →
  (score_article_result (VRef a) h).1
  = inr (VInt 44, axis_scores 15 8 6 7 8, VNone) ∧
  (main_score_and_classify [VRef a] h).1 = inr (Buckets [] [] [article_id] []).
Proof.
  intros Hsub Ha Hcat Hw Hy Ht Hid Hst Hstatus Hne.
  assert (Hc : hashable (default VNone (art !! VStr "category")) = true)
    by (by rewrite Hcat).
  assert (Hrow : base_row (default VNone (art !! VStr "category"))
                 = axis_scores 12 8 10 10 8) by (by rewrite Hcat).
  assert (Hw' : default (VInt 0) (art !! VStr "word_count") = VInt 150)
    by (by rewrite Hw).
  assert (Hy' : default (VInt 2010) (art !! VStr "year") = VInt 2008)
    by (by rewrite Hy).
  assert (Ht' : default (VStr "") (art !! VStr "title") = VStr "daily notes")
    by (by rewrite Ht).
  split.
  - rewrite (score_article_result_run h a art _ _ _ _ _ _ _ _ Hsub Ha Hc Hrow Hw' Hy' Ht').
    rewrite Hy, Hcat. reflexivity.
  - unfold main_score_and_classify.
    step (main_scoring_loop_single h a art st status _ _ _ _ _ _ _ _
            Hsub Ha Hc Hrow Hw' Hy' Ht' Hst Hstatus Hne).
    set (total := final_total _ _ _ _ _ _ _).
    set (h3 := <[st := _]> _).
    assert (Htotal : total = 44) by (unfold total; rewrite Hy; reflexivity).
    assert (Hinfo : article_info h3 (VRef a) = Some (article_id, VInt total)).
    { unfold article_info, h3.
      rewrite lookup_insert_ne by done.
      erewrite lookup_after_allocs by exact Ha.
      cbn [mbind option_bind]. rewrite Hst. cbn [mbind option_bind].
      rewrite lookup_insert_eq. cbn [mbind option_bind].
      rewrite Hid. cbn [mbind option_bind].
      by rewrite persisted_score. }
    unfold classify_articles.
    rewrite (classify_loop_spec h3 [VRef a] [(article_id, VInt total)]).
    + cbn [foldl]. unfold place. cbn [fst snd]. rewrite Htotal. reflexivity.
    + apply Forall2_cons. split; [exact Hinfo | apply Forall2_nil_2].
    + apply Forall_cons. split; [by right | apply Forall_nil_2].
Qed.

Lemma scenario_daily_notes_witness :
  (score_article_result (VRef 17) (heap_with article_daily_notes)).1
  = inr (VInt 44, axis_scores 15 8 6 7 8, VNone) ∧
  (main_score_and_classify [VRef 17] (heap_with article_daily_notes)).1
  = inr (Buckets [] [] [VStr "fc2_2008-04-01_001"] []).
Proof.
  apply (scenario_daily_notes (heap_with article_daily_notes) 17 article_daily_notes
           (VStr "fc2_2008-04-01_001") 18 pending_status).
  - apply heap_with_table.
  - apply heap_with_article.
  - reflexivity.
  - reflexivity.
  - reflexivity.
  - reflexivity.
  - reflexivity.
  - reflexivity.
  - reflexivity.
  - discriminate.
Defined.

(** ** The scoring loop and the rule table *)

Lemma keeps_read_only {A : Type} (m : M A) : read_only m → keeps m (λ _, True).
Proof. intros Hm h Hsafe. by rewrite Hm. Qed.

Lemma keeps_ret {A : Type} (x : A) (Q : A → Prop) : Q x → keeps (mret x) Q.
Proof. intros HQ h Hsafe. split; [done|]. by intros ? [= <-]. Qed.

Lemma keeps_bind {A B : Type} (m : M A) (f : A → M B) Q R :
  keeps m Q → (∀ x, Q x → keeps (f x) R) → keeps (m ≫= f) R.
Proof.
  intros Hm Hf h Hsafe. unfold mbind, M_bind. destruct (Hm h Hsafe) as [H1 H2].
  destruct (m h) as [[e|x] h1]; simpl in *.
  - split; [done|]. intros ? [=].
  - by apply Hf; [apply H2|].
Qed.

Lemma keeps_deref d : keeps (deref d) status_outside_table.
Proof.
  intros h Hsafe. rewrite read_only_deref. split; [done|].
  intros m. unfold deref. destruct d as [| | |l]; try discriminate.
  destruct (h !! l) as [m'|] eqn:Hl; [|discriminate].
  intros [= <-]. by apply (proj2 Hsafe l).
Qed.

Lemma keeps_getitem_status article :
  keeps (dict_getitem article (VStr "rewrite_status")) outside_table.
Proof.
  intros h Hsafe. rewrite read_only_dict_getitem. split; [done|].
  intros v. unfold dict_getitem. destruct article as [| | |l]; try discriminate.
  destruct (h !! l) as [m|] eqn:Hl; [|discriminate]. cbn [hashable].
  destruct (m !! VStr "rewrite_status") as [v'|] eqn:Hv; [|discriminate].
  intros [= <-]. by apply (proj2 Hsafe l m).
Qed.

Lemma keeps_alloc d : status_outside_table d → keeps (alloc d) outside_table.
Proof.
  intros Hd h [Hsub Hst]. unfold alloc. simpl.
  assert (Hfresh : fresh (dom h) ∉ dom initial_heap).
  { intros Hin. apply (is_fresh (dom h)). revert Hin. by apply subseteq_dom. }
  split; [split|].
  - apply insert_subseteq_r; [|done]. by apply not_elem_of_dom.
  - intros l d' Hl. destruct (decide (fresh (dom h) = l)) as [<-|Hne].
    + rewrite lookup_insert_eq in Hl. by injection Hl as <-.
    + rewrite lookup_insert_ne in Hl by done. by apply (Hst l).
  - intros ? [= <-] l [= <-]. exact Hfresh.
Qed.

Lemma keeps_dict_copy d : keeps (dict_copy d) outside_table.
Proof.
  eapply keeps_bind; [apply keeps_deref|]. intros m Hm. by apply keeps_alloc.
Qed.

Lemma keeps_dict_setitem d k v :
  outside_table d → k ≠ VStr "rewrite_status" →
  keeps (dict_setitem d k v) (λ _, True).
Proof.
  intros Hd Hk h Hsafe. split; [|done].
  unfold dict_setitem. destruct d as [| | |l]; try exact Hsafe.
  destruct (h !! l) as [m|] eqn:Hl; [|exact Hsafe].
  destruct (hashable k); [|exact Hsafe].
  destruct Hsafe as [Hsub Hst]. cbn [snd]. split.
  - apply insert_subseteq_r; [|exact Hsub]. apply not_elem_of_dom. by apply Hd.
  - intros l' d' Hl'. destruct (decide (l = l')) as [<-|Hne].
    + rewrite lookup_insert_eq in Hl'. injection Hl' as <-.
      intros x Hx. rewrite lookup_insert_ne in Hx by done. by apply (Hst l m).
    + rewrite lookup_insert_ne in Hl' by done. by apply (Hst l').
Qed.

Ltac keeps_read lem :=
  eapply keeps_bind; [apply keeps_read_only, lem | intros ? _].
Ltac keeps_write H :=
  eapply keeps_bind; [apply keeps_dict_setitem; [exact H | discriminate] | intros ? _].

Lemma keeps_calculate_base_score article :
  keeps (calculate_base_score article) outside_table.
Proof.
  unfold calculate_base_score.
  keeps_read read_only_dict_get. keeps_read read_only_dict_getitem.
  keeps_read read_only_dict_get. apply keeps_dict_copy.
Qed.

Lemma keeps_adjust_score_by_word_count scores word_count :
  outside_table scores →
  keeps (adjust_score_by_word_count scores word_count) outside_table.
Proof.
  intros Hs. unfold adjust_score_by_word_count.
  eapply keeps_bind; [apply keeps_read_only, read_only_compare; auto | intros short _].
  eapply keeps_bind; [|intros; by apply keeps_ret].
  destruct short.
  - keeps_read read_only_dict_getitem. keeps_read read_only_py_sub. keeps_write Hs.
    keeps_read read_only_dict_getitem. keeps_read read_only_py_sub.
    apply keeps_dict_setitem; [exact Hs | discriminate].
  - eapply keeps_bind; [apply keeps_read_only, read_only_compare; auto | intros long _].
    destruct long; [|by apply keeps_ret].
    keeps_read read_only_dict_getitem. keeps_read read_only_py_add. keeps_write Hs.
    keeps_read read_only_dict_getitem. keeps_read read_only_py_sub.
    apply keeps_dict_setitem; [exact Hs | discriminate].
Qed.

Lemma keeps_adjust_score_by_year scores year :
  outside_table scores → keeps (adjust_score_by_year scores year) outside_table.
Proof.
  intros Hs. unfold adjust_score_by_year.
  eapply keeps_bind; [|intros; by apply keeps_ret].
  destruct (py_eq year (VInt 2023)).
  - keeps_write Hs. keeps_write Hs. apply keeps_dict_setitem; [exact Hs | discriminate].
  - eapply keeps_bind; [apply keeps_read_only, read_only_compare; auto | intros old _].
    destruct old; [|by apply keeps_ret].
    keeps_read read_only_dict_getitem. keeps_read read_only_py_add.
    apply keeps_dict_setitem; [exact Hs | discriminate].
Qed.

Lemma keeps_score_article article : keeps (score_article article) outside_table.
Proof.
  unfold score_article.
  eapply keeps_bind; [apply keeps_calculate_base_score | intros s0 Hs0].
  keeps_read read_only_dict_get.
  eapply keeps_bind; [by apply keeps_adjust_score_by_word_count | intros s1 Hs1].
  keeps_read read_only_dict_get.
  eapply keeps_bind; [by apply keeps_adjust_score_by_year | intros s2 Hs2].
  keeps_read read_only_detect_risk_patterns.
  keeps_write Hs2.
  keeps_read read_only_calculate_total_score.
  keeps_read read_only_determine_rewrite_type.
  apply keeps_alloc. intros v Hv.
  rewrite !lookup_insert_ne in Hv by discriminate. by rewrite lookup_empty in Hv.
Qed.

Lemma keeps_main_scoring_loop articles :
  keeps (main_scoring_loop articles) (λ _, True).
Proof.
  induction articles as [|article rest IH]; [by apply keeps_ret|].
  cbn [main_scoring_loop].
  eapply keeps_bind; [apply keeps_score_article | intros score_info _].
  keeps_read read_only_dict_getitem.
  eapply keeps_bind; [apply keeps_getitem_status | intros status1 H1].
  keeps_write H1.
  keeps_read read_only_dict_getitem.
  eapply keeps_bind; [apply keeps_getitem_status | intros status2 H2].
  keeps_write H2.
  keeps_read read_only_dict_getitem.
  eapply keeps_bind; [apply keeps_getitem_status | intros status3 H3].
  keeps_write H3.
  exact IH.
Qed.

(** The scoring loop of [main] leaves the rule table and its rows as they
    were loaded, for every list of articles, whether it ends or raises. *)
Lemma main_scoring_loop_keeps_table articles h :
  table_safe h → initial_heap ⊆ (main_scoring_loop articles h).2.
Proof. intros Hsafe. by apply (keeps_main_scoring_loop articles h Hsafe). Qed.

Lemma initial_heap_no_status l d :
  initial_heap !! l = Some d → d !! VStr "rewrite_status" = None.
Proof.
  revert l d. change (map_Forall (λ _ (d : dict),
                                    d !! VStr "rewrite_status" = None) initial_heap).
  apply (bool_decide_unpack _). vm_compute. exact I.
Qed.

(** The stores used for the concrete runs are [table_safe]. *)
Lemma table_safe_heap_with id title category word_count year :
  table_safe (heap_with (article_record id title category word_count year 18)).
Proof.
  split; [apply heap_with_table|].
  intros l d Hl v Hv. unfold heap_with in Hl.
  destruct (decide (l = 17%positive)) as [->|H17].
  - rewrite lookup_insert_eq in Hl. injection Hl as <-.
    unfold article_record in Hv.
    rewrite !lookup_insert_ne in Hv by discriminate.
    rewrite lookup_insert_eq in Hv. injection Hv as <-.
    intros x [= <-]. by apply not_elem_of_dom.
  - rewrite lookup_insert_ne in Hl by done.
    destruct (decide (l = 18%positive)) as [->|H18].
    + rewrite lookup_insert_eq in Hl. injection Hl as <-. discriminate Hv.
    + rewrite lookup_insert_ne in Hl by done.
      by rewrite (initial_heap_no_status l d Hl) in Hv.
Qed.

(** C9: [score_article] changes no object of the store it is started in,
    whatever the store and the argument, and whether it returns or raises:
    the article record, its ["rewrite_status"] dict, the rule table and its
    rows are afterwards what they were before, and what it returns is a
    reference to an object that did not exist before.  The scoring loop of
    [main], which writes the results into the ["rewrite_status"] dicts,
    leaves the rule table and its rows as loaded as well. *)
Theorem score_article_frame (h : heap) (article : val)
    (articles : list val) :
  (h ⊆ (score_article article h).2 ∧
   match (score_article article h).1 with
   | inr score_info => ∃ l, score_info = VRef l ∧ l ∉ dom h
   | inl _ => True
   end) ∧
  (table_safe h → initial_heap ⊆ (main_scoring_loop articles h).2).
Proof.
  split.
  - destruct (preserves_score_article h article h (reflexivity h)) as [Hsub Hres].
    split; [exact Hsub|].
    destruct (score_article article h).1 as [e|v]; [done|]. by apply Hres.
  - apply main_scoring_loop_keeps_table.
Qed.

Lemma score_article_frame_witness :
  heap_with article_daily_notes ⊆ (score_article (VRef 17) (heap_with article_daily_notes)).2 ∧
  initial_heap ⊆ (main_scoring_loop [VRef 17] (heap_with article_daily_notes)).2.
Proof.
  destruct (score_article_frame (heap_with article_daily_notes) (VRef 17) [VRef 17])
    as [[Hframe _] Htable].
  split; [exact Hframe|].
  apply Htable. apply table_safe_heap_with.
Defined.

(** ** Two more runs of the whole pipeline *)

(** A long secondary-creative-work article of 2012: the length step raises
    entertainment to 18 and lowers rewrite effort to 10, the total is 76 and
    the article is a rewrite candidate of the cultural-extraction type. *)
Example run_retrospective_essay :
  (score_article_result (VRef 17) (heap_with article_retrospective)).1
  = inr (VInt 76, axis_scores 22 18 18 10 8, VStr "文化史抽出型") ∧
  (main_score_and_classify [VRef 17] (heap_with article_retrospective)).1
  = inr (Buckets [VStr "fc2_2012-09-09_006"] [] [] []).
Proof.
  split.
  - vm_cast_no_check
      (eq_refl (score_article_result (VRef 17) (heap_with article_retrospective)).1).
  - vm_cast_no_check
      (eq_refl (main_score_and_classify [VRef 17] (heap_with article_retrospective)).1).
Qed.

(** The placeholder post: risk 10, the three zeroed axes, total 15 and the
    deletion list. *)
Example run_hello_world :
  (score_article_result (VRef 17) (heap_with article_hello_world)).1
  = inr (VInt 15, axis_scores 0 0 0 5 10, VNone) ∧
  (main_score_and_classify [VRef 17] (heap_with article_hello_world)).1
  = inr (Buckets [] [] [] [VStr "fc2_2023-01-01_000"]).
Proof.
  split.
  - vm_cast_no_check
      (eq_refl (score_article_result (VRef 17) (heap_with article_hello_world)).1).
  - vm_cast_no_check
      (eq_refl (main_score_and_classify [VRef 17] (heap_with article_hello_world)).1).
Qed.

(** * Further properties of the code *)

(** ** The adjusters on arbitrary dicts *)

(** Between 300 and 2000 characters [adjust_score_by_word_count] does not
    look at its first argument: it is returned as it is, whatever it is, and
    the store is not touched. *)
Theorem adjust_score_by_word_count_mid_range (scores : val) (h : heap) wc :
  300 ≤ wc ≤ 2000 →
  adjust_score_by_word_count scores (VInt wc) h = (inr scores, h).
Proof.
  intros Hwc. unfold adjust_score_by_word_count.
  step (eq_refl : py_lt (VInt wc) 300 h = (inr (bool_decide (wc < 300)), h)).
  rewrite bool_decide_eq_false_2 by lia.
  erewrite run_bind; [reflexivity|].
  step (eq_refl : py_gt (VInt wc) 2000 h = (inr (bool_decide (2000 < wc)), h)).
  rewrite bool_decide_eq_false_2 by lia. reflexivity.
Qed.

Lemma adjust_score_by_word_count_mid_range_witness :
  adjust_score_by_word_count VNone (VInt 300) ∅ = (inr VNone, ∅) ∧
  adjust_score_by_word_count VNone (VInt 2000) ∅ = (inr VNone, ∅).
Proof.
  split; apply adjust_score_by_word_count_mid_range; lia.
Defined.

Lemma adjust_score_by_word_count_dict h s (d : dict) e r wc :
  h !! s = Some d →
  d !! AXIS_ENTERTAINMENT = Some (VInt e) → d !! AXIS_EFFORT = Some (VInt r) →
  adjust_score_by_word_count (VRef s) (VInt wc) h
  = (inr (VRef s),
     <[s := <[AXIS_EFFORT := VInt (word_count_effort wc r)]>
              (<[AXIS_ENTERTAINMENT := VInt (word_count_entertainment wc e)]> d)]> h).
Proof.
  intros Hs He Hr. unfold adjust_score_by_word_count.
  unfold word_count_entertainment, word_count_effort.
  assert (Hr' : ∀ x, <[AXIS_ENTERTAINMENT := x]> d !! AXIS_EFFORT = Some (VInt r)).
  { intros x. rewrite lookup_insert_ne by discriminate. exact Hr. }
  step (eq_refl : py_lt (VInt wc) 300 h = (inr (bool_decide (wc < 300)), h)).
  erewrite run_bind; [reflexivity|].
  destruct (bool_decide (wc < 300)); cbv beta iota.
  - step (run_dict_getitem h s d AXIS_ENTERTAINMENT (VInt e) Hs eq_refl He).
    step (eq_refl : py_sub (VInt e) 4 h = (inr (e - 4), h)).
    step (run_dict_setitem h s d AXIS_ENTERTAINMENT (VInt (Z.max 0 (e - 4))) Hs eq_refl).
    run ltac:(eapply run_dict_getitem; [apply lookup_insert_eq | reflexivity | apply Hr']).
    rewrite (run_bind _ _ _ _ _ (eq_refl : py_sub (VInt r) 3 _ = (inr (r - 3), _))).
    rewrite (run_dict_setitem _ s _ AXIS_EFFORT (VInt (Z.max 0 (r - 3)))
               (lookup_insert_eq h s _) eq_refl).
    by rewrite insert_insert_eq.
  - step (eq_refl : py_gt (VInt wc) 2000 h = (inr (bool_decide (2000 < wc)), h)).
    destruct (bool_decide (2000 < wc)); cbv beta iota.
    + step (run_dict_getitem h s d AXIS_ENTERTAINMENT (VInt e) Hs eq_refl He).
      step (eq_refl : py_add (VInt e) 2 h = (inr (e + 2), h)).
      step (run_dict_setitem h s d AXIS_ENTERTAINMENT (VInt (Z.min 20 (e + 2))) Hs eq_refl).
      run ltac:(eapply run_dict_getitem; [apply lookup_insert_eq | reflexivity | apply Hr']).
      rewrite (run_bind _ _ _ _ _ (eq_refl : py_sub (VInt r) 2 _ = (inr (r - 2), _))).
      rewrite (run_dict_setitem _ s _ AXIS_EFFORT (VInt (Z.max 0 (r - 2)))
                 (lookup_insert_eq h s _) eq_refl).
      by rewrite insert_insert_eq.
    + rewrite (insert_id d AXIS_ENTERTAINMENT) by exact He.
      rewrite (insert_id d AXIS_EFFORT) by exact Hr.
      by rewrite insert_id.
Qed.

(** [adjust_score_by_word_count] works in place and returns its argument:
    the dict it is given is the dict it changes, in the two entries for
    entertainment and rewrite effort and in no other entry and no other
    object.  An entertainment value in [0,20] stays in [0,20], and a
    non-negative rewrite effort stays non-negative and never grows. *)
Theorem adjust_score_by_word_count_in_place h s (d : dict) e r wc :
  h !! s = Some d →
  d !! AXIS_ENTERTAINMENT = Some (VInt e) → d !! AXIS_EFFORT = Some (VInt r) →
  ∃ e' r',
    adjust_score_by_word_count (VRef s) (VInt wc) h
    = (inr (VRef s),
       <[s := <[AXIS_EFFORT := VInt r']> (<[AXIS_ENTERTAINMENT := VInt e']> d)]> h) ∧
    (wc < 300 → e' = Z.max 0 (e - 4) ∧ r' = Z.max 0 (r - 3)) ∧
    (2000 < wc → e' = Z.min 20 (e + 2) ∧ r' = Z.max 0 (r - 2)) ∧
    (0 ≤ e ≤ 20 → 0 ≤ e' ≤ 20) ∧
    (0 ≤ r → 0 ≤ r' ≤ r).
Proof.
  intros Hs He Hr.
  exists (word_count_entertainment wc e), (word_count_effort wc r).
  split; [by apply adjust_score_by_word_count_dict|].
  unfold word_count_entertainment, word_count_effort.
  repeat case_bool_decide; repeat split; lia.
Qed.

Lemma adjust_score_by_word_count_in_place_witness :
  ∃ e' r',
    adjust_score_by_word_count (VRef 1) (VInt 2500) initial_heap
    = (inr (VRef 1),
       <[1%positive := <[AXIS_EFFORT := VInt r']>
                         (<[AXIS_ENTERTAINMENT := VInt e']> (axis_scores 12 8 10 10 8))]>
         initial_heap) ∧
    e' = 12 ∧ r' = 8.
Proof.
  destruct (adjust_score_by_word_count_in_place initial_heap 1 (axis_scores 12 8 10 10 8)
              10 10 2500 eq_refl eq_refl eq_refl)
    as (e' & r' & E & _ & Hlong & _).
  exists e', r'. split; [exact E|].
  destruct Hlong as [-> ->]; [lia|]. split; reflexivity.
Defined.

(** The update is not atomic: when the dict has an entertainment entry but
    no rewrite-effort entry, a short article has its entertainment lowered
    before the [KeyError] is raised, and the change stays. *)
Theorem adjust_score_by_word_count_partial h s (d : dict) e wc :
  h !! s = Some d →
  d !! AXIS_ENTERTAINMENT = Some (VInt e) → d !! AXIS_EFFORT = None →
  wc < 300 →
  adjust_score_by_word_count (VRef s) (VInt wc) h
  = (inl KeyError, <[s := <[AXIS_ENTERTAINMENT := VInt (Z.max 0 (e - 4))]> d]> h).
Proof.
  intros Hs He Hr Hwc. unfold adjust_score_by_word_count.
  step (eq_refl : py_lt (VInt wc) 300 h = (inr (bool_decide (wc < 300)), h)).
  rewrite bool_decide_eq_true_2 by lia.
  apply run_bind_raise.
  step (run_dict_getitem h s d AXIS_ENTERTAINMENT (VInt e) Hs eq_refl He).
  step (eq_refl : py_sub (VInt e) 4 h = (inr (e - 4), h)).
  step (run_dict_setitem h s d AXIS_ENTERTAINMENT (VInt (Z.max 0 (e - 4))) Hs eq_refl).
  apply run_bind_raise.
  unfold dict_getitem. rewrite lookup_insert_eq. cbn [hashable AXIS_EFFORT].
  rewrite lookup_insert_ne by discriminate. fold AXIS_EFFORT. by rewrite Hr.
Qed.

Lemma adjust_score_by_word_count_partial_witness :
  adjust_score_by_word_count (VRef 1) (VInt 10)
    (<[1%positive := <[AXIS_ENTERTAINMENT := VInt 10]> ∅]> ∅)
  = (inl KeyError,
     <[1%positive := <[AXIS_ENTERTAINMENT := VInt 6]> (<[AXIS_ENTERTAINMENT := VInt 10]> ∅)]>
       (<[1%positive := <[AXIS_ENTERTAINMENT := VInt 10]> ∅]> ∅)).
Proof.
  apply (adjust_score_by_word_count_partial _ 1 (<[AXIS_ENTERTAINMENT := VInt 10]> ∅) 10 10).
  - apply lookup_insert_eq.
  - reflexivity.
  - reflexivity.
  - lia.
Defined.

(** ** The year 2023 and the order of the two adjusters *)

Lemma zeroed_zeroed d : zeroed (zeroed d) = zeroed d.
Proof.
  unfold zeroed at 1.
  rewrite (insert_id (zeroed d) AXIS_TIMELINESS).
  2:{ unfold zeroed. rewrite !lookup_insert_ne by discriminate. apply lookup_insert_eq. }
  rewrite (insert_id (zeroed d) AXIS_UNIVERSALITY).
  2:{ unfold zeroed. rewrite lookup_insert_ne by discriminate. apply lookup_insert_eq. }
  apply insert_id. apply lookup_insert_eq.
Qed.

Lemma adjust_score_by_year_2023_dict h s (d : dict) :
  h !! s = Some d →
  adjust_score_by_year (VRef s) (VInt 2023) h = (inr (VRef s), <[s := zeroed d]> h).
Proof.
  intros Hs. unfold adjust_score_by_year, py_eq.
  rewrite bool_decide_eq_true_2 by reflexivity.
  erewrite run_bind; [reflexivity|].
  step (run_dict_setitem h s d AXIS_TIMELINESS (VInt 0) Hs eq_refl).
  run ltac:(eapply run_dict_setitem; [apply lookup_insert_eq | reflexivity]).
  rewrite insert_insert_eq.
  erewrite run_dict_setitem; [|apply lookup_insert_eq | reflexivity].
  by rewrite insert_insert_eq.
Qed.

(** For the year 2023 [adjust_score_by_year] reads nothing: on any dict, also
    one without the three entries, it sets timeliness, universality and
    entertainment to 0 in place, leaves every other entry as it is, and never
    raises.  A second call changes nothing. *)
Theorem adjust_score_by_year_2023_idempotent h s (d : dict) :
  h !! s = Some d →
  let h' := <[s := zeroed d]> h in
  adjust_score_by_year (VRef s) (VInt 2023) h = (inr (VRef s), h') ∧
  adjust_score_by_year (VRef s) (VInt 2023) h' = (inr (VRef s), h').
Proof.
  intros Hs h'. split; [by apply adjust_score_by_year_2023_dict|].
  unfold h'. rewrite (adjust_score_by_year_2023_dict _ s (zeroed d));
    [|apply lookup_insert_eq].
  by rewrite insert_insert_eq, zeroed_zeroed.
Qed.

Lemma adjust_score_by_year_2023_idempotent_witness :
  adjust_score_by_year (VRef 1) (VInt 2023) (<[1%positive := ∅]> ∅)
  = (inr (VRef 1), <[1%positive := zeroed ∅]> (<[1%positive := ∅]> ∅)).
Proof.
  apply (adjust_score_by_year_2023_idempotent (<[1%positive := ∅]> ∅) 1 ∅).
  apply lookup_insert_eq.
Defined.

Lemma adjust_score_by_year_dict h s (d : dict) t year :
  h !! s = Some d → d !! AXIS_TIMELINESS = Some (VInt t) → year ≠ 2023 →
  adjust_score_by_year (VRef s) (VInt year) h
  = (inr (VRef s), <[s := <[AXIS_TIMELINESS := VInt (year_timeliness year t)]> d]> h).
Proof.
  intros Hs Ht Hy. unfold adjust_score_by_year, py_eq, year_timeliness.
  rewrite bool_decide_eq_false_2 by congruence.
  rewrite (bool_decide_eq_false_2 (year = 2023)) by done.
  erewrite run_bind; [reflexivity|].
  step (eq_refl : py_le (VInt year) 2009 h = (inr (bool_decide (year ≤ 2009)), h)).
  destruct (bool_decide (year ≤ 2009)); cbv beta iota.
  - step (run_dict_getitem h s d AXIS_TIMELINESS (VInt t) Hs eq_refl Ht).
    step (eq_refl : py_add (VInt t) 3 h = (inr (t + 3), h)).
    by rewrite (run_dict_setitem h s d AXIS_TIMELINESS (VInt (Z.min 30 (t + 3))) Hs eq_refl).
  - rewrite (insert_id d AXIS_TIMELINESS) by exact Ht. by rewrite insert_id.
Qed.

(** For every year but 2023 the two adjusters commute: applied to a dict in
    either order they leave the same store behind. *)
Theorem adjusters_commute h s (d : dict) t e r wc year :
  h !! s = Some d →
  d !! AXIS_TIMELINESS = Some (VInt t) →
  d !! AXIS_ENTERTAINMENT = Some (VInt e) → d !! AXIS_EFFORT = Some (VInt r) →
  year ≠ 2023 →
  (scores ← adjust_score_by_word_count (VRef s) (VInt wc);
   adjust_score_by_year scores (VInt year)) h
  = (scores ← adjust_score_by_year (VRef s) (VInt year);
     adjust_score_by_word_count scores (VInt wc)) h.
Proof.
  intros Hs Ht He Hr Hy.
  step (adjust_score_by_word_count_dict h s d e r wc Hs He Hr).
  step (adjust_score_by_year_dict h s d t year Hs Ht Hy).
  erewrite adjust_score_by_year_dict; [|apply lookup_insert_eq | | exact Hy].
  2:{ rewrite !lookup_insert_ne by discriminate. exact Ht. }
  erewrite adjust_score_by_word_count_dict; [|apply lookup_insert_eq | |].
  2:{ rewrite lookup_insert_ne by discriminate. exact He. }
  2:{ rewrite lookup_insert_ne by discriminate. exact Hr. }
  rewrite !insert_insert_eq. do 2 f_equal.
  rewrite (insert_insert_ne _ AXIS_TIMELINESS AXIS_EFFORT) by discriminate.
  by rewrite (insert_insert_ne _ AXIS_TIMELINESS AXIS_ENTERTAINMENT) by discriminate.
Qed.

Lemma adjusters_commute_witness :
  (scores ← adjust_score_by_word_count (VRef 1) (VInt 100);
   adjust_score_by_year scores (VInt 2005)) initial_heap
  = (scores ← adjust_score_by_year (VRef 1) (VInt 2005);
     adjust_score_by_word_count scores (VInt 100)) initial_heap.
Proof.
  apply (adjusters_commute initial_heap 1 (axis_scores 12 8 10 10 8) 12 10 10 100 2005);
    [reflexivity | reflexivity | reflexivity | reflexivity | lia].
Defined.

(** For the year 2023 and an article of more than 2000 characters the order
    matters: length first, as [score_article] does it, ends with
    entertainment 0; year first would end with entertainment 2. *)
Theorem adjusters_order_2023 h s (d : dict) e r wc :
  h !! s = Some d →
  d !! AXIS_ENTERTAINMENT = Some (VInt e) → d !! AXIS_EFFORT = Some (VInt r) →
  2000 < wc →
  ∃ d1 d2,
    (scores ← adjust_score_by_word_count (VRef s) (VInt wc);
     adjust_score_by_year scores (VInt 2023)) h = (inr (VRef s), <[s := d1]> h) ∧
    (scores ← adjust_score_by_year (VRef s) (VInt 2023);
     adjust_score_by_word_count scores (VInt wc)) h = (inr (VRef s), <[s := d2]> h) ∧
    d1 !! AXIS_ENTERTAINMENT = Some (VInt 0) ∧
    d2 !! AXIS_ENTERTAINMENT = Some (VInt 2).
Proof.
  intros Hs He Hr Hwc. eexists _, _. split; [|split; [|split]].
  - step (adjust_score_by_word_count_dict h s d e r wc Hs He Hr).
    rewrite (adjust_score_by_year_2023_dict _ s _ (lookup_insert_eq h s _)).
    by rewrite insert_insert_eq.
  - step (adjust_score_by_year_2023_dict h s d Hs).
    erewrite (adjust_score_by_word_count_dict _ s (zeroed d) 0 r wc);
      [|apply lookup_insert_eq | apply lookup_insert_eq |].
    2:{ unfold zeroed. rewrite !lookup_insert_ne by discriminate. exact Hr. }
    by rewrite insert_insert_eq.
  - apply lookup_insert_eq.
  - rewrite lookup_insert_ne by discriminate. rewrite lookup_insert_eq.
    unfold word_count_entertainment.
    rewrite bool_decide_eq_false_2 by lia. by rewrite bool_decide_eq_true_2 by lia.
Qed.

Lemma adjusters_order_2023_witness :
  ∃ d1 d2,
    (scores ← adjust_score_by_word_count (VRef 1) (VInt 2500);
     adjust_score_by_year scores (VInt 2023)) initial_heap
    = (inr (VRef 1), <[1%positive := d1]> initial_heap) ∧
    (scores ← adjust_score_by_year (VRef 1) (VInt 2023);
     adjust_score_by_word_count scores (VInt 2500)) initial_heap
    = (inr (VRef 1), <[1%positive := d2]> initial_heap) ∧
    d1 !! AXIS_ENTERTAINMENT = Some (VInt 0) ∧
    d2 !! AXIS_ENTERTAINMENT = Some (VInt 2).
Proof.
  apply (adjusters_order_2023 initial_heap 1 (axis_scores 12 8 10 10 8) 10 10 2500);
    [reflexivity | reflexivity | reflexivity | lia].
Defined.

(** ** Which rewrite types and totals can occur *)

Lemma rows_low_sum :
  Forall (λ kd : val * dict,
            kd.1 ∈ TOUHOU_CATEGORIES ∨
            ∃ t u e r k, kd.2 = axis_scores t u e r k ∧ t + u + e + r ≤ 57)
         CATEGORY_BASE_SCORES_rows.
Proof.
  unfold CATEGORY_BASE_SCORES_rows, TOUHOU_CATEGORIES.
  repeat (apply Forall_cons; split;
          [first [ right; eexists _, _, _, _, _; split; [reflexivity | lia]
                 | left; cbn [fst]; rewrite !elem_of_cons; auto ] |]).
  apply Forall_nil_2.
Qed.

Lemma axis_scores_inj t u e r k t' u' e' r' k' :
  axis_scores t u e r k = axis_scores t' u' e' r' k' →
  t = t' ∧ u = u' ∧ e = e' ∧ r = r' ∧ k = k'.
Proof.
  intros E.
  pose proof (f_equal (λ d : dict, d !! AXIS_TIMELINESS) E) as Ht.
  pose proof (f_equal (λ d : dict, d !! AXIS_UNIVERSALITY) E) as Hu.
  pose proof (f_equal (λ d : dict, d !! AXIS_ENTERTAINMENT) E) as He.
  pose proof (f_equal (λ d : dict, d !! AXIS_EFFORT) E) as Hr.
  pose proof (f_equal (λ d : dict, d !! AXIS_RISK) E) as Hk.
  cbv beta in Ht, Hu, He, Hr, Hk.
  rewrite !axis_timeliness in Ht. rewrite !axis_universality in Hu.
  rewrite !axis_entertainment in He. rewrite !axis_effort in Hr.
  rewrite !axis_risk in Hk.
  injection Ht as ->. injection Hu as ->. injection He as ->.
  injection Hr as ->. injection Hk as ->. done.
Qed.

Lemma base_row_low_sum (category : val) t u e r k :
  category ∉ TOUHOU_CATEGORIES →
  base_row category = axis_scores t u e r k → t + u + e + r ≤ 57.
Proof.
  intros Hcat Hrow. unfold base_row in Hrow.
  destruct (rows_map !! category) as [d|] eqn:E; cbn [default from_option id] in Hrow.
  - apply elem_of_list_to_map_2 in E.
    destruct (proj1 (Forall_forall _ _) rows_low_sum _ E)
      as [Hin | (t' & u' & e' & r' & k' & Hd & Hsum)]; [done|].
    cbn [snd] in Hd. rewrite Hd in Hrow.
    apply axis_scores_inj in Hrow as (-> & -> & -> & -> & ->). exact Hsum.
  - unfold default_row in Hrow.
    apply axis_scores_inj in Hrow as (<- & <- & <- & <- & <-). lia.
Qed.

(** With the given rule table, [score_article] never yields the rewrite types
    "哲学昇華型" and "タイムカプセル型": for every well-typed article the
    rewrite type is [None] or "文化史抽出型", it is [None] exactly when the
    total is below 70, and a total of 70 or more is reached by the two
    secondary-creative-work categories only. *)
Theorem rewrite_type_reachable h a (art : dict) :
  initial_heap ⊆ h → h !! a = Some art → well_typed_article art = true →
  ∃ total scores rewrite_type,
    (score_article_result (VRef a) h).1 = inr (VInt total, scores, rewrite_type) ∧
    (rewrite_type = VNone ∨ rewrite_type = VStr "文化史抽出型") ∧
    (rewrite_type = VNone ↔ total < 70) ∧
    (70 ≤ total → default VNone (art !! VStr "category") ∈ TOUHOU_CATEGORIES).
Proof.
  intros Hsub Ha Hty.
  destruct (score_article_result_typed h a art Hsub Ha Hty)
    as (t & u & e & r & k & w & y & ti & Hrow & Hb & _ & Hy & _ & E).
  cbv zeta in E. eexists _, _, _. split; [exact E|].
  set (category := default VNone (art !! VStr "category")) in *.
  set (risk := risk_score ti (default VNone (art !! VStr "year"))) in *.
  set (total := final_total t u e r w y risk).
  assert (Hrisk : risk = 6 ∨ risk = 8 ∨ risk = 10) by apply risk_score_values.
  assert (H10 : risk = 10 → y = 2023).
  { intros E10. apply risk_score_10 in E10. apply year_field_2023 in Hy.
    rewrite E10 in Hy. unfold py_eq in Hy.
    rewrite bool_decide_eq_true_2 in Hy by reflexivity.
    symmetry in Hy. by apply bool_decide_eq_true_1 in Hy. }
  assert (Hcat : 70 ≤ total → category ∈ TOUHOU_CATEGORIES).
  { intros Hge. destruct (decide (category ∈ TOUHOU_CATEGORIES)) as [|Hnot]; [done|].
    pose proof (base_row_low_sum category t u e r k Hnot Hrow) as Hsum.
    exfalso. unfold total in Hge. clear E. adjust_cases; lia. }
  split; [|split; [|exact Hcat]].
  - unfold rewrite_type_rule. fold total. case_bool_decide; [by left|].
    assert (Hin : category ∈ TOUHOU_CATEGORIES) by (apply Hcat; lia).
    unfold TOUHOU_CATEGORIES in Hin. rewrite !elem_of_cons, elem_of_nil in Hin.
    destruct Hin as [-> | [-> | []]]; by right.
  - unfold rewrite_type_rule. fold total. case_bool_decide as Hlt.
    + split; [done | done].
    + split; [|lia]. repeat case_bool_decide; discriminate.
Qed.

Lemma rewrite_type_reachable_witness :
  ∃ total scores rewrite_type,
    (score_article_result (VRef 17) (heap_with article_best)).1
    = inr (VInt total, scores, rewrite_type) ∧
    (rewrite_type = VNone ∨ rewrite_type = VStr "文化史抽出型") ∧
    (rewrite_type = VNone ↔ total < 70) ∧
    (70 ≤ total → VStr "東方二次創作" ∈ TOUHOU_CATEGORIES).
Proof.
  apply (rewrite_type_reachable (heap_with article_best) 17 article_best).
  - apply heap_with_table.
  - apply heap_with_article.
  - reflexivity.
Defined.

(** An article of the year 2023 keeps only rewrite effort and risk: its total
    is at most 22, so it has no rewrite type and no title or category lifts
    it out of the deletion range below 30. *)
Theorem year_2023_total h a (art : dict) :
  initial_heap ⊆ h → h !! a = Some art →
  art !! VStr "year" = Some (VInt 2023) →
  well_typed_article art = true →
  ∃ total scores,
    (score_article_result (VRef a) h).1 = inr (VInt total, scores, VNone) ∧
    8 ≤ total ≤ 22.
Proof.
  intros Hsub Ha Hyear Hty.
  destruct (score_article_result_typed h a art Hsub Ha Hty)
    as (t & u & e & r & k & w & y & ti & _ & Hb & _ & Hy & _ & E).
  rewrite Hyear in Hy. cbn [default from_option id] in Hy. injection Hy as <-.
  cbv zeta in E.
  pose proof (risk_score_values ti (default VNone (art !! VStr "year"))) as Hr.
  set (risk := risk_score ti (default VNone (art !! VStr "year"))) in *.
  assert (Hb' : 8 ≤ final_total t u e r w 2023 risk ≤ 22).
  { clear E. adjust_cases; lia. }
  eexists _, _. split; [|exact Hb'].
  rewrite E. do 2 f_equal. unfold rewrite_type_rule.
  rewrite bool_decide_eq_true_2 by lia. reflexivity.
Qed.

Lemma year_2023_total_witness :
  ∃ total scores,
    (score_article_result (VRef 17) (heap_with article_2023_long)).1
    = inr (VInt total, scores, VNone) ∧ 8 ≤ total ≤ 22.
Proof.
  apply (year_2023_total (heap_with article_2023_long) 17 article_2023_long).
  - apply heap_with_table.
  - apply heap_with_article.
  - reflexivity.
  - reflexivity.
Defined.

(** ** Missing and null fields *)

Lemma risk_score_not_2023 title (year : val) :
  year ≠ VInt 2023 → risk_score title year = risk_score title VNone.
Proof.
  intros Hy. unfold risk_score, py_eq.
  rewrite (bool_decide_eq_false_2 (year = VInt 2023)) by done.
  by rewrite (bool_decide_eq_false_2 (VNone = VInt 2023)) by discriminate.
Qed.

Lemma scored_fields_with_defaults (art : dict) :
  scored_fields (with_defaults art) = scored_fields art.
Proof.
  assert (Hc : with_defaults art !! VStr "category"
               = Some (default VNone (art !! VStr "category"))).
  { unfold with_defaults. apply lookup_insert_eq. }
  assert (Hw : with_defaults art !! VStr "word_count"
               = Some (default (VInt 0) (art !! VStr "word_count"))).
  { unfold with_defaults. rewrite lookup_insert_ne by discriminate.
    apply lookup_insert_eq. }
  assert (Hy : with_defaults art !! VStr "year"
               = Some (default (VInt 2010) (art !! VStr "year"))).
  { unfold with_defaults. do 2 rewrite lookup_insert_ne by discriminate.
    apply lookup_insert_eq. }
  assert (Ht : with_defaults art !! VStr "title"
               = Some (default (VStr "") (art !! VStr "title"))).
  { unfold with_defaults. do 3 rewrite lookup_insert_ne by discriminate.
    apply lookup_insert_eq. }
  unfold scored_fields, well_typed_article. rewrite Hc, Hw, Hy, Ht.
  cbn [default from_option id].
  destruct (art !! VStr "year") as [y|]; cbn [default from_option id]; [reflexivity|].
  by rewrite (risk_score_not_2023 _ (VInt 2010)) by discriminate.
Qed.

(** A missing field is scored like its default: a record without a category
    like one with the category [None], without a word count like one of 0
    characters (a short article), without a year like one of 2010, without a
    title like one with the empty title. *)
Theorem missing_fields_as_defaults h1 h2 a1 a2 (art : dict) :
  initial_heap ⊆ h1 → initial_heap ⊆ h2 →
  h1 !! a1 = Some art → h2 !! a2 = Some (with_defaults art) →
  is_ref (default (VStr "") (art !! VStr "title")) = false →
  (score_article_result (VRef a1) h1).1 = (score_article_result (VRef a2) h2).1.
Proof.
  intros Hsub1 Hsub2 Ha1 Ha2 Hti.
  rewrite (score_article_result_fields h1 a1 art Hsub1 Ha1 Hti).
  rewrite (score_article_result_fields h2 a2 (with_defaults art) Hsub2 Ha2).
  - symmetry. apply scored_fields_with_defaults.
  - unfold with_defaults. do 3 rewrite lookup_insert_ne by discriminate.
    by rewrite lookup_insert_eq.
Qed.

Lemma missing_fields_as_defaults_witness :
  (score_article_result (VRef 17) (heap_with article_bare)).1
  = (score_article_result (VRef 17) (heap_with (with_defaults article_bare))).1.
Proof.
  apply (missing_fields_as_defaults _ _ 17 17 article_bare).
  - apply heap_with_table.
  - apply heap_with_table.
  - apply heap_with_article.
  - apply heap_with_article.
  - reflexivity.
Defined.

Lemma score_article_null_year_witness :
  (score_article (VRef 17) (heap_with article_undated)).1 = inl TypeError.
Proof.
  apply (score_article_null_year (heap_with article_undated) 17 article_undated).
  - apply heap_with_table.
  - apply heap_with_article.
  - reflexivity.
  - reflexivity.
Defined.

(** Below a total of 70 [determine_rewrite_type] returns [None] before it
    looks at the article: the first argument may be anything, also not a
    dict, and the store is not read. *)
Theorem determine_rewrite_type_below_70 (article : val) (h : heap) total :
  total < 70 → determine_rewrite_type article (VInt total) h = (inr VNone, h).
Proof.
  intros Hlt. unfold determine_rewrite_type.
  step (eq_refl : py_lt (VInt total) 70 h = (inr (bool_decide (total < 70)), h)).
  by rewrite bool_decide_eq_true_2.
Qed.

Lemma determine_rewrite_type_below_70_witness :
  determine_rewrite_type VNone (VInt 69) ∅ = (inr VNone, ∅).
Proof. apply determine_rewrite_type_below_70. lia. Defined.

(** From 70 on, a record with a category outside the eight listed ones and a
    year that is present but [None] makes [determine_rewrite_type] raise:
    the default 2010 is for a missing key only. *)
Theorem determine_rewrite_type_null_year h a (art : dict) total :
  h !! a = Some art → 70 ≤ total →
  default VNone (art !! VStr "category")
    ∉ [VStr "考察"; VStr "TRPG"; VStr "ＴＲＰＧ"; VStr "東方二次創作";
       VStr "東方二次創作ゲームレビュー"; VStr "レビュー"; VStr "徒然"; VStr "報告"] →
  art !! VStr "year" = Some VNone →
  determine_rewrite_type (VRef a) (VInt total) h = (inl TypeError, h).
Proof.
  intros Ha Hge Hnot Hy. unfold determine_rewrite_type.
  step (eq_refl : py_lt (VInt total) 70 h = (inr (bool_decide (total < 70)), h)).
  rewrite bool_decide_eq_false_2 by lia.
  step (run_dict_get h a art (VStr "category") VNone Ha eq_refl).
  step (run_dict_get h a art (VStr "year") (VInt 2010) Ha eq_refl).
  repeat (rewrite bool_decide_eq_false_2;
          [| intros Hin; apply Hnot; revert Hin;
             rewrite !elem_of_cons, !elem_of_nil; tauto]).
  rewrite Hy. reflexivity.
Qed.

Lemma determine_rewrite_type_null_year_witness :
  determine_rewrite_type (VRef 17) (VInt 75) (heap_with article_undated)
  = (inl TypeError, heap_with article_undated).
Proof.
  apply (determine_rewrite_type_null_year _ 17 article_undated 75).
  - apply heap_with_article.
  - lia.
  - apply (bool_decide_unpack _). vm_compute. exact I.
  - reflexivity.
Defined.

(** ** The classifier: order, counts and what it reads *)

Lemma foldl_place_in_order (proj : buckets → list val) (P : Z → bool) :
  (∀ b info,
     proj (place b info)
     = (proj b ++ match info.2 with
                  | VInt n => if P n then [info.1] else []
                  | _ => []
                  end)%list) →
  ∀ (infos : list (val * val)) (b : buckets),
    proj (foldl place b infos) = (proj b ++ ids_scored_as P infos)%list.
Proof.
  intros Hproj infos. unfold ids_scored_as.
  induction infos as [|info infos IH]; intros b.
  - cbn [foldl]. by rewrite filter_nil, fmap_nil, app_nil_r.
  - cbn [foldl]. rewrite IH, Hproj, filter_cons.
    destruct info as [article_id score]. cbn [fst snd].
    case_decide as H; unfold scored_as in H; cbn [snd] in H.
    + destruct score as [|n| |]; try discriminate H. rewrite H.
      by rewrite fmap_cons, <- app_assoc.
    + destruct score as [|n| |]; try by rewrite app_nil_r.
      destruct (P n); [done | by rewrite app_nil_r].
Qed.

Lemma length_filter_true_cons {A : Type} (f : A → bool) (x : A) (l : list A) :
  length (filter (λ y, f y = true) (x :: l))
  = (Nat.b2n (f x) + length (filter (λ y, f y = true) l))%nat.
Proof. rewrite filter_cons. case_decide as H; destruct (f x); done. Qed.

Lemma ranges_partition (n : Z) :
  (Nat.b2n (rewrite_range n) + Nat.b2n (review_range n) + Nat.b2n (archive_range n)
   + Nat.b2n (deletion_range n))%nat = 1%nat.
Proof.
  unfold rewrite_range, review_range, archive_range, deletion_range.
  repeat case_bool_decide; cbn [andb Nat.b2n]; lia.
Qed.

Lemma classified_count (infos : list (val * val)) :
  (length (ids_scored_as rewrite_range infos)
   + length (ids_scored_as review_range infos)
   + length (ids_scored_as archive_range infos)
   + length (ids_scored_as deletion_range infos))%nat
  = length (filter (λ info : val * val, is_int info.2 = true) infos).
Proof.
  unfold ids_scored_as. rewrite !length_fmap.
  induction infos as [|[article_id score] infos IH]; [reflexivity|].
  rewrite !length_filter_true_cons, <- IH. unfold scored_as. cbn [snd].
  destruct score as [|n| |]; cbn [is_int Nat.b2n]; try lia.
  pose proof (ranges_partition n). lia.
Qed.

(** Each of the four lists holds the IDs of the articles whose score falls in
    its range, in the order of the input and with repetitions kept, and the
    four lengths add up to the number of articles that have a score.  This
    needs no assumption on the IDs. *)
Theorem classify_articles_in_order h articles (infos : list (val * val)) :
  Forall2 (λ article info, article_info h article = Some info) articles infos →
  Forall score_typed infos →
  ∃ b,
    classify_articles articles h = (inr b, h) ∧
    rewrite_candidates b = ids_scored_as rewrite_range infos ∧
    review_candidates b
    = ids_scored_as review_range infos ∧
    archive_candidates b
    = ids_scored_as archive_range infos ∧
    deletion_candidates b = ids_scored_as deletion_range infos ∧
    (length (rewrite_candidates b) + length (review_candidates b)
     + length (archive_candidates b) + length (deletion_candidates b))%nat
    = length (filter (λ info : val * val, is_int info.2 = true) infos).
Proof.
  intros HF Hty. eexists. split.
  { unfold classify_articles. by apply classify_loop_spec. }
  rewrite (foldl_place_in_order _ _ place_rewrite),
    (foldl_place_in_order _ _ place_review),
    (foldl_place_in_order _ _ place_archive),
    (foldl_place_in_order _ _ place_deletion).
  cbn [rewrite_candidates review_candidates archive_candidates deletion_candidates
       app].
  repeat (split; [reflexivity|]). apply classified_count.
Qed.

Lemma classify_articles_in_order_witness :
  ∃ b,
    classify_articles [VRef 17; VRef 19; VRef 21; VRef 17] three_articles
    = (inr b, three_articles) ∧
    rewrite_candidates b = [VStr "fc2_2012-01-01_001"; VStr "fc2_2012-01-01_001"] ∧
    archive_candidates b = [VStr "fc2_2012-01-03_003"].
Proof.
  destruct (classify_articles_in_order three_articles
              [VRef 17; VRef 19; VRef 21; VRef 17]
              [(VStr "fc2_2012-01-01_001", VInt 80); (VStr "fc2_2012-01-02_002", VNone);
               (VStr "fc2_2012-01-03_003", VInt 44); (VStr "fc2_2012-01-01_001", VInt 80)])
    as (b & E & H1 & _ & H3 & _).
  - repeat (apply Forall2_cons; split; [reflexivity|]). apply Forall2_nil_2.
  - repeat (apply Forall_cons; split; [(by left) || (by right)|]). apply Forall_nil_2.
  - exists b. split; [exact E|]. split.
    + rewrite H1. reflexivity.
    + rewrite H3. reflexivity.
Defined.

(** The ID is read after the test for a missing score: a record without an
    ["id"] entry is passed over when it has no score, and raises [KeyError]
    when it has one. *)
Theorem classify_articles_reads_id_late h a (art : dict) st (status : dict) rest :
  h !! a = Some art → art !! VStr "rewrite_status" = Some (VRef st) →
  h !! st = Some status → art !! VStr "id" = None →
  (default VNone (status !! VStr "rewrite_score") = VNone →
   classify_articles (VRef a :: rest) h = classify_articles rest h) ∧
  (is_int (default VNone (status !! VStr "rewrite_score")) = true →
   classify_articles (VRef a :: rest) h = (inl KeyError, h)).
Proof.
  intros Ha Hst Hs Hid. unfold classify_articles. cbn [classify_loop].
  step (run_dict_getitem h a art (VStr "rewrite_status") (VRef st) Ha eq_refl Hst).
  step (run_dict_get h st status (VStr "rewrite_score") VNone Hs eq_refl).
  split.
  - intros ->. reflexivity.
  - intros [n ->]%is_int_inv. unfold py_eq.
    rewrite bool_decide_eq_false_2 by discriminate.
    apply run_bind_raise. unfold dict_getitem. rewrite Ha. cbn [hashable].
    by rewrite Hid.
Qed.

Lemma classify_articles_reads_id_late_witness :
  classify_articles [VRef 17] unscored_without_id
  = classify_articles [] unscored_without_id.
Proof.
  destruct (classify_articles_reads_id_late unscored_without_id 17
              (<[VStr "rewrite_status" := VRef 18]> ∅) 18 (status_with VNone) [])
    as [H _]; [reflexivity..|].
  apply H. reflexivity.
Defined.

(** ** Scoring and persisting one article *)

Lemma persisted_persisted (status : dict) total_score rewrite_type scores scores' :
  persisted (persisted status total_score rewrite_type scores) total_score rewrite_type
    scores'
  = persisted status total_score rewrite_type scores'.
Proof.
  unfold persisted. apply map_eq. intros k.
  rewrite !lookup_insert. repeat case_decide; congruence.
Qed.

Lemma main_scoring_loop_typed h a (art : dict) st (status : dict) :
  initial_heap ⊆ h → h !! a = Some art → well_typed_article art = true →
  art !! VStr "rewrite_status" = Some (VRef st) → h !! st = Some status → st ≠ a →
  ∃ total scores rewrite_type s h',
    (score_article_result (VRef a) h).1 = inr (VInt total, scores, rewrite_type) ∧
    main_scoring_loop [VRef a] h = (inr (), h') ∧
    h' !! st = Some (persisted status (VInt total) rewrite_type (VRef s)) ∧
    h' !! s = Some scores ∧ h !! s = None ∧ s ≠ st ∧
    (∀ l d, h !! l = Some d → l ≠ st → h' !! l = Some d).
Proof.
  intros Hsub Ha (Hc & [w Hw] & [y Hy] & [ti Ht])%well_typed_article_inv Hst Hstatus Hne.
  destruct (base_row_bounded (default VNone (art !! VStr "category")))
    as (t & u & e & r & k & Hrow & _).
  pose proof (score_article_result_run h a art t u e r k w y ti Hsub Ha Hc Hrow Hw Hy Ht)
    as Hres.
  pose proof (main_scoring_loop_single h a art st status t u e r k w y ti
                Hsub Ha Hc Hrow Hw Hy Ht Hst Hstatus Hne) as Hrun.
  cbv zeta in Hres, Hrun.
  set (risk := risk_score ti (default VNone (art !! VStr "year"))) in *.
  set (total := final_total t u e r w y risk) in *.
  set (scores := final_scores t u e r w y risk) in *.
  set (s := fresh (dom h)) in *.
  assert (Hs : h !! s = None) by apply fresh_lookup.
  assert (Hsst : s ≠ st) by (intros E; rewrite E in Hs; by rewrite Hs in Hstatus).
  eexists total, scores, _, s, _.
  split; [exact Hres|]. split; [exact Hrun|].
  split; [apply lookup_insert_eq|].
  split; [|split; [exact Hs|split; [exact Hsst|]]].
  - rewrite lookup_insert_ne by done.
    rewrite lookup_insert_ne; [apply lookup_insert_eq|].
    intros E. pose proof (fresh_lookup (<[s := scores]> h)) as F.
    rewrite E in F. by rewrite lookup_insert_eq in F.
  - intros l d Hl Hlst. rewrite lookup_insert_ne by done.
    by apply lookup_after_allocs.
Qed.

(** One round of the scoring loop of [main] writes exactly what
    [score_article] returned: the total as ["rewrite_score"], the rewrite
    type, and under ["detail_scores"] a reference to a new dict with the
    axis scores.  The other entries of the ["rewrite_status"] dict, the
    article record and every other object of the store stay as they were. *)
Theorem main_scoring_loop_persists h a (art : dict) st (status : dict) :
  initial_heap ⊆ h → h !! a = Some art → well_typed_article art = true →
  art !! VStr "rewrite_status" = Some (VRef st) → h !! st = Some status → st ≠ a →
  ∃ total scores rewrite_type s h',
    (score_article_result (VRef a) h).1 = inr (VInt total, scores, rewrite_type) ∧
    main_scoring_loop [VRef a] h = (inr (), h') ∧
    h' !! st
    = Some (<[VStr "detail_scores" := VRef s]> (<[VStr "rewrite_type" := rewrite_type]>
           (<[VStr "rewrite_score" := VInt total]> status))) ∧
    h' !! s = Some scores ∧ h !! s = None ∧
    (∀ l d, h !! l = Some d → l ≠ st → h' !! l = Some d).
Proof.
  intros Hsub Ha Hty Hst Hstatus Hne.
  destruct (main_scoring_loop_typed h a art st status Hsub Ha Hty Hst Hstatus Hne)
    as (total & scores & rt & s & h' & H1 & H2 & H3 & H4 & H5 & _ & H7).
  exists total, scores, rt, s, h'.
  split; [exact H1|]. split; [exact H2|]. split; [exact H3|].
  split; [exact H4|]. split; [exact H5|exact H7].
Qed.

Lemma main_scoring_loop_persists_witness :
  ∃ total scores rewrite_type s h',
    (score_article_result (VRef 17) (heap_with article_daily_notes)).1
    = inr (VInt total, scores, rewrite_type) ∧
    main_scoring_loop [VRef 17] (heap_with article_daily_notes) = (inr (), h') ∧
    h' !! 18%positive
    = Some (<[VStr "detail_scores" := VRef s]> (<[VStr "rewrite_type" := rewrite_type]>
           (<[VStr "rewrite_score" := VInt total]> pending_status))) ∧
    h' !! s = Some scores ∧ heap_with article_daily_notes !! s = None ∧
    (∀ l d, heap_with article_daily_notes !! l = Some d → l ≠ 18%positive →
            h' !! l = Some d).
Proof.
  apply (main_scoring_loop_persists (heap_with article_daily_notes) 17
           article_daily_notes 18 pending_status).
  - apply heap_with_table.
  - apply heap_with_article.
  - reflexivity.
  - reflexivity.
  - reflexivity.
  - discriminate.
Defined.

(** Scoring the same article again overwrites, it does not accumulate: after
    a second round the ["rewrite_status"] dict holds the same score and the
    same rewrite type as after the first, and the detail dict it refers to,
    a new object, has the same contents. *)
Theorem main_scoring_loop_rescoring h a (art : dict) st (status : dict) :
  initial_heap ⊆ h → h !! a = Some art → well_typed_article art = true →
  art !! VStr "rewrite_status" = Some (VRef st) → h !! st = Some status → st ≠ a →
  st ∉ dom initial_heap →
  let h1 := (main_scoring_loop [VRef a] h).2 in
  let h2 := (main_scoring_loop [VRef a] h1).2 in
  ∃ total rewrite_type scores s1 s2,
    h1 !! st = Some (persisted status total rewrite_type (VRef s1)) ∧
    h2 !! st = Some (persisted status total rewrite_type (VRef s2)) ∧
    h1 !! s1 = Some scores ∧ h2 !! s2 = Some scores ∧ s1 ≠ s2.
Proof.
  intros Hsub Ha Hty Hst Hstatus Hne Htab h1 h2.
  destruct (main_scoring_loop_typed h a art st status Hsub Ha Hty Hst Hstatus Hne)
    as (total & scores & rt & s1 & h' & Hres & Hrun & Hst1 & Hs1 & Hnew1 & Hs1st & Hold).
  assert (Eh1 : h1 = h') by (unfold h1; by rewrite Hrun). clearbody h1. subst h'.
  assert (Hsub1 : initial_heap ⊆ h1).
  { apply map_subseteq_spec. intros l d Hl. apply Hold.
    - by apply (lookup_weaken initial_heap h).
    - intros ->. apply Htab. apply elem_of_dom. by eexists. }
  assert (Ha1 : h1 !! a = Some art) by (apply Hold; [done | congruence]).
  destruct (main_scoring_loop_typed h1 a art st _ Hsub1 Ha1 Hty Hst Hst1 Hne)
    as (total' & scores' & rt' & s2 & h'' & Hres' & Hrun' & Hst2 & Hs2 & Hnew2 & _ & _).
  assert (Eh2 : h2 = h'') by (unfold h2; by rewrite Hrun'). clearbody h2. subst h''.
  assert (Hti : is_ref (default (VStr "") (art !! VStr "title")) = false).
  { apply well_typed_article_inv in Hty as (_ & _ & _ & [ti ->]). reflexivity. }
  rewrite (score_article_result_fields h a art Hsub Ha Hti) in Hres.
  rewrite (score_article_result_fields h1 a art Hsub1 Ha1 Hti) in Hres'.
  rewrite Hres in Hres'. injection Hres' as <- <- <-.
  rewrite persisted_persisted in Hst2.
  exists (VInt total), rt, scores, s1, s2.
  repeat (split; [assumption|]).
  intros E. rewrite E in Hs1. by rewrite Hs1 in Hnew2.
Qed.

Lemma main_scoring_loop_rescoring_witness :
  let h1 := (main_scoring_loop [VRef 17] (heap_with article_daily_notes)).2 in
  let h2 := (main_scoring_loop [VRef 17] h1).2 in
  ∃ total rewrite_type scores s1 s2,
    h1 !! 18%positive = Some (persisted pending_status total rewrite_type (VRef s1)) ∧
    h2 !! 18%positive = Some (persisted pending_status total rewrite_type (VRef s2)) ∧
    h1 !! s1 = Some scores ∧ h2 !! s2 = Some scores ∧ s1 ≠ s2.
Proof.
  apply (main_scoring_loop_rescoring (heap_with article_daily_notes) 17
           article_daily_notes 18 pending_status).
  - apply heap_with_table.
  - apply heap_with_article.
  - reflexivity.
  - reflexivity.
  - reflexivity.
  - discriminate.
  - by apply not_elem_of_dom.
Defined.

(** ** Scoring and classifying one article *)

Lemma main_score_and_classify_single h a (art : dict) article_id st (status : dict) :
  initial_heap ⊆ h → h !! a = Some art → well_typed_article art = true →
  art !! VStr "id" = Some article_id →
  art !! VStr "rewrite_status" = Some (VRef st) → h !! st = Some status → st ≠ a →
  ∃ total scores rewrite_type,
    (score_article_result (VRef a) h).1 = inr (VInt total, scores, rewrite_type) ∧
    (main_score_and_classify [VRef a] h).1
    = inr (place (Buckets [] [] [] []) (article_id, VInt total)).
Proof.
  intros Hsub Ha Hty Hid Hst Hstatus Hne.
  destruct (main_scoring_loop_typed h a art st status Hsub Ha Hty Hst Hstatus Hne)
    as (total & scores & rt & s & h' & Hres & Hrun & Hst' & _ & _ & _ & Hold).
  exists total, scores, rt. split; [exact Hres|].
  unfold main_score_and_classify. step Hrun.
  assert (Ha' : h' !! a = Some art) by (apply Hold; [exact Ha | congruence]).
  assert (Hinfo : article_info h' (VRef a) = Some (article_id, VInt total)).
  { unfold article_info. rewrite Ha'. cbn [mbind option_bind].
    rewrite Hst. cbn [mbind option_bind]. rewrite Hst'. cbn [mbind option_bind].
    rewrite Hid. cbn [mbind option_bind]. by rewrite persisted_score. }
  unfold classify_articles.
  rewrite (classify_loop_spec h' [VRef a] [(article_id, VInt total)]).
  - reflexivity.
  - apply Forall2_cons. split; [exact Hinfo | apply Forall2_nil_2].
  - apply Forall_cons. split; [by right | apply Forall_nil_2].
Qed.

(** Scoring and then classifying one article, as [main] does: the article's
    ID lands in exactly one of the four lists, the one its new total selects,
    whatever score its ["rewrite_status"] held before; and it lands in the
    rewrite list exactly when it was given a rewrite type. *)
Theorem main_score_and_classify_one h a (art : dict) article_id st (status : dict) :
  initial_heap ⊆ h → h !! a = Some art → well_typed_article art = true →
  art !! VStr "id" = Some article_id →
  art !! VStr "rewrite_status" = Some (VRef st) → h !! st = Some status → st ≠ a →
  ∃ total scores rewrite_type,
    (score_article_result (VRef a) h).1 = inr (VInt total, scores, rewrite_type) ∧
    (main_score_and_classify [VRef a] h).1
    = inr (if bool_decide (70 ≤ total) then Buckets [article_id] [] [] []
           else if bool_decide (50 ≤ total) then Buckets [] [article_id] [] []
           else if bool_decide (30 ≤ total) then Buckets [] [] [article_id] []
           else Buckets [] [] [] [article_id]) ∧
    (rewrite_type ≠ VNone ↔ 70 ≤ total).
Proof.
  intros Hsub Ha Hty Hid Hst Hstatus Hne.
  destruct (main_score_and_classify_single h a art article_id st status
              Hsub Ha Hty Hid Hst Hstatus Hne) as (total & scores & rt & Hres & Hrun).
  exists total, scores, rt. split; [exact Hres|]. split.
  - rewrite Hrun. unfold place. cbn [fst snd rewrite_candidates review_candidates
      archive_candidates deletion_candidates app].
    by repeat case_bool_decide.
  - destruct (score_article_result_typed h a art Hsub Ha Hty)
      as (t & u & e & r & k & w & y & ti & _ & _ & _ & _ & _ & E).
    cbv zeta in E. rewrite E in Hres. injection Hres as <- _ <-.
    unfold rewrite_type_rule. case_bool_decide as Hlt.
    + split; [intros Hrt; exfalso; apply Hrt; reflexivity | lia].
    + split; [lia|]. intros _. repeat case_bool_decide; discriminate.
Qed.

Lemma main_score_and_classify_one_witness :
  ∃ total scores rewrite_type,
    (score_article_result (VRef 17) (heap_with article_best)).1
    = inr (VInt total, scores, rewrite_type) ∧
    (main_score_and_classify [VRef 17] (heap_with article_best)).1
    = inr (if bool_decide (70 ≤ total)
           then Buckets [VStr "fc2_2008-08-08_003"] [] [] []
           else if bool_decide (50 ≤ total)
           then Buckets [] [VStr "fc2_2008-08-08_003"] [] []
           else if bool_decide (30 ≤ total)
           then Buckets [] [] [VStr "fc2_2008-08-08_003"] []
           else Buckets [] [] [] [VStr "fc2_2008-08-08_003"]) ∧
    (rewrite_type ≠ VNone ↔ 70 ≤ total).
Proof.
  apply (main_score_and_classify_one (heap_with article_best) 17 article_best
           (VStr "fc2_2008-08-08_003") 18 pending_status).
  - apply heap_with_table.
  - apply heap_with_article.
  - reflexivity.
  - reflexivity.
  - reflexivity.
  - reflexivity.
  - discriminate.
Defined.

(** An article of the year 2023 always ends in the deletion list, and in no
    other list, whatever its category, length and title. *)
Theorem year_2023_deleted h a (art : dict) article_id st (status : dict) :
  initial_heap ⊆ h → h !! a = Some art → well_typed_article art = true →
  art !! VStr "year" = Some (VInt 2023) →
  art !! VStr "id" = Some article_id →
  art !! VStr "rewrite_status" = Some (VRef st) → h !! st = Some status → st ≠ a →
  (main_score_and_classify [VRef a] h).1 = inr (Buckets [] [] [] [article_id]).
Proof.
  intros Hsub Ha Hty Hyear Hid Hst Hstatus Hne.
  destruct (main_score_and_classify_single h a art article_id st status
              Hsub Ha Hty Hid Hst Hstatus Hne) as (total & scores & rt & Hres & Hrun).
  rewrite Hrun.
  destruct (score_article_result_typed h a art Hsub Ha Hty)
    as (t & u & e & r & k & w & y & ti & _ & Hb & _ & Hy & _ & E).
  rewrite Hyear in Hy. cbn [default from_option id] in Hy. injection Hy as <-.
  cbv zeta in E. rewrite E in Hres. injection Hres as <- _ _.
  pose proof (risk_score_values ti (default VNone (art !! VStr "year"))) as Hr.
  set (risk := risk_score ti (default VNone (art !! VStr "year"))) in *.
  assert (Hb' : final_total t u e r w 2023 risk < 30).
  { clear E Hrun. adjust_cases; lia. }
  unfold place. cbn [fst snd rewrite_candidates review_candidates
    archive_candidates deletion_candidates app].
  repeat case_bool_decide; first [lia | reflexivity].
Qed.

Lemma year_2023_deleted_witness :
  (main_score_and_classify [VRef 17] (heap_with article_2023_long)).1
  = inr (Buckets [] [] [] [VStr "fc2_2023-05-05_002"]).
Proof.
  apply (year_2023_deleted (heap_with article_2023_long) 17 article_2023_long
           (VStr "fc2_2023-05-05_002") 18 pending_status).
  - apply heap_with_table.
  - apply heap_with_article.
  - reflexivity.
  - reflexivity.
  - reflexivity.
  - reflexivity.
  - reflexivity.
  - discriminate.
Defined.

(** ** The total over arbitrary dicts *)

Lemma py_sum_type_error vs acc v :
  v ∈ vs → is_int v = false → py_sum vs acc = inl TypeError.
Proof.
  intros Hin Hv. revert acc.
  induction vs as [|x vs IH]; intros acc; [by apply elem_of_nil in Hin|].
  apply elem_of_cons in Hin as [<- | Hin].
  - destruct v; first [discriminate Hv | reflexivity].
  - destruct x; cbn [py_sum]; first [reflexivity | by apply IH].
Qed.

Lemma py_sum_ints vs acc :
  Forall (λ v, is_int v = true) vs → py_sum vs acc = inr (acc + int_sum vs).
Proof.
  intros HF. revert acc.
  induction HF as [|x vs Hx _ IH]; intros acc; cbn [py_sum int_sum foldr].
  - f_equal. lia.
  - destruct x; try discriminate Hx. rewrite IH. f_equal.
    unfold int_sum. cbn [int_of]. lia.
Qed.

Lemma py_sum_inr vs acc total :
  py_sum vs acc = inr total →
  Forall (λ v, is_int v = true) vs ∧ total = acc + int_sum vs.
Proof.
  revert acc. induction vs as [|x vs IH]; intros acc; cbn [py_sum int_sum foldr].
  - intros [= <-]. split; [apply Forall_nil_2 | lia].
  - destruct x; try discriminate. intros [HF ->]%IH.
    split; [by apply Forall_cons | unfold int_sum; cbn [int_of]; lia].
Qed.

Lemma int_sum_Permutation vs ws : vs ≡ₚ ws → int_sum vs = int_sum ws.
Proof.
  unfold int_sum.
  induction 1 as [|x vs ws _ IH|x y vs|vs ws us _ IH1 _ IH2]; cbn [foldr];
    [reflexivity | by rewrite IH | lia | congruence].
Qed.

Lemma calculate_total_score_run h s (d : dict) :
  h !! s = Some d →
  calculate_total_score (VRef s) h
  = (match py_sum (map_to_list d).*2 0 with
     | inr n => inr (VInt n)
     | inl e => inl e
     end, h).
Proof.
  intros Hs. unfold calculate_total_score, dict_values_sum.
  unfold mbind at 1. unfold M_bind.
  step (run_deref _ _ _ Hs).
  destruct (py_sum (map_to_list d).*2 0); reflexivity.
Qed.

(** [calculate_total_score] adds up every value of the dict, not the five
    axes only: an entry under any further key is counted in. *)
Theorem calculate_total_score_extra_key h h' s (d : dict) k n total :
  h !! s = Some d → d !! k = None →
  calculate_total_score (VRef s) h = (inr (VInt total), h) →
  h' !! s = Some (<[k := VInt n]> d) →
  calculate_total_score (VRef s) h' = (inr (VInt (total + n)), h').
Proof.
  intros Hs Hk Hrun Hs'.
  rewrite (calculate_total_score_run h s d Hs) in Hrun.
  destruct (py_sum (map_to_list d).*2 0) as [e|t] eqn:E; [discriminate Hrun|].
  injection Hrun as <-.
  apply py_sum_inr in E as [HF ->].
  assert (HP : (map_to_list (<[k := VInt n]> d)).*2 ≡ₚ VInt n :: (map_to_list d).*2).
  { rewrite (map_to_list_insert d k (VInt n) Hk). reflexivity. }
  rewrite (calculate_total_score_run h' s _ Hs').
  rewrite py_sum_ints.
  - rewrite (int_sum_Permutation _ _ HP). unfold int_sum. cbn [foldr int_of].
    do 3 f_equal. lia.
  - rewrite HP. apply Forall_cons. split; [reflexivity | exact HF].
Qed.

Lemma calculate_total_score_extra_key_witness :
  calculate_total_score (VRef 20)
    (<[20%positive := <[VStr "bonus" := VInt 5]> (axis_scores 15 8 6 7 8)]> ∅)
  = (inr (VInt (44 + 5)),
     <[20%positive := <[VStr "bonus" := VInt 5]> (axis_scores 15 8 6 7 8)]> ∅).
Proof.
  apply (calculate_total_score_extra_key
           (<[20%positive := axis_scores 15 8 6 7 8]> ∅) _ 20
           (axis_scores 15 8 6 7 8) (VStr "bonus") 5 44).
  - reflexivity.
  - reflexivity.
  - apply (calculate_total_score_spec _ 20 15 8 6 7 8). reflexivity.
  - reflexivity.
Defined.

(** A value that is not an integer under any key, a [None] for instance,
    makes [calculate_total_score] raise [TypeError]; the store is left as it
    was. *)
Theorem calculate_total_score_non_int h s (d : dict) k v :
  h !! s = Some d → d !! k = Some v → is_int v = false →
  calculate_total_score (VRef s) h = (inl TypeError, h).
Proof.
  intros Hs Hk Hv. rewrite (calculate_total_score_run h s d Hs).
  rewrite (py_sum_type_error _ 0 v); [reflexivity| |exact Hv].
  apply (list_elem_of_fmap_2 snd _ (k, v)). by apply elem_of_map_to_list.
Qed.

Lemma calculate_total_score_non_int_witness :
  calculate_total_score (VRef 20)
    (<[20%positive := <[AXIS_RISK := VNone]> (axis_scores 15 8 6 7 8)]> ∅)
  = (inl TypeError,
     <[20%positive := <[AXIS_RISK := VNone]> (axis_scores 15 8 6 7 8)]> ∅).
Proof.
  apply (calculate_total_score_non_int _ 20
           (<[AXIS_RISK := VNone]> (axis_scores 15 8 6 7 8)) AXIS_RISK VNone).
  - reflexivity.
  - reflexivity.
  - reflexivity.
Defined.

(** ** Scoring and classifying a list of articles *)

Lemma main_scoring_loop_cons article rest h h1 :
  main_scoring_loop [article] h = (inr (), h1) →
  main_scoring_loop (article :: rest) h = main_scoring_loop rest h1.
Proof.
  cbn [main_scoring_loop]. unfold mbind, M_bind. intros H.
  repeat match type of H with
         | (match ?x with _ => _ end) = _ =>
             destruct x as [[?|?] ?]; [discriminate H|]
         end.
  unfold mret, M_ret in H. by injection H as ->.
Qed.

Lemma main_scoring_loop_entries entries : ∀ h,
  initial_heap ⊆ h →
  Forall (stored_in h) entries →
  NoDup (status_addr <$> entries) →
  Forall (λ e, status_addr e ∉ record_addr <$> entries) entries →
  Forall (λ e, status_addr e ∉ dom initial_heap) entries →
  ∃ h',
    main_scoring_loop (VRef <$> (record_addr <$> entries)) h = (inr (), h') ∧
    (∀ l d, h !! l = Some d → l ∉ status_addr <$> entries → h' !! l = Some d) ∧
    Forall (λ e, ∃ rewrite_type s,
              h' !! status_addr e
              = Some (persisted (status_dict e) (fresh_score (record e))
                        rewrite_type s) ∧
              is_int (fresh_score (record e)) = true) entries.
Proof.
  induction entries as [|e entries IH]; intros h Hsub Hin Hnd Hsep Htab.
  - exists h. split; [reflexivity|]. split; [by intros|]. apply Forall_nil_2.
  - apply Forall_cons in Hin as [(Ha & Hty & Hid & Hst & Hs) Hin].
    rewrite fmap_cons in Hnd. apply NoDup_cons in Hnd as [Hfresh Hnd].
    apply Forall_cons in Hsep as [Hsep1 Hsep].
    apply Forall_cons in Htab as [Htab1 Htab].
    rewrite fmap_cons in Hsep1. apply not_elem_of_cons in Hsep1 as [Hne Hsep1].
    destruct (main_scoring_loop_typed h (record_addr e) (record e) (status_addr e)
                (status_dict e) Hsub Ha Hty Hst Hs Hne)
      as (total & scores & rt & s & h1 & Hres & Hrun & Hst1 & _ & _ & _ & Hold).
    assert (Hti : is_ref (default (VStr "") (record e !! VStr "title")) = false).
    { apply well_typed_article_inv in Hty as (_ & _ & _ & [ti ->]). reflexivity. }
    rewrite (score_article_result_fields h _ _ Hsub Ha Hti) in Hres.
    assert (Hscore : fresh_score (record e) = VInt total)
      by (unfold fresh_score; by rewrite Hres).
    assert (Hsub1 : initial_heap ⊆ h1).
    { apply map_subseteq_spec. intros l d Hl. apply Hold.
      - by apply (lookup_weaken initial_heap h).
      - intros ->. apply Htab1. apply elem_of_dom. by eexists. }
    assert (Hin1 : Forall (stored_in h1) entries).
    { apply Forall_forall. intros e' He'.
      destruct (proj1 (Forall_forall _ _) Hin e' He') as (Ha' & Hty' & Hid' & Hst' & Hs').
      split; [|split; [exact Hty'|split; [exact Hid'|split; [exact Hst'|]]]].
      - apply Hold; [exact Ha'|]. intros E. apply Hsep1. rewrite <- E.
        by apply list_elem_of_fmap_2.
      - apply Hold; [exact Hs'|]. intros E. apply Hfresh. rewrite <- E.
        by apply list_elem_of_fmap_2. }
    assert (Hsep' : Forall (λ e', status_addr e' ∉ record_addr <$> entries) entries).
    { apply Forall_forall. intros e' He' Hx.
      apply (proj1 (Forall_forall _ _) Hsep e' He'). rewrite fmap_cons. by right. }
    destruct (IH h1 Hsub1 Hin1 Hnd Hsep' Htab) as (h' & Hrun' & Hold' & Hall).
    exists h'. split; [|split].
    + rewrite !fmap_cons. rewrite (main_scoring_loop_cons _ _ h h1 Hrun). exact Hrun'.
    + intros l d Hl Hnot. rewrite fmap_cons in Hnot.
      apply not_elem_of_cons in Hnot as [Hl1 Hl2].
      apply Hold'; [|exact Hl2]. by apply Hold.
    + apply Forall_cons. split; [|exact Hall].
      exists rt, (VRef s). rewrite Hscore. split; [|reflexivity].
      apply Hold'; [exact Hst1 | exact Hfresh].
Qed.

Lemma fresh_infos_scored (entries : list stored_article) :
  Forall (λ e, is_int (fresh_score (record e)) = true) entries →
  filter (λ info : val * val, is_int info.2 = true) (fresh_info <$> entries)
  = fresh_info <$> entries.
Proof.
  induction 1 as [|e entries He _ IH]; [reflexivity|].
  rewrite fmap_cons, filter_cons, decide_True by exact He. by rewrite IH.
Qed.

(** The scoring loop of [main] followed by [classify_articles], on a whole
    list: when the articles are well typed and each has a ["rewrite_status"]
    dict of its own, every one of them is scored and classified, none is
    left out; each of the four lists holds, in input order, the IDs of the
    articles whose newly computed total lies in its range, whatever scores
    were stored before. *)
Theorem main_score_and_classify_all h (entries : list stored_article) :
  initial_heap ⊆ h →
  Forall (stored_in h) entries →
  NoDup (status_addr <$> entries) →
  Forall (λ e, status_addr e ∉ record_addr <$> entries) entries →
  Forall (λ e, status_addr e ∉ dom initial_heap) entries →
  ∃ b,
    (main_score_and_classify (VRef <$> (record_addr <$> entries)) h).1 = inr b ∧
    rewrite_candidates b = ids_scored_as rewrite_range (fresh_info <$> entries) ∧
    review_candidates b = ids_scored_as review_range (fresh_info <$> entries) ∧
    archive_candidates b = ids_scored_as archive_range (fresh_info <$> entries) ∧
    deletion_candidates b = ids_scored_as deletion_range (fresh_info <$> entries) ∧
    (length (rewrite_candidates b) + length (review_candidates b)
     + length (archive_candidates b) + length (deletion_candidates b))%nat
    = length entries.
Proof.
  intros Hsub Hin Hnd Hsep Htab.
  destruct (main_scoring_loop_entries entries h Hsub Hin Hnd Hsep Htab)
    as (h' & Hrun & Hold & Hall).
  assert (Hinfo : Forall2 (λ article info, article_info h' article = Some info)
                    (VRef <$> (record_addr <$> entries)) (fresh_info <$> entries)).
  { rewrite <- list_fmap_compose. apply Forall2_fmap, Forall_Forall2_diag.
    apply Forall_forall. intros e He.
    destruct (proj1 (Forall_forall _ _) Hin e He) as (Ha & _ & [article_id Hid] & Hst & _).
    destruct (proj1 (Forall_forall _ _) Hall e He) as (rt & s & Hs & _).
    assert (Ha' : h' !! record_addr e = Some (record e)).
    { apply Hold; [exact Ha|]. intros Hx.
      apply list_elem_of_fmap in Hx as (e' & E & He').
      apply (proj1 (Forall_forall _ _) Hsep e' He'). rewrite <- E.
      by apply list_elem_of_fmap_2. }
    unfold article_info, compose, fresh_info. rewrite Ha'. cbn [mbind option_bind].
    rewrite Hst. cbn [mbind option_bind]. rewrite Hs. cbn [mbind option_bind].
    rewrite Hid. cbn [mbind option_bind default from_option id].
    by rewrite persisted_score. }
  assert (Hint : Forall (λ e, is_int (fresh_score (record e)) = true) entries).
  { apply Forall_forall. intros e He.
    by destruct (proj1 (Forall_forall _ _) Hall e He) as (rt & s & _ & Hi). }
  assert (Hty : Forall score_typed (fresh_info <$> entries)).
  { apply Forall_fmap, Forall_forall. intros e He. right.
    exact (proj1 (Forall_forall _ _) Hint e He). }
  eexists. split.
  { unfold main_score_and_classify. unfold mbind at 1. unfold M_bind.
    rewrite Hrun. unfold classify_articles.
    rewrite (classify_loop_spec h' _ _ _ Hinfo Hty). reflexivity. }
  rewrite (foldl_place_in_order _ _ place_rewrite),
    (foldl_place_in_order _ _ place_review),
    (foldl_place_in_order _ _ place_archive),
    (foldl_place_in_order _ _ place_deletion).
  cbn [rewrite_candidates review_candidates archive_candidates deletion_candidates
       app].
  repeat (split; [reflexivity|]).
  rewrite classified_count, (fresh_infos_scored entries Hint).
  apply length_fmap.
Qed.

Lemma two_entries_stored : Forall (stored_in two_articles) two_entries.
Proof.
  unfold two_entries.
  apply Forall_cons; split.
  { unfold stored_in. cbn [record_addr record status_addr status_dict].
    split; [vm_cast_no_check (eq_refl (two_articles !! 17%positive))|].
    split; [reflexivity|]. split; [by eexists|]. split; [reflexivity|].
    vm_cast_no_check (eq_refl (two_articles !! 18%positive)). }
  apply Forall_cons; split; [|apply Forall_nil_2].
  unfold stored_in. cbn [record_addr record status_addr status_dict].
  split; [vm_cast_no_check (eq_refl (two_articles !! 19%positive))|].
  split; [reflexivity|]. split; [by eexists|]. split; [reflexivity|].
  vm_cast_no_check (eq_refl (two_articles !! 20%positive)).
Qed.

Lemma main_score_and_classify_all_witness :
  ∃ b,
    (main_score_and_classify (VRef <$> (record_addr <$> two_entries)) two_articles).1
    = inr b ∧
    rewrite_candidates b = ids_scored_as rewrite_range (fresh_info <$> two_entries) ∧
    review_candidates b = ids_scored_as review_range (fresh_info <$> two_entries) ∧
    archive_candidates b = ids_scored_as archive_range (fresh_info <$> two_entries) ∧
    deletion_candidates b = ids_scored_as deletion_range (fresh_info <$> two_entries) ∧
    (length (rewrite_candidates b) + length (review_candidates b)
     + length (archive_candidates b) + length (deletion_candidates b))%nat
    = length two_entries.
Proof.
  apply (main_score_and_classify_all two_articles two_entries).
  - apply (bool_decide_unpack _). vm_compute. exact I.
  - apply two_entries_stored.
  - apply (bool_decide_unpack _). vm_compute. exact I.
  - apply (bool_decide_unpack _). vm_compute. exact I.
  - apply (bool_decide_unpack _). vm_compute. exact I.
Defined.

(** The two stored articles: the first, with a total of 79, is a rewrite
    candidate; the second, of 2023, is a deletion candidate. *)
Example run_two_articles :
  (main_score_and_classify [VRef 17; VRef 19] two_articles).1
  = inr (Buckets [VStr "fc2_2008-08-08_003"] [] [] [VStr "fc2_2023-05-05_002"]).
Proof.
  vm_cast_no_check
    (eq_refl (main_score_and_classify [VRef 17; VRef 19] two_articles).1).
Qed.

(** * The extractor: statistics *)

Lemma run_count_up h (counts : gmap val Z) key :
  hashable key = true → count_up counts key h = (inr (tally_step counts key), h).
Proof. intros Hk. unfold count_up. by rewrite Hk. Qed.

Lemma counted_fields_inv h article status year category :
  counted_fields h article = Some (status, year, category) →
  ∃ a (art : dict) s (status_dict : dict),
    article = VRef a ∧ h !! a = Some art ∧
    art !! VStr "rewrite_status" = Some (VRef s) ∧ h !! s = Some status_dict ∧
    status_dict !! VStr "status" = Some status ∧
    year = art !! VStr "year" ∧ category = art !! VStr "category".
Proof.
  unfold counted_fields. intros H.
  destruct article as [| | |a]; try discriminate H.
  destruct (h !! a) as [art|] eqn:Ha; [|discriminate H]. cbn [mbind option_bind] in H.
  destruct (art !! VStr "rewrite_status") as [[| | |s]|] eqn:Hst; try discriminate H.
  cbn [mbind option_bind] in H.
  destruct (h !! s) as [sd|] eqn:Hs; [|discriminate H]. cbn [mbind option_bind] in H.
  destruct (sd !! VStr "status") as [v|] eqn:Hv; [|discriminate H].
  cbn [mbind option_bind] in H. injection H as <- <- <-.
  by exists a, art, s, sd.
Qed.

Lemma count_statuses_spec h articles infos (counts : gmap val Z) :
  Forall2 (λ article info, counted_fields h article = Some info) articles infos →
  Forall (λ info, countable_fields info = true) infos →
  count_statuses articles counts h
  = (inr (foldl tally_step counts (status_of <$> infos)), h).
Proof.
  intros HF. revert counts.
  induction HF as [|article [[status year] category] articles infos Hinfo _ IH];
    intros counts Hty; [reflexivity|].
  apply Forall_cons in Hty as [Hc Hty].
  apply counted_fields_inv in Hinfo
    as (a & art & s & sd & -> & Ha & Hst & Hs & Hv & _ & _).
  unfold countable_fields in Hc. cbn [fst snd] in Hc.
  apply andb_true_iff in Hc as [[Hh _]%andb_true_iff _].
  cbn [count_statuses fmap list_fmap foldl status_of fst].
  step (run_dict_getitem h a art (VStr "rewrite_status") _ Ha eq_refl Hst).
  step (run_dict_getitem h s sd (VStr "status") _ Hs eq_refl Hv).
  step (run_count_up h counts status Hh).
  apply IH, Hty.
Qed.

Lemma count_categories_spec h articles infos (counts : gmap val Z) :
  Forall2 (λ article info, counted_fields h article = Some info) articles infos →
  Forall (λ info, countable_fields info = true) infos →
  count_categories articles counts h
  = (inr (foldl tally_step counts (category_of <$> infos)), h).
Proof.
  intros HF. revert counts.
  induction HF as [|article [[status year] category] articles infos Hinfo _ IH];
    intros counts Hty; [reflexivity|].
  apply Forall_cons in Hty as [Hc Hty].
  apply counted_fields_inv in Hinfo
    as (a & art & s & sd & -> & Ha & _ & _ & _ & _ & ->).
  unfold countable_fields in Hc. cbn [fst snd] in Hc.
  apply andb_true_iff in Hc as [_ Hh].
  cbn [count_categories fmap list_fmap foldl category_of snd].
  step (run_dict_get h a art (VStr "category") (VStr "未分類") Ha eq_refl).
  step (run_count_up h counts _ Hh).
  apply IH, Hty.
Qed.

Lemma count_years_spec h articles infos (counts : gmap val Z) :
  Forall2 (λ article info, counted_fields h article = Some info) articles infos →
  Forall (λ info, countable_fields info = true) infos →
  count_years articles counts h
  = (inr (foldl tally_step counts
            (filter (λ year, dated year = true) (year_of <$> infos))), h).
Proof.
  intros HF. revert counts.
  induction HF as [|article [[status year] category] articles infos Hinfo _ IH];
    intros counts Hty; [reflexivity|].
  apply Forall_cons in Hty as [Hc Hty].
  apply counted_fields_inv in Hinfo
    as (a & art & s & sd & -> & Ha & _ & _ & _ & -> & _).
  unfold countable_fields in Hc. cbn [fst snd] in Hc.
  apply andb_true_iff in Hc as [[_ Hy]%andb_true_iff _].
  cbn [count_years fmap list_fmap year_of fst snd].
  step (run_dict_get h a art (VStr "year") VNone Ha eq_refl).
  rewrite filter_cons.
  change (year_of (status, art !! VStr "year", category))
    with (default VNone (art !! VStr "year")).
  destruct (art !! VStr "year") as [[|n| |]|]; try discriminate Hy;
    cbn [default from_option id truthy dated].
  - rewrite run_bind with (x := false) (h1 := h) by reflexivity.
    rewrite decide_False by discriminate. apply IH, Hty.
  - rewrite run_bind with (x := bool_decide (n ≠ 0)) (h1 := h) by reflexivity.
    destruct (bool_decide (n ≠ 0)) eqn:E.
    + rewrite decide_True by reflexivity. cbn [foldl].
      step (run_count_up h counts (VInt n) eq_refl). apply IH, Hty.
    + rewrite decide_False by discriminate. apply IH, Hty.
  - rewrite run_bind with (x := false) (h1 := h) by reflexivity.
    rewrite decide_False by discriminate. apply IH, Hty.
Qed.

Lemma tally_step_lookup (counts : gmap val Z) key k :
  default 0 (tally_step counts key !! k)
  = default 0 (counts !! k) + (if decide (key = k) then 1 else 0).
Proof.
  unfold tally_step. rewrite lookup_insert. destruct (decide (key = k)) as [->|].
  - reflexivity.
  - lia.
Qed.

Lemma foldl_tally_lookup keys (counts : gmap val Z) k :
  default 0 (foldl tally_step counts keys !! k)
  = default 0 (counts !! k) + occurrences k keys.
Proof.
  revert counts. unfold occurrences.
  induction keys as [|key keys IH]; intros counts; cbn [foldl].
  - rewrite filter_nil. cbn [length]. lia.
  - rewrite IH, tally_step_lookup, filter_cons.
    destruct (decide (key = k)); cbn [length]; lia.
Qed.

Lemma foldl_tally_positive keys (counts : gmap val Z) :
  map_Forall (λ _ n, 0 < n) counts →
  map_Forall (λ _ n, 0 < n) (foldl tally_step counts keys).
Proof.
  revert counts. induction keys as [|key keys IH]; intros counts Hpos; [exact Hpos|].
  cbn [foldl]. apply IH. unfold tally_step. apply map_Forall_insert_2; [|exact Hpos].
  destruct (counts !! key) as [n|] eqn:E; cbn [default from_option id].
  - specialize (Hpos key n E). cbn beta in Hpos. lia.
  - lia.
Qed.

Lemma tally_lookup keys k n :
  tally keys !! k = Some n ↔ n = occurrences k keys ∧ k ∈ keys.
Proof.
  pose proof (foldl_tally_lookup keys ∅ k) as Hl. rewrite lookup_empty in Hl.
  cbn [default from_option id] in Hl. fold (tally keys) in Hl.
  pose proof (foldl_tally_positive keys ∅ (map_Forall_empty _)) as Hpos.
  fold (tally keys) in Hpos.
  assert (Hocc : 0 < occurrences k keys ↔ k ∈ keys).
  { unfold occurrences. split.
    - intros Hgt. destruct (filter (λ x, x = k) keys) as [|x l] eqn:E;
        [cbn [length] in Hgt; lia|].
      assert (Hx : x ∈ filter (λ x, x = k) keys) by (rewrite E; left).
      apply list_elem_of_filter in Hx as [-> Hx]. exact Hx.
    - intros Hin.
      assert (Hx : k ∈ filter (λ x, x = k) keys) by (by apply list_elem_of_filter).
      destruct (filter (λ x, x = k) keys); [by apply elem_of_nil in Hx|].
      cbn [length]. lia. }
  destruct (tally keys !! k) as [m|] eqn:E; cbn [default from_option id] in Hl.
  - specialize (Hpos k m E). cbn beta in Hpos. split.
    + intros [= <-]. split; [lia | apply Hocc; lia].
    + intros [-> _]. f_equal. lia.
  - split; [discriminate|]. intros [_ Hin%Hocc]. lia.
Qed.

Lemma counts_sum_tally_step (counts : gmap val Z) key :
  counts_sum (tally_step counts key) = counts_sum counts + 1.
Proof.
  unfold counts_sum, tally_step.
  assert (Hcomm : ∀ (m : gmap val Z) (j1 j2 : val) (z1 z2 y : Z),
             j1 ≠ j2 → m !! j1 = Some z1 → m !! j2 = Some z2 →
             z1 + (z2 + y) = z2 + (z1 + y)) by (intros; lia).
  destruct (counts !! key) as [n|] eqn:E; cbn [default from_option id].
  - rewrite <- (insert_delete_id counts key n E) at 2.
    rewrite <- (insert_delete_eq counts).
    rewrite !map_fold_insert_L; [lia|..]; first [apply lookup_delete_eq | apply Hcomm].
  - rewrite map_fold_insert_L; [lia | apply Hcomm | exact E].
Qed.

Lemma counts_sum_foldl keys (counts : gmap val Z) :
  counts_sum (foldl tally_step counts keys)
  = counts_sum counts + Z.of_nat (length keys).
Proof.
  revert counts. induction keys as [|key keys IH]; intros counts; cbn [foldl length].
  - lia.
  - rewrite IH, counts_sum_tally_step. lia.
Qed.

Lemma counts_sum_tally keys : counts_sum (tally keys) = Z.of_nat (length keys).
Proof.
  unfold tally. rewrite counts_sum_foldl. unfold counts_sum.
  rewrite map_fold_empty. lia.
Qed.

Lemma tally_keys keys (P : val → Prop) :
  Forall P keys → map_Forall (λ k _, P k) (tally keys).
Proof.
  intros HF k n [_ Hin]%tally_lookup. by apply (proj1 (Forall_forall _ _) HF).
Qed.

Lemma generate_statistics_run h articles infos :
  Forall2 (λ article info, counted_fields h article = Some info) articles infos →
  Forall (λ info, countable_fields info = true) infos →
  generate_statistics articles h
  = (inr (Statistics (Z.of_nat (length articles))
            (tally (status_of <$> infos))
            (tally (filter (λ year, dated year = true) (year_of <$> infos)))
            (tally (category_of <$> infos))), h).
Proof.
  intros HF Hty. unfold generate_statistics. cbv zeta.
  step (count_statuses_spec h articles infos ∅ HF Hty).
  step (count_years_spec h articles infos ∅ HF Hty).
  step (count_categories_spec h articles infos ∅ HF Hty).
  fold (tally (status_of <$> infos)) (tally (category_of <$> infos)).
  fold (tally (filter (λ year, dated year = true) (year_of <$> infos))).
  unfold sorted_items.
  rewrite (bool_decide_eq_true_2
             (map_Forall (λ k _, is_int k = true)
                (tally (filter (λ year, dated year = true) (year_of <$> infos))))).
  - rewrite orb_true_r. reflexivity.
  - apply tally_keys. apply Forall_forall. intros y [Hy _]%list_elem_of_filter.
    by destruct y.
Qed.

Lemma occurrences_filter (P : val → Prop) `{!∀ k, Decision (P k)} keys k :
  P k → occurrences k (filter P keys) = occurrences k keys.
Proof.
  intros HP. unfold occurrences. f_equal. f_equal.
  induction keys as [|x keys IH]; [reflexivity|].
  rewrite !filter_cons. destruct (decide (P x)) as [Hx|Hx].
  - rewrite filter_cons. destruct (decide (x = k)); by rewrite IH.
  - rewrite decide_False by (by intros ->). exact IH.
Qed.

Lemma length_filter_split {A : Type} (P : A → bool) (l : list A) :
  length l
  = (length (filter (λ x, P x = true) l) + length (filter (λ x, P x = false) l))%nat.
Proof.
  induction l as [|x l IH]; [reflexivity|].
  rewrite !filter_cons. destruct (P x) eqn:E.
  - rewrite decide_True by reflexivity. rewrite decide_False by discriminate.
    cbn [length]. by rewrite IH at 1.
  - rewrite decide_False by discriminate. rewrite decide_True by reflexivity.
    cbn [length]. rewrite IH at 1. lia.
Qed.

Lemma length_filter_fmap {A B : Type} (f : A → B) (P : B → bool) (l : list A) :
  length (filter (λ y, P y = true) (f <$> l))
  = length (filter (λ x, P (f x) = true) l).
Proof.
  induction l as [|x l IH]; [reflexivity|].
  cbn [fmap list_fmap]. rewrite !filter_cons.
  destruct (P (f x)) eqn:E.
  - rewrite !decide_True by (first [exact E | reflexivity]). cbn [length]. f_equal. exact IH.
  - rewrite !decide_False by (first [by rewrite E | discriminate]). exact IH.
Qed.

(** [generate_statistics] counts what it says: on records with a status and
    a category that can be dict keys, and with a year that is an integer,
    [None] or missing, it returns without changing the store; ["total"] is the number of records; ["by_status"] has
    exactly the statuses that occur, each with the number of its records;
    ["by_category"] likewise, a missing category counted as "未分類"; and
    ["by_year"] has exactly the years other than 0 and [None], each with the
    number of its records. *)
Theorem generate_statistics_counts h articles infos :
  Forall2 (λ article info, counted_fields h article = Some info) articles infos →
  Forall (λ info, countable_fields info = true) infos →
  ∃ st,
    generate_statistics articles h = (inr st, h) ∧
    total st = Z.of_nat (length articles) ∧
    (∀ k n, by_status st !! k = Some n
            ↔ n = occurrences k (status_of <$> infos) ∧ k ∈ status_of <$> infos) ∧
    (∀ k n, by_category st !! k = Some n
            ↔ n = occurrences k (category_of <$> infos) ∧ k ∈ category_of <$> infos) ∧
    (∀ k n, by_year st !! k = Some n
            ↔ n = occurrences k (year_of <$> infos) ∧ k ∈ year_of <$> infos ∧
              dated k = true).
Proof.
  intros HF Hty. eexists. split; [exact (generate_statistics_run h articles infos HF Hty)|].
  cbn [total by_status by_year by_category].
  split; [reflexivity|]. split; [|split].
  - intros k n. apply tally_lookup.
  - intros k n. apply tally_lookup.
  - intros k n. rewrite tally_lookup, list_elem_of_filter. split.
    + intros (-> & Hd & Hin). by rewrite (occurrences_filter (λ y, dated y = true)).
    + intros (-> & Hin & Hd). by rewrite (occurrences_filter (λ y, dated y = true)).
Qed.

Lemma extracted_articles_infos :
  Forall2 (λ article info, counted_fields extracted_articles article = Some info)
    [VRef 1; VRef 3; VRef 5] extracted_infos.
Proof.
  unfold extracted_infos.
  apply Forall2_cons; split;
    [vm_cast_no_check (eq_refl (counted_fields extracted_articles (VRef 1)))|].
  apply Forall2_cons; split;
    [vm_cast_no_check (eq_refl (counted_fields extracted_articles (VRef 3)))|].
  apply Forall2_cons; split;
    [vm_cast_no_check (eq_refl (counted_fields extracted_articles (VRef 5)))|].
  apply Forall2_nil_2.
Qed.

Lemma extracted_infos_countable :
  Forall (λ info, countable_fields info = true) extracted_infos.
Proof.
  unfold extracted_infos.
  repeat (apply Forall_cons; split; [reflexivity|]). apply Forall_nil_2.
Qed.

Lemma generate_statistics_counts_witness :
  ∃ st,
    generate_statistics [VRef 1; VRef 3; VRef 5] extracted_articles
    = (inr st, extracted_articles) ∧
    total st = Z.of_nat (length [VRef 1; VRef 3; VRef 5]) ∧
    (∀ k n, by_status st !! k = Some n
            ↔ n = occurrences k (status_of <$> extracted_infos) ∧
              k ∈ status_of <$> extracted_infos) ∧
    (∀ k n, by_category st !! k = Some n
            ↔ n = occurrences k (category_of <$> extracted_infos) ∧
              k ∈ category_of <$> extracted_infos) ∧
    (∀ k n, by_year st !! k = Some n
            ↔ n = occurrences k (year_of <$> extracted_infos) ∧
              k ∈ year_of <$> extracted_infos ∧ dated k = true).
Proof.
  apply (generate_statistics_counts extracted_articles [VRef 1; VRef 3; VRef 5]
           extracted_infos).
  - apply extracted_articles_infos.
  - apply extracted_infos_countable.
Defined.

(** The counts by status and the counts by category each add up to
    ["total"]; the counts by year add up to ["total"] less the number of
    records whose year is 0, [None] or missing. *)
Theorem generate_statistics_sums h articles infos st :
  Forall2 (λ article info, counted_fields h article = Some info) articles infos →
  Forall (λ info, countable_fields info = true) infos →
  (generate_statistics articles h).1 = inr st →
  counts_sum (by_status st) = total st ∧
  counts_sum (by_category st) = total st ∧
  counts_sum (by_year st)
  = total st - Z.of_nat (length (filter (λ info, dated (year_of info) = false) infos)).
Proof.
  intros HF Hty Hrun.
  rewrite (generate_statistics_run h articles infos HF Hty) in Hrun.
  cbn [fst] in Hrun. injection Hrun as <-.
  cbn [total by_status by_year by_category].
  rewrite !counts_sum_tally, !length_fmap, (Forall2_length _ _ _ HF).
  split; [reflexivity|]. split; [reflexivity|].
  rewrite (length_filter_split (λ info, dated (year_of info)) infos) at 1.
  rewrite (length_filter_fmap year_of dated infos). lia.
Qed.

Lemma generate_statistics_sums_witness :
  counts_sum (tally [VStr "pending"; VStr "pending"; VStr "completed"]) = 3 ∧
  counts_sum (tally [VStr "徒然"; VNone; VNone]) = 3 ∧
  counts_sum (tally [VInt 2008; VInt 2012])
  = 3 - Z.of_nat (length (filter (λ info, dated (year_of info) = false)
                            extracted_infos)).
Proof.
  apply (generate_statistics_sums extracted_articles [VRef 1; VRef 3; VRef 5]
           extracted_infos
           (Statistics 3 (tally [VStr "pending"; VStr "pending"; VStr "completed"])
              (tally [VInt 2008; VInt 2012]) (tally [VStr "徒然"; VNone; VNone]))).
  - apply extracted_articles_infos.
  - apply extracted_infos_countable.
  - rewrite (generate_statistics_run extracted_articles [VRef 1; VRef 3; VRef 5]
               extracted_infos extracted_articles_infos extracted_infos_countable).
    reflexivity.
Defined.

(** The key "未分類" is for records without a ["category"] entry only.  When
    every record has the entry, as the records of the extractor have, and
    none has that very string as its category, ["by_category"] has no key
    "未分類": the records without a category in the title are counted under
    the key [None]. *)
Theorem generate_statistics_uncategorised h articles infos st :
  Forall2 (λ article info, counted_fields h article = Some info) articles infos →
  Forall (λ info, countable_fields info = true) infos →
  Forall (λ info : val * option val * option val,
            is_Some info.2 ∧ info.2 ≠ Some (VStr "未分類")) infos →
  (generate_statistics articles h).1 = inr st →
  by_category st !! VStr "未分類" = None ∧
  default 0 (by_category st !! VNone)
  = Z.of_nat (length (filter (λ info : val * option val * option val,
                               info.2 = Some VNone) infos)).
Proof.
  intros HF Hty Hcat Hrun.
  rewrite (generate_statistics_run h articles infos HF Hty) in Hrun.
  cbn [fst] in Hrun. injection Hrun as <-. cbn [by_category]. split.
  - destruct (tally (category_of <$> infos) !! VStr "未分類") as [n|] eqn:E; [|reflexivity].
    apply tally_lookup in E as [_ Hin]. exfalso.
    apply list_elem_of_fmap in Hin as (info & Hinfo & Hin).
    destruct (proj1 (Forall_forall _ _) Hcat info Hin) as [[c Hc] Hne].
    unfold category_of in Hinfo. rewrite Hc in Hinfo, Hne.
    cbn [default from_option id] in Hinfo. congruence.
  - unfold tally. rewrite foldl_tally_lookup, lookup_empty.
    cbn [default from_option id]. unfold occurrences. rewrite Z.add_0_l. do 2 f_equal.
    clear HF Hty. induction Hcat as [|info infos [[c Hc] Hne] _ IH]; [reflexivity|].
    cbn [fmap list_fmap]. rewrite !filter_cons.
    destruct (decide (category_of info = VNone)) as [H1|H1];
      destruct (decide (info.2 = Some VNone)) as [H2|H2]; cbn [length].
    + f_equal. exact IH.
    + exfalso. unfold category_of in H1. rewrite Hc in H1, H2.
      cbn [default from_option id] in H1. congruence.
    + exfalso. unfold category_of in H1. rewrite H2 in H1. by apply H1.
    + exact IH.
Qed.

Lemma generate_statistics_uncategorised_witness :
  tally [VStr "徒然"; VNone; VNone] !! VStr "未分類" = None ∧
  default 0 (tally [VStr "徒然"; VNone; VNone] !! VNone)
  = Z.of_nat (length (filter (λ info : val * option val * option val,
                               info.2 = Some VNone) extracted_infos)).
Proof.
  apply (generate_statistics_uncategorised extracted_articles
           [VRef 1; VRef 3; VRef 5] extracted_infos
           (Statistics 3 (tally [VStr "pending"; VStr "pending"; VStr "completed"])
              (tally [VInt 2008; VInt 2012]) (tally [VStr "徒然"; VNone; VNone]))).
  - apply extracted_articles_infos.
  - apply extracted_infos_countable.
  - unfold extracted_infos.
    repeat (apply Forall_cons; split; [split; [by eexists | discriminate]|]).
    apply Forall_nil_2.
  - rewrite (generate_statistics_run extracted_articles [VRef 1; VRef 3; VRef 5]
               extracted_infos extracted_articles_infos extracted_infos_countable).
    reflexivity.
Defined.

(** The status is read by subscript, not by [get]: one record without a
    ["rewrite_status"] entry makes [generate_statistics] raise [KeyError],
    wherever it stands in the list, when the records before it are in
    order. *)
Theorem generate_statistics_needs_status h before infos a (art : dict) after :
  Forall2 (λ article info, counted_fields h article = Some info) before infos →
  Forall (λ info, countable_fields info = true) infos →
  h !! a = Some art → art !! VStr "rewrite_status" = None →
  generate_statistics (before ++ VRef a :: after) h = (inl KeyError, h).
Proof.
  intros HF Hty Ha Hst. unfold generate_statistics. cbv zeta.
  apply run_bind_raise. generalize (∅ : gmap val Z).
  induction HF as [|article [[status year] category] before infos Hinfo _ IH];
    intros counts.
  - cbn [app count_statuses]. apply run_bind_raise.
    unfold dict_getitem. by rewrite Ha, Hst.
  - apply Forall_cons in Hty as [Hc Hty].
    apply counted_fields_inv in Hinfo
      as (b & art' & s & sd & -> & Hb & Hst' & Hs & Hv & _ & _).
    unfold countable_fields in Hc. cbn [fst snd] in Hc.
    apply andb_true_iff in Hc as [[Hh _]%andb_true_iff _].
    cbn [app count_statuses].
    step (run_dict_getitem h b art' (VStr "rewrite_status") _ Hb eq_refl Hst').
    step (run_dict_getitem h s sd (VStr "status") _ Hs eq_refl Hv).
    step (run_count_up h counts status Hh).
    apply IH, Hty.
Qed.

Lemma generate_statistics_needs_status_witness :
  generate_statistics ([VRef 1; VRef 3] ++ VRef 4 :: [VRef 5]) extracted_articles
  = (inl KeyError, extracted_articles).
Proof.
  apply (generate_statistics_needs_status extracted_articles [VRef 1; VRef 3]
           (take 2 extracted_infos) 4 pending_status [VRef 5]).
  - apply (Forall2_take _ _ _ 2 extracted_articles_infos).
  - apply (Forall_take _ 2 _ extracted_infos_countable).
  - vm_cast_no_check (eq_refl (extracted_articles !! 4%positive)).
  - reflexivity.
Defined.

(** * The extractor: article IDs *)

Lemma append_nil_l (s : string) : "" +:+ s = s.
Proof. reflexivity. Qed.

Lemma append_cons_l (c : ascii) (s t : string) :
  String c s +:+ t = String c (s +:+ t).
Proof. reflexivity. Qed.

Lemma all_chars_app P s t :
  all_chars P (s +:+ t) = all_chars P s && all_chars P t.
Proof.
  induction s as [|c s IH]; [reflexivity|].
  rewrite append_cons_l. cbn [all_chars]. rewrite IH. by rewrite andb_assoc.
Qed.

Lemma pretty_N_char_digit x : is_digit_or_minus (pretty_N_char x) = true.
Proof. unfold pretty_N_char. by repeat case_match. Qed.

Lemma pretty_N_char_nonzero x :
  (0 < x < 10)%N → pretty_N_char x ≠ "0"%char.
Proof.
  intros Hx.
  assert (x = 1 ∨ x = 2 ∨ x = 3 ∨ x = 4 ∨ x = 5 ∨ x = 6 ∨ x = 7 ∨ x = 8 ∨ x = 9)%N
    as H by lia.
  destruct H as [->|[->|[->|[->|[->|[->|[->|[->| ->]]]]]]]]; discriminate.
Qed.

Lemma pretty_N_go_digits x s :
  all_chars is_digit_or_minus s = true →
  all_chars is_digit_or_minus (pretty_N_go x s) = true.
Proof.
  revert s. induction (N.lt_wf_0 x) as [x _ IH]; intros s Hs.
  assert (x = 0 ∨ 0 < x)%N as [->|Hx] by lia.
  - by rewrite pretty_N_go_0.
  - rewrite pretty_N_go_step by done. apply IH.
    + by apply N.div_lt.
    + cbn [all_chars]. by rewrite pretty_N_char_digit, Hs.
Qed.

Lemma pretty_N_go_head x s :
  (0 < x)%N →
  ∃ c rest, pretty_N_go x s = String c rest ∧ c ≠ "0"%char ∧
            is_digit_or_minus c = true ∧ c ≠ "-"%char ∧ c ≠ "+"%char.
Proof.
  revert s. induction (N.lt_wf_0 x) as [x _ IH]; intros s Hx.
  rewrite pretty_N_go_step by done.
  destruct (N.eq_0_gt_0_cases (x `div` 10)) as [Hq|Hq].
  - rewrite Hq, pretty_N_go_0.
    assert (x < 10)%N by (by apply N.div_small_iff in Hq).
    rewrite N.mod_small by done.
    exists (pretty_N_char x), s. split; [reflexivity|].
    split; [by apply pretty_N_char_nonzero|].
    split; [apply pretty_N_char_digit|].
    unfold pretty_N_char. split; by repeat case_match.
  - apply IH; [by apply N.div_lt | exact Hq].
Qed.

Lemma strip_zeros_zeros n s : strip_zeros (zeros n +:+ s) = strip_zeros s.
Proof. induction n as [|n IH]; [reflexivity|]. exact IH. Qed.

Lemma strip_zeros_head c rest :
  c ≠ "0"%char → strip_zeros (String c rest) = String c rest.
Proof. intros Hc. cbn [strip_zeros]. by rewrite bool_decide_eq_false_2. Qed.

Lemma zeros_app_head n c rest :
  ∃ c' rest', zeros n +:+ String c rest = String c' rest' ∧ (c' = "0"%char ∨ c' = c).
Proof. destruct n as [|n]; cbn [zeros String.app]; eauto. Qed.

Lemma unfill_zfill (n : Z) : unfill (zfill 3 (pretty n)) = pretty n.
Proof.
  unfold pretty, pretty_Z. destruct n as [|p|p].
  - reflexivity.
  - unfold pretty, pretty_positive, pretty, pretty_N.
    rewrite decide_False by discriminate.
    destruct (pretty_N_go_head (N.pos p) "") as (c & rest & -> & H0 & _ & Hm & Hp);
      [lia|].
    unfold zfill. rewrite bool_decide_eq_false_2 by (intros [?|?]; done).
    cbv zeta.
    destruct (zeros_app_head (3 - String.length (String c rest)) c rest)
      as (c' & rest' & E & Hc').
    unfold unfill. rewrite E.
    rewrite bool_decide_eq_false_2 by (destruct Hc' as [->| ->]; done).
    rewrite <- E, strip_zeros_zeros, strip_zeros_head by done. reflexivity.
  - unfold pretty, pretty_positive, pretty, pretty_N.
    rewrite decide_False by discriminate.
    destruct (pretty_N_go_head (N.pos p) "") as (c & rest & -> & H0 & _ & Hm & Hp);
      [lia|].
    change ("-" +:+ String c rest) with (String "-"%char (String c rest)).
    unfold zfill.
    rewrite bool_decide_eq_true_2 by (by right). cbv zeta.
    unfold unfill. rewrite bool_decide_eq_true_2 by reflexivity.
    by rewrite strip_zeros_zeros, strip_zeros_head.
Qed.

Lemma zeros_chars n : all_chars is_digit_or_minus (zeros n) = true.
Proof. induction n as [|n IH]; [reflexivity|exact IH]. Qed.

Lemma pretty_Z_chars (n : Z) : all_chars is_digit_or_minus (pretty n) = true.
Proof.
  unfold pretty, pretty_Z. destruct n as [|p|p]; [reflexivity|..].
  - unfold pretty, pretty_positive, pretty, pretty_N.
    rewrite decide_False by discriminate. by apply pretty_N_go_digits.
  - unfold pretty, pretty_positive, pretty, pretty_N.
    rewrite decide_False by discriminate. rewrite all_chars_app.
    by rewrite pretty_N_go_digits.
Qed.

Lemma zfill_chars width s :
  all_chars is_digit_or_minus s = true →
  all_chars is_digit_or_minus (zfill width s) = true.
Proof.
  intros Hs. unfold zfill. cbv zeta. destruct s as [|c rest]; [apply zeros_chars|].
  cbn [all_chars] in Hs. apply andb_true_iff in Hs as [Hc Hrest].
  case_bool_decide.
  - cbn [all_chars]. by rewrite Hc, all_chars_app, zeros_chars, Hrest.
  - rewrite all_chars_app, zeros_chars. cbn [all_chars]. by rewrite Hc, Hrest.
Qed.

Lemma app_separator_inj (d1 d2 z1 z2 : string) :
  all_chars is_digit_or_minus z1 = true → all_chars is_digit_or_minus z2 = true →
  d1 +:+ "_" +:+ z1 = d2 +:+ "_" +:+ z2 → d1 = d2 ∧ z1 = z2.
Proof.
  intros H1 H2.
  assert (Hno : ∀ d z z', all_chars is_digit_or_minus z = true →
                  z ≠ d +:+ "_" +:+ z').
  { intros d z z' Hz E. rewrite E, all_chars_app in Hz.
    apply andb_true_iff in Hz as [_ Hz]. discriminate Hz. }
  revert d2. induction d1 as [|c d1 IH]; intros [|c' d2] E;
    rewrite ?append_nil_l, ?append_cons_l, ?append_nil_l in E.
  - by injection E as ->.
  - injection E as <- E. by apply Hno in E.
  - injection E as -> E. symmetry in E. by apply Hno in E.
  - injection E as -> E. apply IH in E as [-> ->]. done.
Qed.

Lemma generate_article_id_inj (date1 date2 : string) (id1 id2 : Z) :
  generate_article_id date1 id1 = generate_article_id date2 id2 →
  date1 = date2 ∧ id1 = id2.
Proof.
  unfold generate_article_id. cbv zeta. intros E.
  rewrite !append_cons_l, append_nil_l in E.
  injection E as E.
  apply app_separator_inj in E as [-> E]; [|by apply zfill_chars, pretty_Z_chars..].
  split; [reflexivity|].
  apply (inj pretty). by rewrite <- (unfill_zfill id1), <- (unfill_zfill id2), E.
Qed.

(** Different articles get different IDs: two files that differ in the date
    string or in the number are never given the same ID, whatever the date
    strings are. *)
Theorem generate_article_id_distinct (date1 date2 : string) (id1 id2 : Z) :
  date1 ≠ date2 ∨ id1 ≠ id2 →
  generate_article_id date1 id1 ≠ generate_article_id date2 id2.
Proof.
  intros Hne E. apply generate_article_id_inj in E as [-> ->].
  by destruct Hne.
Qed.

Lemma generate_article_id_distinct_witness :
  generate_article_id "2008-04-01" 1 ≠ generate_article_id "2008-04-01" 10.
Proof.
  apply (generate_article_id_distinct "2008-04-01" "2008-04-01" 1 10).
  right. discriminate.
Defined.

Lemma zfill_three_digits_upto :
  Forall (λ k : nat, zfill 3 (pretty (Z.of_nat k)) = three_digits (Z.of_nat k))
         (seq 0 1000).
Proof. apply (bool_decide_unpack _). vm_compute. exact I. Qed.

(** The number part has the three digits of the documented format
    [fc2_YYYY-MM-DD_NNN] for the numbers 0 to 999: hundreds, tens and units,
    with zeros in front. *)
Theorem generate_article_id_format (date_str : string) (original_id : Z) :
  0 ≤ original_id < 1000 →
  generate_article_id date_str original_id
  = "fc2_" +:+ date_str +:+ "_" +:+ three_digits original_id.
Proof.
  intros Hn. unfold generate_article_id. cbv zeta. do 3 f_equal.
  rewrite <- (Z2Nat.id original_id) by lia.
  apply (proj1 (Forall_forall _ _) zfill_three_digits_upto).
  apply elem_of_seq. lia.
Qed.

Lemma generate_article_id_format_witness :
  generate_article_id "2008-04-01" 7 = "fc2_" +:+ "2008-04-01" +:+ "_" +:+ three_digits 7.
Proof. apply (generate_article_id_format "2008-04-01" 7). lia. Defined.
